(** * Engagement backend: session monitor, classifier, registries

    A shallow embedding of the Python backend (adaptive engine, engagement
    classifier and service, session manager, websocket managers) and the
    properties of its specification that were checked against the code. *)

From Stdlib Require Import ZArith List String Bool Lia Sorted.
From stdpp Require Import base option list gmap sets strings.

Import ListNotations.
Open Scope string_scope.
Open Scope list_scope.
Open Scope Z_scope.

(** ** Python runtime: exceptions, results, a state-and-exception monad *)

(** The exceptions the modelled code raises or receives from a collaborator.
    All of them derive from [Exception], so [except Exception] catches each. *)
Inductive exn : Type :=
| ValueError (msg : string)
| KeyError
| TypeError (msg : string)
| RuntimeError (msg : string)
| CollaboratorError (msg : string).

Inductive result (A : Type) : Type :=
| Ok (a : A)
| Raise (e : exn).
Arguments Ok {A} a.
Arguments Raise {A} e.

Definition is_ok {A} (r : result A) : bool :=
  match r with Ok _ => true | Raise _ => false end.

Inductive log_level := INFO | WARNING | ERROR.

(** A record handed to [logger]; the interpolated values of the f-strings are
    left out, the text before them is kept. *)
Record LogRecord := Log { levelname : log_level; message : string }.

(** A computation over a mutable world [S]: it returns or raises, and the
    mutations made before a raise stay in place, as in Python. *)
Definition M (S A : Type) : Type := S -> result A * S.

Section Monad.
Context {S : Type}.

Definition ret {A} (a : A) : M S A := fun s => (Ok a, s).

Definition bind {A B} (m : M S A) (k : A -> M S B) : M S B :=
  fun s => match m s with
           | (Ok a, s') => k a s'
           | (Raise e, s') => (Raise e, s')
           end.

Definition raise {A} (e : exn) : M S A := fun s => (Raise e, s).

Definition gets {A} (f : S -> A) : M S A := fun s => (Ok (f s), s).

Definition modify (f : S -> S) : M S unit := fun s => (Ok tt, f s).

Definition lift {A} (r : result A) : M S A := fun s => (r, s).

(** [try: body except Exception as e: handler e] *)
Definition try_except {A} (body : M S A) (handler : exn -> M S A) : M S A :=
  fun s => match body s with
           | (Ok a, s') => (Ok a, s')
           | (Raise e, s') => handler e s'
           end.

(** [try: body finally: final] *)
Definition try_finally {A} (body : M S A) (final : M S unit) : M S A :=
  fun s => match body s with
           | (r, s') => match final s' with
                        | (Ok _, s'') => (r, s'')
                        | (Raise e, s'') => (Raise e, s'')
                        end
           end.

(** [for x in xs: body x] *)
Fixpoint for_each {A} (xs : list A) (body : A -> M S unit) : M S unit :=
  match xs with
  | [] => ret tt
  | x :: rest => bind (body x) (fun _ => for_each rest body)
  end.
End Monad.

#[global] Instance M_ret {S} : MRet (M S) := @ret S.
#[global] Instance M_bind {S} : MBind (M S) := fun A B k m => bind m k.

(** ** Python [dict]: insertion-ordered, one entry per key *)

Module PyDict.
Section Dict.
Context {K V : Type} `{EqDecision K}.

Definition t := list (K * V).

Definition empty : t := [].

(** [d.get(k)] *)
Fixpoint get (d : t) (k : K) : option V :=
  match d with
  | [] => None
  | (k', v) :: rest => if decide (k' = k) then Some v else get rest k
  end.

(** [k in d] *)
Definition contains (d : t) (k : K) : bool :=
  match get d k with Some _ => true | None => false end.

(** [d[k] = v]: an existing key keeps its position, a new one goes last. *)
Fixpoint set (d : t) (k : K) (v : V) : t :=
  match d with
  | [] => [(k, v)]
  | (k', v') :: rest =>
      if decide (k' = k) then (k, v) :: rest else (k', v') :: set rest k v
  end.

(** [del d[k]] for a key the caller has checked to be present; absent keys
    leave the dict as it is. *)
Fixpoint del (d : t) (k : K) : t :=
  match d with
  | [] => []
  | (k', v') :: rest =>
      if decide (k' = k) then rest else (k', v') :: del rest k
  end.

(** [list(d.items())] *)
Definition items (d : t) : list (K * V) := d.

Definition keys (d : t) : list K := map fst d.

(** What every Python dict satisfies: no key twice. *)
Definition wf (d : t) : Prop := List.NoDup (keys d).
End Dict.
Arguments t : clear implicits.
End PyDict.

(** ** database/models.py *)

Inductive EngagementLevel := ACTIVE | MODERATE | PASSIVE.

#[global] Instance EngagementLevel_eq_dec : EqDecision EngagementLevel.
Proof. solve_decision. Defined.

Module SessionStatus.
Inductive t := PENDING | ACTIVE | ENDED.
#[global] Instance eq_dec : EqDecision t.
Proof. solve_decision. Defined.
End SessionStatus.

(** A row of [engagement_logs]; [timestamp] is the instant [utcnow()] gave. *)
Record EngagementLog := {
  log_id : Z;
  log_student_id : Z;
  engagement_level : EngagementLevel;
  log_session_id : Z;
  timestamp : Z
}.

#[global] Instance EngagementLog_eq_dec : EqDecision EngagementLog.
Proof. solve_decision. Defined.

(** A row of [sessions]. *)
Record Session := {
  id : Z;
  instructor_id : Z;
  start_time : option Z;
  end_time : option Z;
  status : SessionStatus.t;
  zoom_meeting_id : option string
}.

(** ** engagement_classifier/model.py and classifier.py *)

Module EngagementClassifier.

(** [EngagementClassifierModel]: [load_model] is a placeholder that leaves
    [is_loaded] false and [model] unset. *)
Record Model := { model_path : option string; is_loaded : bool }.

Definition Model_init (path : option string) : Model :=
  {| model_path := path; is_loaded := false |}.

(** [predict]: raises unless a model is loaded; no model is ever set. *)
Definition predict (m : Model) : result string :=
  Raise (RuntimeError "Model not loaded. Use rules-based classifier.").

Record t := { use_ml : bool; ml_model : option Model }.

(** [__init__(use_ml_model, model_path)]; an empty path is falsy. *)
Definition init (use_ml_model : bool) (path : option string) : t :=
  {| use_ml := use_ml_model;
     ml_model := match path with
                 | Some p => if use_ml_model && negb (String.eqb p "")
                             then Some (Model_init (Some p)) else None
                 | None => None
                 end |}.

Definition _classify_with_rules (response_time_ms : Z) (is_correct : bool)
  : EngagementLevel :=
  if (response_time_ms <? 4000) && is_correct then ACTIVE
  else if (response_time_ms >? 7000) || negb is_correct then PASSIVE
  else MODERATE.

(** [additional_context] is only recorded as given or not: spreading [None]
    raises before the model is asked. *)
Definition _classify_with_ml (m : Model) (response_time_ms : Z)
    (is_correct : bool) (additional_context : option unit)
  : result EngagementLevel :=
  match additional_context with
  | None => Raise (TypeError "'NoneType' object is not a mapping")
  | Some _ =>
      match predict m with
      | Raise e => Raise e
      | Ok p =>
          if String.eqb p "active" then Ok ACTIVE
          else if String.eqb p "moderate" then Ok MODERATE
          else if String.eqb p "passive" then Ok PASSIVE
          else Raise KeyError
      end
  end.

Definition classify (self : t) (response_time_ms : Z) (is_correct : bool)
    (additional_context : option unit) : result EngagementLevel :=
  match ml_model self with
  | Some m =>
      if use_ml self && is_loaded m
      then _classify_with_ml m response_time_ms is_correct additional_context
      else Ok (_classify_with_rules response_time_ms is_correct)
  | None => Ok (_classify_with_rules response_time_ms is_correct)
  end.

Definition create_classifier (use_ml : bool) (path : option string) : t :=
  init use_ml path.

End EngagementClassifier.

(** ** The database behind [SessionLocal] *)

(** The two tables the modelled code touches, in insertion order, and the
    environment's part: [query_fault student session] tells whether the read
    of the engagement log of that pair raises, and with what;
    [insert_fault row] tells whether the store refuses to add [row] to the
    engagement log (a student or session without a parent row where foreign
    keys are enforced, an identifier out of range, a lost connection), and
    with what. The users table is not part of the embedding. *)
Record Database := {
  sessions : list Session;
  engagement_logs : list EngagementLog;
  query_fault : Z -> Z -> option exn;
  insert_fault : EngagementLog -> option exn
}.

Definition with_sessions (rows : list Session) (db : Database) : Database :=
  {| sessions := rows;
     engagement_logs := engagement_logs db;
     query_fault := query_fault db;
     insert_fault := insert_fault db |}.

Definition with_engagement_logs (rows : list EngagementLog) (db : Database)
  : Database :=
  {| sessions := sessions db;
     engagement_logs := rows;
     query_fault := query_fault db;
     insert_fault := insert_fault db |}.

(** [.order_by(EngagementLog.timestamp.desc())]: rows by falling timestamp;
    rows of one timestamp keep their table order. *)
Fixpoint insert_desc (row : EngagementLog) (sorted : list EngagementLog)
  : list EngagementLog :=
  match sorted with
  | [] => [row]
  | r :: rest =>
      if timestamp r <=? timestamp row then row :: r :: rest
      else r :: insert_desc row rest
  end.

Definition order_by_timestamp_desc (rows : list EngagementLog)
  : list EngagementLog :=
  fold_right insert_desc [] rows.

(** [.first()] *)
Definition first {A} (rows : list A) : option A := head rows.

(** ** services/engagement_service.py *)

Module EngagementService.

Definition classifier : EngagementClassifier.t :=
  EngagementClassifier.create_classifier false None.

Definition classify_engagement (response_time_ms : Z) (is_correct : bool)
  : result EngagementLevel :=
  EngagementClassifier.classify classifier response_time_ms is_correct None.

(** The rows of one (student, session) pair: the two [.filter] calls. *)
Definition rows_of (db : Database) (student_id session_id : Z)
  : list EngagementLog :=
  List.filter (fun r => log_session_id r =? session_id)
    (List.filter (fun r => log_student_id r =? student_id)
       (engagement_logs db)).

(** [log_engagement]; [now] is what [datetime.utcnow()] returned and the new
    row gets the next identifier. [db.add] and [db.commit] raise what the
    store answers when it refuses the row, and then no row is written. *)
Definition log_engagement (now : Z) (db : Database)
    (student_id session_id response_time_ms : Z) (is_correct : bool)
  : result (EngagementLog * Database) :=
  match classify_engagement response_time_ms is_correct with
  | Raise e => Raise e
  | Ok level =>
      let engagement_log :=
        {| log_id := Z.of_nat (length (engagement_logs db)) + 1;
           log_student_id := student_id;
           engagement_level := level;
           log_session_id := session_id;
           timestamp := now |} in
      match insert_fault db engagement_log with
      | Some e => Raise e
      | None =>
          Ok (engagement_log,
              with_engagement_logs (engagement_logs db ++ [engagement_log]) db)
      end
  end.

Definition get_current_engagement (db : Database) (student_id session_id : Z)
  : result (option EngagementLevel) :=
  match query_fault db student_id session_id with
  | Some e => Raise e
  | None =>
      match first (order_by_timestamp_desc (rows_of db student_id session_id)) with
      | Some log => Ok (Some (engagement_level log))
      | None => Ok None
      end
  end.

End EngagementService.

(** ** Process state *)

(** What the code keeps of [AsyncIOScheduler]: the job ids and whether it
    runs. [sched_running] follows the calls of [start] and [shutdown] at
    once; the scheduler's own refusals, such as a start before an earlier
    shutdown has taken effect on the event loop, are outside the embedding. *)
Record Scheduler := { jobs : list string; sched_running : bool }.

(** The attributes of [AdaptiveEngine]. The factory opens a session on the
    database; the callback answers a push with success or an exception. *)
Record AdaptiveEngine := {
  scheduler : Scheduler;
  active_sessions : PyDict.t Z (gset Z);
  question_push_callback : option (Z -> gset Z -> result unit);
  db_session_factory : option (Database -> result Database);
  _running : bool
}.

(** The process: the database, the module-level engine and Zoom handler, and
    what the code did to the outside: records logged, calls made to the push
    callback, database sessions closed. *)
Record World := {
  database : Database;
  adaptive_engine : AdaptiveEngine;
  active_participants : PyDict.t string (gset string);
  logged : list LogRecord;
  push_calls : list (Z * gset Z);
  db_closed : nat
}.

Definition set_database (f : Database -> Database) (w : World) : World :=
  {| database := f (database w); adaptive_engine := adaptive_engine w;
     active_participants := active_participants w; logged := logged w;
     push_calls := push_calls w; db_closed := db_closed w |}.

Definition set_engine (f : AdaptiveEngine -> AdaptiveEngine) (w : World) : World :=
  {| database := database w; adaptive_engine := f (adaptive_engine w);
     active_participants := active_participants w; logged := logged w;
     push_calls := push_calls w; db_closed := db_closed w |}.

Definition set_participants
    (f : PyDict.t string (gset string) -> PyDict.t string (gset string))
    (w : World) : World :=
  {| database := database w; adaptive_engine := adaptive_engine w;
     active_participants := f (active_participants w); logged := logged w;
     push_calls := push_calls w; db_closed := db_closed w |}.

Definition logger (lvl : log_level) (msg : string) : M World unit :=
  modify (fun w =>
    {| database := database w; adaptive_engine := adaptive_engine w;
       active_participants := active_participants w;
       logged := logged w ++ [Log lvl msg];
       push_calls := push_calls w; db_closed := db_closed w |}).

(** [await callback(session_id, student_ids)]: the call is observed, then the
    callback's answer decides between returning and raising. *)
Definition call_push (callback : Z -> gset Z -> result unit) (session_id : Z)
    (student_ids : gset Z) : M World unit :=
  fun w =>
    (callback session_id student_ids,
     {| database := database w; adaptive_engine := adaptive_engine w;
        active_participants := active_participants w; logged := logged w;
        push_calls := push_calls w ++ [(session_id, student_ids)];
        db_closed := db_closed w |}).

(** [db.close()] *)
Definition db_close : M World unit :=
  modify (fun w =>
    {| database := database w; adaptive_engine := adaptive_engine w;
       active_participants := active_participants w; logged := logged w;
       push_calls := push_calls w; db_closed := S (db_closed w) |}).

(** ** services/adaptive_engine.py *)

Module Engine.

Definition with_active_sessions (d : PyDict.t Z (gset Z)) (self : AdaptiveEngine)
  : AdaptiveEngine :=
  {| scheduler := scheduler self; active_sessions := d;
     question_push_callback := question_push_callback self;
     db_session_factory := db_session_factory self;
     _running := _running self |}.

(** [__init__] *)
Definition init : AdaptiveEngine :=
  {| scheduler := {| jobs := []; sched_running := false |};
     active_sessions := PyDict.empty;
     question_push_callback := None;
     db_session_factory := None;
     _running := false |}.

Definition initialize (factory : Database -> result Database)
    (callback : Z -> gset Z -> result unit) : M World unit :=
  modify (set_engine (fun self =>
    {| scheduler := scheduler self; active_sessions := active_sessions self;
       question_push_callback := Some callback;
       db_session_factory := Some factory;
       _running := _running self |})).

(** [add_job(..., id='monitor_engagement', replace_existing=True)] *)
Definition add_job (job : string) (s : Scheduler) : Scheduler :=
  {| jobs := if bool_decide (job ∈ jobs s) then jobs s else jobs s ++ [job];
     sched_running := sched_running s |}.

Definition start : M World unit :=
  running ← gets (fun w => _running (adaptive_engine w));
  if (running : bool) then logger WARNING "Adaptive engine already running"
  else
    modify (set_engine (fun self =>
      {| scheduler :=
           {| jobs := jobs (add_job "monitor_engagement" (scheduler self));
              sched_running := true |};
         active_sessions := active_sessions self;
         question_push_callback := question_push_callback self;
         db_session_factory := db_session_factory self;
         _running := true |}));;
    logger INFO "Adaptive interaction engine started".

Definition stop : M World unit :=
  running ← gets (fun w => _running (adaptive_engine w));
  if (running : bool) then
    modify (set_engine (fun self =>
      {| scheduler := {| jobs := jobs (scheduler self); sched_running := false |};
         active_sessions := active_sessions self;
         question_push_callback := question_push_callback self;
         db_session_factory := db_session_factory self;
         _running := false |}));;
    logger INFO "Adaptive interaction engine stopped"
  else mret tt.

Definition add_session (session_id : Z) (student_ids : gset Z) : M World unit :=
  modify (set_engine (fun self =>
    with_active_sessions
      (PyDict.set (active_sessions self) session_id student_ids) self));;
  logger INFO "Added session".

Definition remove_session (session_id : Z) : M World unit :=
  present ← gets (fun w =>
    PyDict.contains (active_sessions (adaptive_engine w)) session_id);
  if (present : bool) then
    modify (set_engine (fun self =>
      with_active_sessions (PyDict.del (active_sessions self) session_id) self));;
    logger INFO "Removed session"
  else mret tt.

Definition update_session_students (session_id : Z) (student_ids : gset Z)
  : M World unit :=
  present ← gets (fun w =>
    PyDict.contains (active_sessions (adaptive_engine w)) session_id);
  if (present : bool) then
    modify (set_engine (fun self =>
      with_active_sessions
        (PyDict.set (active_sessions self) session_id student_ids) self))
  else mret tt.

Definition _should_deliver_question (engagement : option EngagementLevel)
    (student_id session_id : Z) : bool :=
  match engagement with
  | None => true
  | Some PASSIVE => true
  | Some MODERATE => true
  | Some ACTIVE => false
  end.

(** The body of [for student_id in student_ids], over the students still to
    visit and the set built so far. *)
Fixpoint identify_loop (db : Database) (session_id : Z) (students : list Z)
    (students_needing_questions : gset Z) : result (gset Z) :=
  match students with
  | [] => Ok students_needing_questions
  | student_id :: rest =>
      match EngagementService.get_current_engagement db student_id session_id with
      | Raise e => Raise e
      | Ok engagement =>
          identify_loop db session_id rest
            (if _should_deliver_question engagement student_id session_id
             then students_needing_questions ∪ {[student_id]}
             else students_needing_questions)
      end
  end.

Definition _identify_students_needing_questions (db : Database)
    (session_id : Z) (student_ids : gset Z) : result (gset Z) :=
  identify_loop db session_id (elements student_ids) ∅.

(** One pass of the [for] loop of [_monitor_engagement]. *)
Definition monitor_session (db : Database)
    (callback : Z -> gset Z -> result unit) (item : Z * gset Z) : M World unit :=
  let '(session_id, student_ids) := item in
  students_needing_questions ←
    lift (_identify_students_needing_questions db session_id student_ids);
  if bool_decide (students_needing_questions ≠ ∅) then
    logger INFO "students need questions";;
    call_push callback session_id students_needing_questions
  else mret tt.

(** One tick. *)
Definition _monitor_engagement : M World unit :=
  self ← gets adaptive_engine;
  match db_session_factory self, question_push_callback self with
  | Some factory, Some callback =>
      db ← (fun w => (factory (database w), w));
      try_finally
        (try_except
           (for_each (PyDict.items (active_sessions self))
              (monitor_session db callback))
           (fun e => logger ERROR "Error in engagement monitoring"))
        db_close
  | _, _ => logger ERROR "Adaptive engine not properly initialized"
  end.

End Engine.

(** ** zoom_integrator/zoom_events.py and session_manager.py *)

Module ZoomEventHandler.

Definition start_monitoring (meeting_id : string) : M World unit :=
  modify (set_participants (fun d => PyDict.set d meeting_id ∅));;
  logger INFO "Started monitoring meeting".

Definition stop_monitoring (meeting_id : string) : M World unit :=
  present ← gets (fun w => PyDict.contains (active_participants w) meeting_id);
  (if (present : bool)
   then modify (set_participants (fun d => PyDict.del d meeting_id))
   else mret tt);;
  logger INFO "Stopped monitoring meeting".

End ZoomEventHandler.

Module SessionManager.

(** [db.query(models.Session).filter(models.Session.id == session_id).first()] *)
Definition query_session (db : Database) (session_id : Z) : option Session :=
  first (List.filter (fun s => id s =? session_id) (sessions db)).

(** Attribute writes on the row [query_session] returned, then [db.commit()]. *)
Fixpoint update_row (session_id : Z) (f : Session -> Session)
    (rows : list Session) : list Session :=
  match rows with
  | [] => []
  | r :: rest =>
      if id r =? session_id then f r :: rest
      else r :: update_row session_id f rest
  end.

Definition set_status (st : SessionStatus.t) (s : Session) : Session :=
  {| id := id s; instructor_id := instructor_id s; start_time := start_time s;
     end_time := end_time s; status := st;
     zoom_meeting_id := zoom_meeting_id s |}.

Definition set_end_time (t : Z) (s : Session) : Session :=
  {| id := id s; instructor_id := instructor_id s; start_time := start_time s;
     end_time := Some t; status := status s;
     zoom_meeting_id := zoom_meeting_id s |}.

(** [if session.zoom_meeting_id:] holds for a non-empty string. *)
Definition truthy (s : option string) : option string :=
  match s with
  | Some m => if String.eqb m "" then None else Some m
  | None => None
  end.

(** [create_session]; [now] is what [datetime.utcnow()] returned. *)
Definition create_session (now : Z) (instructor : Z) (meeting : option string)
  : M World Session :=
  rows ← gets (fun w => sessions (database w));
  let session :=
    {| id := Z.of_nat (length rows) + 1; instructor_id := instructor;
       start_time := Some now; end_time := None;
       status := SessionStatus.PENDING; zoom_meeting_id := meeting |} in
  modify (set_database (with_sessions (rows ++ [session])));;
  logger INFO "Created session";;
  mret session.

Definition start_session (session_id : Z) (student_ids : gset Z)
  : M World unit :=
  found ← gets (fun w => query_session (database w) session_id);
  match found with
  | None => raise (ValueError "Session not found")
  | Some session =>
      modify (set_database (fun db =>
        with_sessions
          (update_row session_id (set_status SessionStatus.ACTIVE) (sessions db))
          db));;
      Engine.add_session session_id student_ids;;
      match truthy (zoom_meeting_id session) with
      | Some meeting => ZoomEventHandler.start_monitoring meeting
      | None => mret tt
      end;;
      logger INFO "Started session"
  end.

(** [stop_session]; [now] is what [datetime.utcnow()] returned. *)
Definition stop_session (now : Z) (session_id : Z) : M World unit :=
  found ← gets (fun w => query_session (database w) session_id);
  match found with
  | None => raise (ValueError "Session not found")
  | Some session =>
      modify (set_database (fun db =>
        with_sessions
          (update_row session_id
             (fun s => set_end_time now (set_status SessionStatus.ENDED s))
             (sessions db))
          db));;
      Engine.remove_session session_id;;
      match truthy (zoom_meeting_id session) with
      | Some meeting => ZoomEventHandler.stop_monitoring meeting
      | None => mret tt
      end;;
      logger INFO "Stopped session"
  end.

End SessionManager.

(** ** websocket/: the transport and the two connection managers *)

(** A [WebSocket] object is known by its identity. *)
Abbreviation WebSocket := nat (only parsing).
Abbreviation Message := string (only parsing).

(** The transport: [send_fault] is the environment's part (the exception
    [send_json] raises on a channel, if any); the rest records what the code
    did: channels accepted, [send_json] calls made, those that went through,
    records logged. *)
Record Transport := {
  send_fault : WebSocket -> option exn;
  accepted : list WebSocket;
  attempts : list (WebSocket * Message);
  delivered : list (WebSocket * Message);
  ws_logged : list LogRecord
}.

(** A manager instance of type [T] and the transport it talks to. *)
Record Net (T : Type) := { self : T; net : Transport }.
Arguments self {T} _.
Arguments net {T} _.

Section Net.
Context {T : Type}.

Definition set_self (f : T -> T) : M (Net T) unit :=
  modify (fun w => {| self := f (self w); net := net w |}).

Definition ws_logger (lvl : log_level) (msg : string) : M (Net T) unit :=
  modify (fun w =>
    {| self := self w;
       net := {| send_fault := send_fault (net w); accepted := accepted (net w);
                 attempts := attempts (net w); delivered := delivered (net w);
                 ws_logged := ws_logged (net w) ++ [Log lvl msg] |} |}).

(** [await websocket.accept()], taken to succeed: a handshake the client
    abandons is outside the embedding. *)
Definition accept (ws : WebSocket) : M (Net T) unit :=
  modify (fun w =>
    {| self := self w;
       net := {| send_fault := send_fault (net w);
                 accepted := accepted (net w) ++ [ws];
                 attempts := attempts (net w); delivered := delivered (net w);
                 ws_logged := ws_logged (net w) |} |}).

(** [await websocket.send_json(message)] *)
Definition send_json (ws : WebSocket) (msg : Message) : M (Net T) unit :=
  fun w =>
    match send_fault (net w) ws with
    | Some e =>
        (Raise e,
         {| self := self w;
            net := {| send_fault := send_fault (net w);
                      accepted := accepted (net w);
                      attempts := attempts (net w) ++ [(ws, msg)];
                      delivered := delivered (net w);
                      ws_logged := ws_logged (net w) |} |})
    | None =>
        (Ok tt,
         {| self := self w;
            net := {| send_fault := send_fault (net w);
                      accepted := accepted (net w);
                      attempts := attempts (net w) ++ [(ws, msg)];
                      delivered := delivered (net w) ++ [(ws, msg)];
                      ws_logged := ws_logged (net w) |} |})
    end.
End Net.

Definition quiet_transport (fault : WebSocket -> option exn) : Transport :=
  {| send_fault := fault; accepted := []; attempts := []; delivered := [];
     ws_logged := [] |}.

Module InstructorWebSocketManager.

Record t := {
  active_connections : PyDict.t Z (gset WebSocket);
  instructor_sessions : PyDict.t WebSocket Z
}.

Definition init : t :=
  {| active_connections := PyDict.empty; instructor_sessions := PyDict.empty |}.

Definition connections_of (m : t) (owner : Z) : gset WebSocket :=
  default ∅ (PyDict.get (active_connections m) owner).

Definition connect (websocket : WebSocket) (instructor : Z) : M (Net t) unit :=
  accept websocket;;
  set_self (fun m =>
    if PyDict.contains (active_connections m) instructor then m
    else {| active_connections := PyDict.set (active_connections m) instructor ∅;
            instructor_sessions := instructor_sessions m |});;
  set_self (fun m =>
    {| active_connections :=
         PyDict.set (active_connections m) instructor
           (connections_of m instructor ∪ {[websocket]});
       instructor_sessions := instructor_sessions m |});;
  set_self (fun m =>
    {| active_connections := active_connections m;
       instructor_sessions :=
         PyDict.set (instructor_sessions m) websocket instructor |});;
  ws_logger INFO "Instructor connected".

(** [self.active_connections[owner].remove(websocket)]: [set.remove] raises
    [KeyError] on a missing element. *)
Definition remove_connection (owner : Z) (websocket : WebSocket)
  : M (Net t) unit :=
  m ← gets self;
  if bool_decide (websocket ∈ connections_of m owner) then
    set_self (fun m =>
      {| active_connections :=
           PyDict.set (active_connections m) owner
             (connections_of m owner ∖ {[websocket]});
         instructor_sessions := instructor_sessions m |})
  else raise KeyError.

Definition disconnect (websocket : WebSocket) : M (Net t) unit :=
  m ← gets self;
  let instructor := PyDict.get (instructor_sessions m) websocket in
  match instructor with
  | Some owner =>
      if negb (owner =? 0) && PyDict.contains (active_connections m) owner then
        remove_connection owner websocket;;
        ws_logger INFO "Instructor disconnected"
      else mret tt
  | None => mret tt
  end;;
  m ← gets self;
  if PyDict.contains (instructor_sessions m) websocket then
    set_self (fun m =>
      {| active_connections := active_connections m;
         instructor_sessions := PyDict.del (instructor_sessions m) websocket |})
  else mret tt.

Definition send_dashboard_update (instructor : Z) (update : Message)
  : M (Net t) unit :=
  m ← gets self;
  if negb (PyDict.contains (active_connections m) instructor) then mret tt
  else
    let message := update in
    for_each (elements (connections_of m instructor)) (fun websocket =>
      try_except (send_json websocket message)
        (fun e => ws_logger ERROR "Error sending dashboard update to instructor")).

Definition send_engagement_update (instructor : Z) (update : Message)
  : M (Net t) unit :=
  m ← gets self;
  if negb (PyDict.contains (active_connections m) instructor) then mret tt
  else
    let message := update in
    for_each (elements (connections_of m instructor)) (fun websocket =>
      try_except (send_json websocket message)
        (fun e => ws_logger ERROR "Error sending engagement update to instructor")).

End InstructorWebSocketManager.

Module StudentWebSocketManager.

Record t := {
  active_connections : PyDict.t Z (gset WebSocket);
  student_sessions : PyDict.t WebSocket Z
}.

Definition init : t :=
  {| active_connections := PyDict.empty; student_sessions := PyDict.empty |}.

Definition connections_of (m : t) (session_id : Z) : gset WebSocket :=
  default ∅ (PyDict.get (active_connections m) session_id).

Definition connect (websocket : WebSocket) (session_id student_id : Z)
  : M (Net t) unit :=
  accept websocket;;
  set_self (fun m =>
    if PyDict.contains (active_connections m) session_id then m
    else {| active_connections := PyDict.set (active_connections m) session_id ∅;
            student_sessions := student_sessions m |});;
  set_self (fun m =>
    {| active_connections :=
         PyDict.set (active_connections m) session_id
           (connections_of m session_id ∪ {[websocket]});
       student_sessions := student_sessions m |});;
  set_self (fun m =>
    {| active_connections := active_connections m;
       student_sessions := PyDict.set (student_sessions m) websocket student_id |});;
  ws_logger INFO "Student connected to session".

(** The [for ... break] of [disconnect]: the first session, in dict order,
    whose set holds the channel loses it; [None] when no set holds it. *)
Fixpoint remove_first (websocket : WebSocket)
    (d : list (Z * gset WebSocket)) : option (list (Z * gset WebSocket)) :=
  match d with
  | [] => None
  | (session_id, connections) :: rest =>
      if bool_decide (websocket ∈ connections)
      then Some ((session_id, connections ∖ {[websocket]}) :: rest)
      else option_map (cons (session_id, connections))
             (remove_first websocket rest)
  end.

Definition disconnect (websocket : WebSocket) : M (Net t) unit :=
  m ← gets self;
  match remove_first websocket (PyDict.items (active_connections m)) with
  | Some d =>
      set_self (fun m =>
        {| active_connections := d; student_sessions := student_sessions m |});;
      ws_logger INFO "Student disconnected from session"
  | None => mret tt
  end;;
  m ← gets self;
  if PyDict.contains (student_sessions m) websocket then
    set_self (fun m =>
      {| active_connections := active_connections m;
         student_sessions := PyDict.del (student_sessions m) websocket |})
  else mret tt.

(** The [for ... break] of [send_question_to_student]: the first channel, in
    the order of [student_sessions], that belongs to the student and is in
    the session's set. *)
Definition find_target (m : t) (session_id student_id : Z) : option WebSocket :=
  option_map fst
    (find (fun '(ws, sid) =>
             (sid =? student_id) && bool_decide (ws ∈ connections_of m session_id))
       (PyDict.items (student_sessions m))).

Definition send_question_to_student (session_id student_id : Z)
    (question : Message) : M (Net t) unit :=
  m ← gets self;
  if negb (PyDict.contains (active_connections m) session_id) then
    ws_logger WARNING "No active connections for session"
  else
    match find_target m session_id student_id with
    | Some target_websocket =>
        try_except
          (let message := question in
           send_json target_websocket message;;
           ws_logger INFO "Sent question to student")
          (fun e => ws_logger ERROR "Error sending question to student")
    | None => ws_logger WARNING "Student not connected in session"
    end.

Definition send_question_to_multiple_students (session_id : Z)
    (student_ids : gset Z) (question : Message) : M (Net t) unit :=
  for_each (elements student_ids) (fun student_id =>
    send_question_to_student session_id student_id question).

End StudentWebSocketManager.

(** ** Observable effects of a run *)

(** [observe logs pushes closed w]: the world [w] after the code logged
    [logs], made the push calls [pushes] and closed [closed] sessions. *)
Definition observe (logs : list LogRecord) (pushes : list (Z * gset Z))
    (closed : nat) (w : World) : World :=
  {| database := database w; adaptive_engine := adaptive_engine w;
     active_participants := active_participants w;
     logged := logged w ++ logs;
     push_calls := push_calls w ++ pushes;
     db_closed := closed + db_closed w |}.

(** The push calls a tick started in [w] makes. *)
Definition tick_deliveries (w : World) : list (Z * gset Z) :=
  skipn (length (push_calls w)) (push_calls (snd (Engine._monitor_engagement w))).

(** The push calls of a pass over [items] in which nothing raises: one per
    session whose set of students needing questions is not empty. *)
Definition dispatches (db : Database) (items : list (Z * gset Z))
  : list (Z * gset Z) :=
  flat_map (fun '(session_id, student_ids) =>
    match Engine._identify_students_needing_questions db session_id student_ids with
    | Ok s => if bool_decide (s ≠ ∅) then [(session_id, s)] else []
    | Raise _ => []
    end) items.

Definition info_records (pushes : list (Z * gset Z)) : list LogRecord :=
  map (fun _ => Log INFO "students need questions") pushes.

(** Evaluation and dispatch of one session go through. *)
Definition session_ok (db : Database) (callback : Z -> gset Z -> result unit)
    (item : Z * gset Z) : Prop :=
  exists s, Engine._identify_students_needing_questions db (fst item) (snd item) = Ok s /\
            (s ≠ ∅ -> callback (fst item) s = Ok tt).


(** ** Sample worlds *)

Definition no_fault : Z -> Z -> option exn := fun _ _ => None.

(** A store that refuses no row. *)
Definition no_insert_fault : EngagementLog -> option exn := fun _ => None.

Definition pending_session (session_id : Z) : Session :=
  {| id := session_id; instructor_id := 1; start_time := Some 0;
     end_time := None; status := SessionStatus.PENDING;
     zoom_meeting_id := None |}.

(** A process just after [lifespan] start-up, with session 42 created. *)
Definition fresh_world : World :=
  {| database := {| sessions := [pending_session 42]; engagement_logs := [];
                    query_fault := no_fault;
                    insert_fault := no_insert_fault |};
     adaptive_engine := Engine.init;
     active_participants := PyDict.empty;
     logged := []; push_calls := []; db_closed := 0 |}.

Definition exec {S A} (m : M S A) (w : S) : S := snd (m w).

Definition started_world : World :=
  exec (Engine.initialize (fun db => Ok db) (fun _ _ => Ok tt);; Engine.start)
    fresh_world.

(** [log_engagement] from a request handler. *)
Definition record_response (now student session latency : Z) (correct : bool)
  : M World unit :=
  fun w =>
    match EngagementService.log_engagement now (database w) student session
            latency correct with
    | Ok (_, db) => (Ok tt, set_database (fun _ => db) w)
    | Raise e => (Raise e, w)
    end.

(** Session 42 started with roster {1, 2}: the world the first tick runs in. *)
Definition scenario_first_tick : World :=
  exec (SessionManager.start_session 42 {[1; 2]}) started_world.

(** After the first tick student 1 answers fast and right, student 2 slowly:
    the world the second tick runs in. *)
Definition scenario_second_tick : World :=
  exec (Engine._monitor_engagement;;
        record_response 10 1 42 1500 true;;
        record_response 11 2 42 9000 true) scenario_first_tick.

(** After the second tick session 42 is stopped: the world the third tick
    runs in. *)
Definition scenario_third_tick : World :=
  exec (Engine._monitor_engagement;; SessionManager.stop_session 20 42)
    scenario_second_tick.



(** The store cannot be read for session 10. *)
Definition session_10_unreadable : Z -> Z -> option exn :=
  fun _ session_id =>
    if session_id =? 10 then Some (CollaboratorError "store read error") else None.

(** Sessions 10 and 20 monitored, in this order, one student each. *)
Definition faulty_store_world : World :=
  exec (Engine.initialize (fun db => Ok db) (fun _ _ => Ok tt);;
        Engine.start;;
        Engine.add_session 10 {[1]};;
        Engine.add_session 20 {[2]})
    {| database := {| sessions := []; engagement_logs := [];
                      query_fault := session_10_unreadable;
                      insert_fault := no_insert_fault |};
       adaptive_engine := Engine.init;
       active_participants := PyDict.empty;
       logged := []; push_calls := []; db_closed := 0 |}.


Definition ended_session (session_id ended_at : Z) : Session :=
  {| id := session_id; instructor_id := 1; start_time := Some 0;
     end_time := Some ended_at; status := SessionStatus.ENDED;
     zoom_meeting_id := None |}.

(** Session 42 ended at instant 5. *)
Definition ended_world : World :=
  {| database := {| sessions := [ended_session 42 5]; engagement_logs := [];
                    query_fault := no_fault;
                    insert_fault := no_insert_fault |};
     adaptive_engine := Engine.init;
     active_participants := PyDict.empty;
     logged := []; push_calls := []; db_closed := 0 |}.


Definition event (ident student session : Z) (tier : EngagementLevel) (at_ : Z)
  : EngagementLog :=
  {| log_id := ident; log_student_id := student; engagement_level := tier;
     log_session_id := session; timestamp := at_ |}.

(** Student 1 of session 42 has three events, the latest one PASSIVE at 30;
    the table also holds events of another student and another session. *)
Definition sample_store : Database :=
  {| sessions := [];
     engagement_logs :=
       [event 1 1 42 ACTIVE 10; event 2 2 42 MODERATE 40;
        event 3 1 42 PASSIVE 30; event 4 1 7 ACTIVE 50;
        event 5 1 42 MODERATE 20];
     query_fault := no_fault;
     insert_fault := no_insert_fault |}.


(** ** Sample registries *)

Definition healthy : WebSocket -> option exn := fun _ => None.

Definition broken (bad : WebSocket) : WebSocket -> option exn :=
  fun ws => if Nat.eqb ws bad then Some (CollaboratorError "connection closed")
            else None.

(** Student 7 of session 5 on two channels, 1 and 2, connected in this order. *)
Definition two_tab_student (fault : WebSocket -> option exn)
  : Net StudentWebSocketManager.t :=
  exec (StudentWebSocketManager.connect 1%nat 5 7;;
        StudentWebSocketManager.connect 2%nat 5 7)
    {| self := StudentWebSocketManager.init; net := quiet_transport fault |}.

(** Instructor 3 on two channels, 1 and 2. *)
Definition two_tab_instructor (fault : WebSocket -> option exn)
  : Net InstructorWebSocketManager.t :=
  exec (InstructorWebSocketManager.connect 1%nat 3;;
        InstructorWebSocketManager.connect 2%nat 3)
    {| self := InstructorWebSocketManager.init; net := quiet_transport fault |}.

(** Instructor 0 on channel 1. *)
Definition owner_zero : Net InstructorWebSocketManager.t :=
  exec (InstructorWebSocketManager.connect 1%nat 0)
    {| self := InstructorWebSocketManager.init; net := quiet_transport healthy |}.

(** The channels of one student in one session. *)
Definition student_channel (m : StudentWebSocketManager.t)
    (session_id student_id : Z) (ws : WebSocket) : Prop :=
  PyDict.get (StudentWebSocketManager.student_sessions m) ws = Some student_id /\
  ws ∈ StudentWebSocketManager.connections_of m session_id.

(** A send to a student is attempted on each of the student's channels. *)
Definition student_fan_out (w : Net StudentWebSocketManager.t)
    (session_id student_id : Z) (question : Message) : Prop :=
  forall ws,
    student_channel (self w) session_id student_id ws ->
    In (ws, question)
      (attempts (net (exec (StudentWebSocketManager.send_question_to_student
                              session_id student_id question) w))).

(** The channels a send reaches: those of [targets] whose [send_json] returns. *)
Definition reached (fault : WebSocket -> option exn) (targets : list WebSocket)
  : list WebSocket :=
  List.filter (fun ws => match fault ws with None => true | Some _ => false end)
    targets.

Definition addressed (msg : Message) (targets : list WebSocket)
  : list (WebSocket * Message) :=
  map (fun ws => (ws, msg)) targets.


(** ** Registry invariants *)

(** What [connect] and [disconnect] keep true of the instructor-side manager:
    the channel map has no channel twice and a channel mapped to an owner is
    in that owner's set. *)
Definition instructor_inv (m : InstructorWebSocketManager.t) : Prop :=
  PyDict.wf (InstructorWebSocketManager.instructor_sessions m) /\
  forall ws owner,
    PyDict.get (InstructorWebSocketManager.instructor_sessions m) ws = Some owner ->
    ws ∈ InstructorWebSocketManager.connections_of m owner.

(** The instructor-side registries the process can be in. *)
Inductive instructor_reachable : Net InstructorWebSocketManager.t -> Prop :=
| instructor_reach_init tr :
    instructor_reachable {| self := InstructorWebSocketManager.init; net := tr |}
| instructor_reach_connect w ws owner :
    instructor_reachable w ->
    instructor_reachable (exec (InstructorWebSocketManager.connect ws owner) w)
| instructor_reach_disconnect w ws :
    instructor_reachable w ->
    instructor_reachable (exec (InstructorWebSocketManager.disconnect ws) w)
| instructor_reach_send w owner update :
    instructor_reachable w ->
    instructor_reachable
      (exec (InstructorWebSocketManager.send_dashboard_update owner update) w).


(** The sessions whose set holds a channel, on the student side. *)
Definition holders (ws : WebSocket) (d : list (Z * gset WebSocket))
  : list (Z * gset WebSocket) :=
  List.filter (fun item => bool_decide (ws ∈ snd item)) d.

(** What [connect], called with a channel that is in no set, and [disconnect]
    keep true of the student-side manager: the channel map has no channel
    twice and no channel is in the sets of two sessions. *)
Definition student_inv (m : StudentWebSocketManager.t) : Prop :=
  PyDict.wf (StudentWebSocketManager.student_sessions m) /\
  forall ws,
    (length (holders ws (StudentWebSocketManager.active_connections m)) <= 1)%nat.

(** The student-side registries the process can be in: every accepted
    connection is a new [WebSocket] object, in no set yet. *)
Inductive student_reachable : Net StudentWebSocketManager.t -> Prop :=
| student_reach_init tr :
    student_reachable {| self := StudentWebSocketManager.init; net := tr |}
| student_reach_connect w ws session_id student_id :
    student_reachable w ->
    holders ws (StudentWebSocketManager.active_connections (self w)) = [] ->
    student_reachable
      (exec (StudentWebSocketManager.connect ws session_id student_id) w)
| student_reach_disconnect w ws :
    student_reachable w ->
    student_reachable (exec (StudentWebSocketManager.disconnect ws) w)
| student_reach_send w session_id student_id question :
    student_reachable w ->
    student_reachable
      (exec (StudentWebSocketManager.send_question_to_student
               session_id student_id question) w).


(** The instructor-side manager after [disconnect] of a channel that its
    owner's set holds. *)
Definition instructor_after_disconnect (ws : WebSocket)
    (m : InstructorWebSocketManager.t) : InstructorWebSocketManager.t :=
  {| InstructorWebSocketManager.active_connections :=
       match PyDict.get (InstructorWebSocketManager.instructor_sessions m) ws with
       | Some owner =>
           if negb (owner =? 0) &&
              PyDict.contains (InstructorWebSocketManager.active_connections m) owner
           then PyDict.set (InstructorWebSocketManager.active_connections m) owner
                  (InstructorWebSocketManager.connections_of m owner ∖ {[ws]})
           else InstructorWebSocketManager.active_connections m
       | None => InstructorWebSocketManager.active_connections m
       end;
     InstructorWebSocketManager.instructor_sessions :=
       PyDict.del (InstructorWebSocketManager.instructor_sessions m) ws |}.

(** The student-side manager after [disconnect]. *)
Definition student_after_disconnect (ws : WebSocket)
    (m : StudentWebSocketManager.t) : StudentWebSocketManager.t :=
  {| StudentWebSocketManager.active_connections :=
       match StudentWebSocketManager.remove_first ws
               (StudentWebSocketManager.active_connections m) with
       | Some d => d
       | None => StudentWebSocketManager.active_connections m
       end;
     StudentWebSocketManager.student_sessions :=
       PyDict.del (StudentWebSocketManager.student_sessions m) ws |}.

(** ** services/engagement_service.py: history and statistics *)

Module EngagementReports.

(** The database behind [DATABASE_URL], which the environment chooses; the
    two kinds differ on a negative limit. *)
Inductive dialect := PostgreSQL | SQLite.

(** [.limit(limit)]: a negative limit is refused by PostgreSQL and means no
    limit to SQLite. *)
Definition limited {A} (engine : dialect) (limit : Z) (rows : list A)
  : result (list A) :=
  if limit <? 0 then
    match engine with
    | PostgreSQL => Raise (CollaboratorError "LIMIT must not be negative")
    | SQLite => Ok rows
    end
  else Ok (firstn (Z.to_nat limit) rows).

Definition get_student_engagement_history (engine : dialect) (db : Database)
    (student_id session_id limit : Z) : result (list EngagementLog) :=
  match query_fault db student_id session_id with
  | Some e => Raise e
  | None =>
      limited engine limit
        (order_by_timestamp_desc (EngagementService.rows_of db student_id session_id))
  end.

(** The dictionary [get_session_engagement_stats] returns. *)
Record Stats := {
  total_students : Z;
  active_students : Z;
  moderate_students : Z;
  passive_students : Z
}.

(** [db.query(EngagementLog).filter(session_id == ...).all()]; this read is
    taken to succeed. *)
Definition session_logs (db : Database) (session_id : Z) : list EngagementLog :=
  List.filter (fun r => log_session_id r =? session_id) (engagement_logs db).

(** [list(set(log.student_id for log in logs))] *)
Definition session_students (db : Database) (session_id : Z) : gset Z :=
  list_to_set (map log_student_id (session_logs db session_id)).

(** The query for [latest_log]. *)
Definition latest_log (db : Database) (student_id session_id : Z)
  : result (option EngagementLog) :=
  match query_fault db student_id session_id with
  | Some e => Raise e
  | None =>
      Ok (first (order_by_timestamp_desc
                   (EngagementService.rows_of db student_id session_id)))
  end.

(** The loop that fills [student_engagement]. *)
Fixpoint latest_levels (db : Database) (session_id : Z) (student_ids : list Z)
    (student_engagement : PyDict.t Z EngagementLevel)
  : result (PyDict.t Z EngagementLevel) :=
  match student_ids with
  | [] => Ok student_engagement
  | student_id :: rest =>
      match latest_log db student_id session_id with
      | Raise e => Raise e
      | Ok (Some log) =>
          latest_levels db session_id rest
            (PyDict.set student_engagement student_id (engagement_level log))
      | Ok None => latest_levels db session_id rest student_engagement
      end
  end.

(** [sum(1 for e in student_engagement.values() if e == level)] *)
Definition count_level (level : EngagementLevel)
    (student_engagement : PyDict.t Z EngagementLevel) : Z :=
  Z.of_nat (length (List.filter (fun item => bool_decide (snd item = level))
                      student_engagement)).

Definition get_session_engagement_stats (db : Database) (session_id : Z)
  : result Stats :=
  let student_ids := elements (session_students db session_id) in
  match latest_levels db session_id student_ids PyDict.empty with
  | Raise e => Raise e
  | Ok student_engagement =>
      Ok {| total_students := Z.of_nat (length student_engagement);
            active_students := count_level ACTIVE student_engagement;
            moderate_students := count_level MODERATE student_engagement;
            passive_students := count_level PASSIVE student_engagement |}
  end.

End EngagementReports.

(** The students of [students] whose current tier is [level]. *)
Definition at_tier (db : Database) (session_id : Z) (level : EngagementLevel)
    (students : list Z) : list Z :=
  List.filter (fun st =>
      match EngagementService.get_current_engagement db st session_id with
      | Ok (Some l) => bool_decide (l = level)
      | _ => false
      end) students.

(** Rows by falling timestamp. *)
Definition newest_first (rows : list EngagementLog) : Prop :=
  StronglySorted (fun a b => timestamp b <= timestamp a) rows.

(** The order of engagement tiers, PASSIVE lowest. *)
Definition tier_rank (level : EngagementLevel) : Z :=
  match level with ACTIVE => 2 | MODERATE => 1 | PASSIVE => 0 end.

(** The table of the session-summary example: student 1 ACTIVE then PASSIVE,
    student 2 MODERATE, all in session 42. *)
Definition summary_store : Database :=
  {| sessions := [];
     engagement_logs :=
       [event 1 1 42 ACTIVE 10; event 2 1 42 PASSIVE 20; event 3 2 42 MODERATE 15];
     query_fault := no_fault;
     insert_fault := no_insert_fault |}.


(** ** zoom_integrator: participants, roster refresh and session state *)

Module ZoomRoster.

(** A participant as the Zoom API reports it: a JSON object with text values. *)
Definition RawParticipant : Type := PyDict.t string string.

(** [participant.get(key, "")] *)
Definition field (participant : RawParticipant) (key : string) : string :=
  default "" (PyDict.get participant key).

(** An entry of [participant_list]; [student_id] is present when the username
    is in the mapping. *)
Record Participant := {
  zoom_username : string;
  email : string;
  join_time : string;
  student_id : option Z
}.

(** The body of the loop of [get_participants]. *)
Definition describe (student_mapping : PyDict.t string Z)
    (participant : RawParticipant) : Participant :=
  let username := field participant "user_name" in
  {| zoom_username := username;
     email := field participant "email";
     join_time := field participant "join_time";
     student_id := PyDict.get student_mapping username |}.

(** [get_participants]. [zoom_api] stands for
    [ZoomAPI.get_meeting_participants]: it answers with the participants (an
    empty list after an HTTP error) or raises when no access token can be
    had. [student_mapping] is the handler's attribute of that name. *)
Definition get_participants
    (zoom_api : string -> result (list RawParticipant))
    (student_mapping : PyDict.t string Z) (meeting_id : string)
  : M World (list Participant) :=
  participants ← lift (zoom_api meeting_id);
  let participant_list := map (describe student_mapping) participants in
  let current_usernames : gset string :=
    list_to_set (map (fun p => field p "user_name") participants) in
  present ← gets (fun w => PyDict.contains (active_participants w) meeting_id);
  (if (present : bool)
   then modify (set_participants (fun d => PyDict.set d meeting_id current_usernames))
   else mret tt);;
  mret participant_list.

Definition get_student_ids_from_participants
    (zoom_api : string -> result (list RawParticipant))
    (student_mapping : PyDict.t string Z) (meeting_id : string)
  : M World (gset Z) :=
  participants ← get_participants zoom_api student_mapping meeting_id;
  mret (list_to_set (omap student_id participants)).

(** [SessionManager.update_session_students] *)
Definition update_session_students
    (zoom_api : string -> result (list RawParticipant))
    (student_mapping : PyDict.t string Z) (session_id : Z) : M World unit :=
  found ← gets (fun w => SessionManager.query_session (database w) session_id);
  match found with
  | None => mret tt
  | Some session =>
      match SessionManager.truthy (zoom_meeting_id session) with
      | None => mret tt
      | Some meeting =>
          student_ids ←
            get_student_ids_from_participants zoom_api student_mapping meeting;
          Engine.update_session_students session_id student_ids;;
          logger INFO "Updated session"
      end
  end.

End ZoomRoster.

Module SessionView.

(** [session.status.value] *)
Definition status_value (st : SessionStatus.t) : string :=
  match st with
  | SessionStatus.PENDING => "pending"
  | SessionStatus.ACTIVE => "active"
  | SessionStatus.ENDED => "ended"
  end.

(** The dictionary [get_session_state] returns; times are kept as instants. *)
Record SessionState := {
  session_id : Z;
  status_text : string;
  started : option Z;
  ended : option Z;
  meeting : option string;
  num_students : Z;
  student_ids : list Z
}.

(** [SessionManager.get_session_state]; [None] is the empty dictionary. *)
Definition get_session_state (w : World) (sid : Z) : option SessionState :=
  match SessionManager.query_session (database w) sid with
  | None => None
  | Some session =>
      let students : gset Z :=
        default ∅ (PyDict.get (active_sessions (adaptive_engine w)) sid) in
      Some {| session_id := id session;
              status_text := status_value (status session);
              started := start_time session;
              ended := end_time session;
              meeting := zoom_meeting_id session;
              num_students := Z.of_nat (size students);
              student_ids := elements students |}
  end.

End SessionView.

(** A session with a Zoom meeting, not yet started. *)
Definition zoom_session (sid : Z) (meeting_id : string) : Session :=
  {| id := sid; instructor_id := 1; start_time := Some 0;
     end_time := None; status := SessionStatus.PENDING;
     zoom_meeting_id := Some meeting_id |}.

Definition zoom_world : World :=
  exec (Engine.initialize (fun db => Ok db) (fun _ _ => Ok tt);; Engine.start)
    {| database := {| sessions := [zoom_session 5 "m-5"; pending_session 6];
                      engagement_logs := []; query_fault := no_fault;
                      insert_fault := no_insert_fault |};
       adaptive_engine := Engine.init;
       active_participants := PyDict.empty;
       logged := []; push_calls := []; db_closed := 0 |}.

(** Three people in meeting m-5; "ann" and "bob" are mapped students. *)
Definition sample_api : string -> result (list ZoomRoster.RawParticipant) :=
  fun meeting_id =>
    if String.eqb meeting_id "m-5"
    then Ok [[("user_name", "ann")]; [("user_name", "guest")];
             [("user_name", "bob"); ("email", "bob@example.org")]]
    else Ok [].

Definition sample_mapping : PyDict.t string Z := [("ann", 11); ("bob", 12)].


(** ** websocket/student_ws.py: who is connected *)

Module StudentPresence.


End StudentPresence.

(** The channel a student-side send goes to, if any. *)
Definition student_targets (m : StudentWebSocketManager.t)
    (session_id student_id : Z) : list WebSocket :=
  match StudentWebSocketManager.find_target m session_id student_id with
  | Some ws => [ws]
  | None => []
  end.


(** The channels of [targets] whose [send_json] raises. *)
Definition failed (fault : WebSocket -> option exn) (targets : list WebSocket)
  : list WebSocket :=
  List.filter (fun ws => match fault ws with Some _ => true | None => false end)
    targets.

(** One ERROR record per channel of [targets]. *)
Definition error_records (text : string) (targets : list WebSocket)
  : list LogRecord :=
  map (fun _ => Log ERROR text) targets.

(** An entry of [student_sessions] that is a channel of the student in the
    session: mapped to the student and in the session's set. *)
Definition student_entry (m : StudentWebSocketManager.t)
    (session_id student_id : Z) (entry : WebSocket * Z) : Prop :=
  snd entry = student_id /\
  fst entry ∈ StudentWebSocketManager.connections_of m session_id.

(** The sample table with the row of session 42 in [sessions]. *)
Definition logged_store : Database :=
  with_sessions [pending_session 42] sample_store.


(** * Properties *)

(** ** Engagement classifier *)

Lemma create_classifier_not_loaded use_ml path m :
  EngagementClassifier.ml_model (EngagementClassifier.create_classifier use_ml path)
    = Some m ->
  EngagementClassifier.is_loaded m = false.
Proof.
  unfold EngagementClassifier.create_classifier, EngagementClassifier.init.
  simpl. destruct path as [p|]; [|discriminate].
  destruct (use_ml && negb (String.eqb p ""))%bool; [|discriminate].
  intros [= <-]. reflexivity.
Qed.

(** Whatever the factory is asked for, [classify] takes the rules path. *)
Lemma classify_falls_back_to_rules use_ml path latency correct ctx :
  EngagementClassifier.classify
    (EngagementClassifier.create_classifier use_ml path) latency correct ctx
  = Ok (EngagementClassifier._classify_with_rules latency correct).
Proof.
  unfold EngagementClassifier.classify.
  destruct (EngagementClassifier.ml_model _) as [m|] eqn:Hm; [|reflexivity].
  rewrite (create_classifier_not_loaded _ _ _ Hm), andb_false_r. reflexivity.
Qed.

(** C2: for a non-negative latency and a correctness flag, the rules give
    ACTIVE iff latency < 4000 and correct, PASSIVE iff (latency > 7000 or
    incorrect) and not (latency < 4000 and correct), MODERATE otherwise;
    latency 4000 with a correct answer is MODERATE and latency 7000 with a
    correct answer is not PASSIVE. [classify], as the service builds its
    classifier, returns exactly this tier and never raises. *)
Theorem classify_rules_tiers (latency : Z) (correct : bool) (Hlat : 0 <= latency) :
  let tier := EngagementClassifier._classify_with_rules latency correct in
  (tier = ACTIVE <-> latency < 4000 /\ correct = true) /\
  (tier = PASSIVE <->
     (latency > 7000 \/ correct = false) /\ ~ (latency < 4000 /\ correct = true)) /\
  (tier = MODERATE <->
     ~ (latency < 4000 /\ correct = true) /\ ~ (latency > 7000 \/ correct = false)) /\
  EngagementClassifier._classify_with_rules 4000 true = MODERATE /\
  EngagementClassifier._classify_with_rules 7000 true <> PASSIVE /\
  EngagementService.classify_engagement latency correct = Ok tier.
Proof.
  cbv zeta. split; [|split; [|split; [|split; [|split]]]];
    try reflexivity; try discriminate;
    try apply classify_falls_back_to_rules;
    unfold EngagementClassifier._classify_with_rules;
    destruct (Z.ltb_spec latency 4000), (Z.gtb_spec latency 7000), correct;
    simpl; split; try discriminate; try lia; try tauto;
    intros; try reflexivity; intuition (try lia; try discriminate).
Qed.

Lemma classify_rules_tiers_witness :
  0 <= 5500 /\ EngagementClassifier._classify_with_rules 5500 true = MODERATE.
Proof.
  assert (H : 0 <= 5500) by lia. split; [exact H|].
  pose proof (classify_rules_tiers 5500 true H) as P. cbv zeta in P.
  destruct P as (_ & _ & Hmod & _).
  apply Hmod. split; [intros [? _]; lia | intros [?|?]; [lia|discriminate]].
Defined.

(** ** Engagement store: the current tier *)

Lemma head_insert_desc row sorted :
  head (insert_desc row sorted) =
  Some (match head sorted with
        | None => row
        | Some r => if timestamp r <=? timestamp row then row else r
        end).
Proof.
  destruct sorted as [|r rest]; simpl; [reflexivity|].
  destruct (timestamp r <=? timestamp row); reflexivity.
Qed.

Lemma first_order_by_nil rows :
  first (order_by_timestamp_desc rows) = None <-> rows = [].
Proof.
  destruct rows as [|r rows]; simpl; [tauto|].
  unfold first. rewrite head_insert_desc. split; discriminate.
Qed.

(** The head of the ordered rows is one of the rows and no row is later. *)
Lemma first_order_by_latest rows :
  rows <> [] ->
  exists log,
    first (order_by_timestamp_desc rows) = Some log /\
    In log rows /\
    forall r, In r rows -> timestamp r <= timestamp log.
Proof.
  induction rows as [|x rows IH]; [congruence|]. intros _.
  unfold first in *. simpl. rewrite head_insert_desc.
  destruct rows as [|y rows'].
  - exists x. simpl. split; [reflexivity|]. split; [tauto|].
    intros r [<-|[]]. lia.
  - destruct IH as (m & Hm & Hin & Hmax); [discriminate|].
    rewrite Hm. destruct (Z.leb_spec (timestamp m) (timestamp x)).
    + exists x. split; [reflexivity|]. split; [left; reflexivity|].
      intros r [<-|Hr]; [lia|]. specialize (Hmax r Hr). lia.
    + exists m. split; [reflexivity|]. split; [right; exact Hin|].
      intros r [<-|Hr]; [lia|]. exact (Hmax r Hr).
Qed.

Lemma rows_of_In db student session r :
  In r (EngagementService.rows_of db student session) <->
  In r (engagement_logs db) /\
  log_student_id r = student /\ log_session_id r = session.
Proof.
  unfold EngagementService.rows_of. rewrite !filter_In, !Z.eqb_eq. tauto.
Qed.

(** C3: when the store answers, [get_current_engagement] is absent exactly
    when the pair has no recorded event; otherwise it is the tier of an event
    of the pair that no other event of the pair is later than, however many
    earlier events there are, and when one event is strictly the latest it is
    that event's tier. Absent is no tier. *)
Theorem current_tier_is_latest (db : Database) (student session : Z)
    (Hread : query_fault db student session = None) :
  let events := EngagementService.rows_of db student session in
  let current := EngagementService.get_current_engagement db student session in
  (current = Ok None <->
     forall r, In r (engagement_logs db) ->
               ~ (log_student_id r = student /\ log_session_id r = session)) /\
  (events <> [] ->
     exists log, In log events /\
       (forall r, In r events -> timestamp r <= timestamp log) /\
       current = Ok (Some (engagement_level log))) /\
  (forall latest, In latest events ->
     (forall r, In r events -> r <> latest -> timestamp r < timestamp latest) ->
     current = Ok (Some (engagement_level latest))) /\
  (forall tier : EngagementLevel,
     @Ok (option EngagementLevel) None <> Ok (Some tier)).
Proof.
  cbv zeta. unfold EngagementService.get_current_engagement. rewrite Hread.
  set (events := EngagementService.rows_of db student session).
  assert (Hsome : events <> [] ->
     exists log, In log events /\
       (forall r, In r events -> timestamp r <= timestamp log) /\
       match first (order_by_timestamp_desc events) with
       | Some l => Ok (Some (engagement_level l))
       | None => Ok None
       end = Ok (Some (engagement_level log))).
  { intros Hne. destruct (first_order_by_latest events Hne) as (log & Hf & Hin & Hmax).
    exists log. rewrite Hf. auto. }
  split; [|split; [exact Hsome|split]].
  - destruct (first (order_by_timestamp_desc events)) as [l|] eqn:Hf.
    + split; [discriminate|]. intros Hnone. exfalso.
      assert (Hne : events <> []).
      { intros E. apply first_order_by_nil in E. congruence. }
      destruct (first_order_by_latest events Hne) as (log & _ & Hin & _).
      apply rows_of_In in Hin. destruct Hin as (Hin & Hs & Hq).
      exact (Hnone log Hin (conj Hs Hq)).
    + split; [|reflexivity]. intros _ r Hin [Hs Hq].
      apply first_order_by_nil in Hf.
      assert (Hr : In r events) by (apply rows_of_In; auto).
      rewrite Hf in Hr. exact Hr.
  - intros latest Hin Hstrict.
    destruct Hsome as (log & Hlog & Hmax & ->).
    { intros E. rewrite E in Hin. exact Hin. }
    assert (log = latest) as ->; [|reflexivity].
    destruct (EngagementLog_eq_dec log latest) as [E|NE]; [exact E|].
    specialize (Hstrict log Hlog NE). specialize (Hmax latest Hin). lia.
  - intros tier. discriminate.
Qed.

(** ** Python dicts *)

Section PyDictFacts.
Context {K V : Type} `{EqDecision K}.
Implicit Types (d : PyDict.t K V) (k : K) (v : V).

Lemma get_In d k v : PyDict.get d k = Some v -> In (k, v) d.
Proof.
  induction d as [|[k' v'] d IH]; simpl; [discriminate|].
  destruct (decide (k' = k)) as [->|_].
  - intros [= ->]. left. reflexivity.
  - intros Hg. right. exact (IH Hg).
Qed.

Lemma get_None_keys d k : PyDict.get d k = None <-> ~ In k (PyDict.keys d).
Proof.
  induction d as [|[k' v'] d IH]; simpl; [tauto|].
  destruct (decide (k' = k)) as [->|Hne].
  - split; [discriminate|]. intros Hn. exfalso. apply Hn. left. reflexivity.
  - rewrite IH. tauto.
Qed.

Lemma In_get d k v : PyDict.wf d -> In (k, v) d -> PyDict.get d k = Some v.
Proof.
  unfold PyDict.wf. induction d as [|[k' v'] d IH]; simpl; [tauto|].
  intros Hwf [[= -> ->]|Hin].
  - destruct (decide (k = k)); [reflexivity|congruence].
  - apply List.NoDup_cons_iff in Hwf. destruct Hwf as [Hnotin Hwf].
    destruct (decide (k' = k)) as [->|_]; [|exact (IH Hwf Hin)].
    exfalso. apply Hnotin. apply (in_map fst) in Hin. exact Hin.
Qed.

Lemma get_set_eq d k v : PyDict.get (PyDict.set d k v) k = Some v.
Proof.
  induction d as [|[k' v'] d IH]; simpl.
  - destruct (decide (k = k)); [reflexivity|congruence].
  - destruct (decide (k' = k)) as [->|Hne]; simpl.
    + destruct (decide (k = k)); [reflexivity|congruence].
    + destruct (decide (k' = k)); [congruence|exact IH].
Qed.

Lemma get_set_ne d k k' v : k <> k' -> PyDict.get (PyDict.set d k v) k' = PyDict.get d k'.
Proof.
  intros Hne. induction d as [|[k0 v0] d IH]; simpl.
  - destruct (decide (k = k')); [congruence|reflexivity].
  - destruct (decide (k0 = k)) as [->|Hne0]; simpl.
    + destruct (decide (k = k')); [congruence|reflexivity].
    + destruct (decide (k0 = k')); [reflexivity|exact IH].
Qed.

Lemma keys_set d k v :
  PyDict.keys (PyDict.set d k v) =
  if PyDict.contains d k then PyDict.keys d else PyDict.keys d ++ [k].
Proof.
  unfold PyDict.contains. induction d as [|[k0 v0] d IH]; simpl; [reflexivity|].
  destruct (decide (k0 = k)) as [->|Hne]; simpl; [reflexivity|].
  rewrite IH. destruct (PyDict.get d k); reflexivity.
Qed.

Lemma wf_set d k v : PyDict.wf d -> PyDict.wf (PyDict.set d k v).
Proof.
  unfold PyDict.wf. rewrite keys_set. unfold PyDict.contains.
  destruct (PyDict.get d k) eqn:Hg; [tauto|].
  intros Hwf. apply List.NoDup_app; [exact Hwf| |].
  - apply List.NoDup_cons; [simpl; tauto|apply List.NoDup_nil].
  - intros x Hx [<-|[]]. apply get_None_keys in Hg. exact (Hg Hx).
Qed.

Lemma keys_del_subset d k x : In x (PyDict.keys (PyDict.del d k)) -> In x (PyDict.keys d).
Proof.
  induction d as [|[k0 v0] d IH]; simpl; [tauto|].
  destruct (decide (k0 = k)); simpl; [tauto|]. intros [->|Hin]; auto.
Qed.

Lemma wf_del d k : PyDict.wf d -> PyDict.wf (PyDict.del d k).
Proof.
  unfold PyDict.wf. induction d as [|[k0 v0] d IH]; simpl; [tauto|].
  intros Hwf. apply List.NoDup_cons_iff in Hwf. destruct Hwf as [Hnotin Hwf].
  destruct (decide (k0 = k)); simpl; [exact Hwf|].
  apply List.NoDup_cons_iff. split; [|exact (IH Hwf)].
  intros Hin. apply Hnotin. exact (keys_del_subset _ _ _ Hin).
Qed.

Lemma keys_del_absent d k : PyDict.wf d -> ~ In k (PyDict.keys (PyDict.del d k)).
Proof.
  unfold PyDict.wf. induction d as [|[k0 v0] d IH]; simpl; [tauto|].
  intros Hwf. apply List.NoDup_cons_iff in Hwf. destruct Hwf as [Hnotin Hwf].
  destruct (decide (k0 = k)) as [->|Hne]; simpl; [exact Hnotin|].
  intros [E|Hin]; [congruence|exact (IH Hwf Hin)].
Qed.

Lemma get_del_eq d k : PyDict.wf d -> PyDict.get (PyDict.del d k) k = None.
Proof. intros Hwf. apply get_None_keys. exact (keys_del_absent d k Hwf). Qed.

Lemma get_del_ne d k k' : k <> k' -> PyDict.get (PyDict.del d k) k' = PyDict.get d k'.
Proof.
  intros Hne. induction d as [|[k0 v0] d IH]; simpl; [reflexivity|].
  destruct (decide (k0 = k)) as [->|Hne0]; simpl.
  - destruct (decide (k = k')); [congruence|reflexivity].
  - destruct (decide (k0 = k')); [reflexivity|exact IH].
Qed.

Lemma del_absent d k : PyDict.get d k = None -> PyDict.del d k = d.
Proof.
  induction d as [|[k0 v0] d IH]; simpl; [reflexivity|].
  destruct (decide (k0 = k)); [discriminate|]. intros Hg. rewrite (IH Hg). reflexivity.
Qed.
End PyDictFacts.

(** ** Adaptive monitor: one tick *)

Lemma observe_nil w : observe [] [] 0 w = w.
Proof. destruct w. unfold observe. simpl. rewrite !app_nil_r. reflexivity. Qed.

Lemma observe_observe l1 p1 c1 l2 p2 c2 w :
  observe l2 p2 c2 (observe l1 p1 c1 w) = observe (l1 ++ l2) (p1 ++ p2) (c2 + c1) w.
Proof.
  unfold observe. simpl. rewrite <- !app_assoc, Nat.add_assoc. reflexivity.
Qed.

Lemma skipn_push_calls l p c w :
  skipn (length (push_calls w)) (push_calls (observe l p c w)) = p.
Proof.
  simpl. rewrite skipn_app, Nat.sub_diag, skipn_all. reflexivity.
Qed.

#[local] Arguments Engine.monitor_session : simpl never.
#[local] Arguments Engine._identify_students_needing_questions : simpl never.

Lemma monitor_session_run db callback session_id student_ids w :
  Engine.monitor_session db callback (session_id, student_ids) w =
  match Engine._identify_students_needing_questions db session_id student_ids with
  | Raise e => (Raise e, w)
  | Ok s =>
      if bool_decide (s ≠ ∅)
      then (callback session_id s,
            observe [Log INFO "students need questions"] [(session_id, s)] 0 w)
      else (Ok tt, w)
  end.
Proof.
  unfold Engine.monitor_session, mbind, M_bind, bind, lift.
  destruct (Engine._identify_students_needing_questions _ _ _) as [s|e];
    [|reflexivity].
  destruct (bool_decide (s ≠ ∅)); reflexivity.
Qed.

Lemma dispatches_app db l1 l2 :
  dispatches db (l1 ++ l2) = dispatches db l1 ++ dispatches db l2.
Proof. unfold dispatches. apply flat_map_app. Qed.

Lemma info_records_app p1 p2 :
  info_records (p1 ++ p2) = info_records p1 ++ info_records p2.
Proof. unfold info_records. apply map_app. Qed.



(** Whatever fails, a pass pushes for sessions among its items only. *)
Lemma for_each_sessions_pushes db callback items w :
  exists r logs pushes,
    for_each items (Engine.monitor_session db callback) w = (r, observe logs pushes 0 w) /\
    forall session_id s, In (session_id, s) pushes -> In session_id (map fst items).
Proof.
  revert w. induction items as [|[session_id student_ids] items IH]; intros w; simpl.
  - exists (Ok tt), [], []. rewrite observe_nil. split; [reflexivity|]. simpl. tauto.
  - unfold bind. rewrite monitor_session_run.
    destruct (Engine._identify_students_needing_questions _ _ _) as [s|e].
    + destruct (bool_decide (s ≠ ∅)).
      * destruct (callback session_id s) as [[]|e].
        -- destruct (IH (observe [Log INFO "students need questions"]
                           [(session_id, s)] 0 w)) as (r & logs & pushes & Hrun & Hin).
           rewrite Hrun, observe_observe. eexists _, _, _. split; [reflexivity|].
           intros sid' s' [[= <- <-]|Hp]; [left; reflexivity|right; eauto].
        -- eexists _, _, _. split; [reflexivity|].
           intros sid' s' [[= <- <-]|[]]. left. reflexivity.
      * destruct (IH w) as (r & logs & pushes & Hrun & Hin).
        rewrite Hrun. eexists _, _, _. split; [reflexivity|]. eauto.
    + exists (Raise e), [], []. rewrite observe_nil. split; [reflexivity|].
      simpl. tauto.
Qed.

Lemma tick_run w factory callback db :
  db_session_factory (adaptive_engine w) = Some factory ->
  question_push_callback (adaptive_engine w) = Some callback ->
  factory (database w) = Ok db ->
  Engine._monitor_engagement w =
  try_finally
    (try_except
       (for_each (PyDict.items (active_sessions (adaptive_engine w)))
          (Engine.monitor_session db callback))
       (fun e => logger ERROR "Error in engagement monitoring"))
    db_close w.
Proof.
  intros Hf Hc Hdb. unfold Engine._monitor_engagement, mbind, M_bind, bind, gets.
  rewrite Hf, Hc, Hdb. reflexivity.
Qed.



(** The push calls of any tick are for sessions the engine monitors. *)
Lemma tick_deliveries_monitored w session_id s :
  In (session_id, s) (tick_deliveries w) ->
  In session_id (PyDict.keys (active_sessions (adaptive_engine w))).
Proof.
  unfold tick_deliveries, Engine._monitor_engagement, mbind, M_bind, bind, gets.
  destruct (db_session_factory (adaptive_engine w)) as [factory|];
    [destruct (question_push_callback (adaptive_engine w)) as [callback|]|].
  - destruct (factory (database w)) as [db|e].
    + unfold try_finally, try_except.
      destruct (for_each_sessions_pushes db callback
                  (PyDict.items (active_sessions (adaptive_engine w))) w)
        as (r & logs & pushes & Hrun & Hin).
      rewrite Hrun. destruct r as [[]|e]; simpl;
        rewrite skipn_app, Nat.sub_diag, skipn_all; simpl; apply Hin.
    + simpl. rewrite skipn_all. intros [].
  - simpl. rewrite skipn_all. intros [].
  - simpl. rewrite skipn_all. intros [].
Qed.

Lemma get_current_engagement_ok db student session :
  query_fault db student session = None ->
  exists tier, EngagementService.get_current_engagement db student session = Ok tier.
Proof.
  intros Hq. unfold EngagementService.get_current_engagement. rewrite Hq.
  destruct (first _); eauto.
Qed.

Lemma identify_loop_members db session students acc :
  (forall st, In st students -> query_fault db st session = None) ->
  exists s,
    Engine.identify_loop db session students acc = Ok s /\
    forall x, x ∈ s <->
      x ∈ acc \/
      (In x students /\
       exists tier,
         EngagementService.get_current_engagement db x session = Ok tier /\
         Engine._should_deliver_question tier x session = true).
Proof.
  revert acc. induction students as [|st rest IH]; intros acc Hq; simpl.
  - exists acc. split; [reflexivity|]. intros x. split; [auto|].
    intros [H|[[] _]]. exact H.
  - destruct (get_current_engagement_ok db st session) as [tier Ht];
      [apply Hq; left; reflexivity|].
    rewrite Ht.
    destruct (IH (if Engine._should_deliver_question tier st session
                  then acc ∪ {[st]} else acc)) as (s & Hs & Hmem);
      [intros st' Hin; apply Hq; right; exact Hin|].
    exists s. split; [exact Hs|]. intros x. rewrite Hmem. clear Hmem Hs IH.
    destruct (Engine._should_deliver_question tier st session) eqn:Hd.
    + rewrite elem_of_union, elem_of_singleton. split.
      * intros [[H| ->]|[Hin Hx]]; [left; exact H| |right; split; [right|]; assumption].
        right. split; [left; reflexivity|]. exists tier. split; assumption.
      * intros [H|[[<-|Hin] Hx]]; [left; left; exact H|left; right; reflexivity|].
        right. split; assumption.
    + split.
      * intros [H|[Hin Hx]]; [left; exact H|right; split; [right|]; assumption].
      * intros [H|[[<-|Hin] Hx]]; [left; exact H| |right; split; assumption].
        destruct Hx as (tier' & Ht' & Hd'). rewrite Ht in Ht'.
        injection Ht' as <-. congruence.
Qed.

(** With a store that answers, the set of students needing questions is the
    part of the roster whose current tier calls for a question. *)
Lemma identify_students_members db session (roster : gset Z) :
  (forall st, st ∈ roster -> query_fault db st session = None) ->
  exists s,
    Engine._identify_students_needing_questions db session roster = Ok s /\
    forall x, x ∈ s <->
      x ∈ roster /\
      exists tier,
        EngagementService.get_current_engagement db x session = Ok tier /\
        Engine._should_deliver_question tier x session = true.
Proof.
  intros Hq. unfold Engine._identify_students_needing_questions.
  destruct (identify_loop_members db session (elements roster) ∅) as (s & Hs & Hmem).
  { intros st Hin. apply Hq. apply elem_of_elements, list_elem_of_In. exact Hin. }
  exists s. split; [exact Hs|]. intros x. rewrite Hmem.
  rewrite <- list_elem_of_In, elem_of_elements. split; [|auto].
  intros [Hempty|H]; [|exact H]. exfalso. exact (not_elem_of_empty x Hempty).
Qed.

Lemma In_dispatches db items session_id s :
  In (session_id, s) (dispatches db items) <->
  exists roster,
    In (session_id, roster) items /\
    Engine._identify_students_needing_questions db session_id roster = Ok s /\
    s ≠ ∅.
Proof.
  unfold dispatches. rewrite in_flat_map. split.
  - intros ([sid roster] & Hin & Hd).
    destruct (Engine._identify_students_needing_questions db sid roster) as [s'|e] eqn:Hs;
      [|destruct Hd].
    destruct (bool_decide (s' ≠ ∅)) eqn:Hne; [|destruct Hd].
    destruct Hd as [[= -> ->]|[]]. apply bool_decide_eq_true in Hne. eauto.
  - intros (roster & Hin & Hs & Hne). exists (session_id, roster).
    split; [exact Hin|]. rewrite Hs, (bool_decide_eq_true_2 _ Hne).
    left. reflexivity.
Qed.

Lemma should_deliver_cases (tier : option EngagementLevel) student session :
  (Engine._should_deliver_question tier student session = true <->
     tier = None \/ tier = Some PASSIVE \/ tier = Some MODERATE) /\
  (Engine._should_deliver_question tier student session = false <->
     tier = Some ACTIVE).
Proof.
  destruct tier as [[]|]; simpl; split; split; intros H;
    try discriminate; try reflexivity; auto;
    try (destruct H as [H|[H|H]]; discriminate).
Qed.

Lemma removed_session_not_delivered w session_id s :
  PyDict.wf (active_sessions (adaptive_engine w)) ->
  ~ In (session_id, s) (tick_deliveries (exec (Engine.remove_session session_id) w)).
Proof.
  intros Hwf Hin. apply tick_deliveries_monitored in Hin. revert Hin.
  unfold exec, Engine.remove_session, mbind, M_bind, bind, gets.
  unfold PyDict.contains.
  destruct (PyDict.get (active_sessions (adaptive_engine w)) session_id) eqn:Hg; simpl.
  - apply keys_del_absent. exact Hwf.
  - apply get_None_keys. exact Hg.
Qed.




Lemma current_tier_is_latest_witness :
  query_fault sample_store 1 42 = None /\
  EngagementService.get_current_engagement sample_store 1 42 = Ok (Some PASSIVE).
Proof.
  split; [reflexivity|].
  pose proof (current_tier_is_latest sample_store 1 42 eq_refl) as H.
  cbv zeta in H. destruct H as (_ & _ & Hlatest & _).
  apply (Hlatest (event 3 1 42 PASSIVE 30)).
  - vm_compute. auto.
  - intros r Hr Hne. vm_compute in Hr.
    destruct Hr as [<-|[<-|[<-|[]]]];
      [reflexivity|exfalso; apply Hne; reflexivity|reflexivity].
Defined.

(** ** Monitor start-up *)




(** ** Session lifecycle *)

Lemma query_session_update_row db session_id (f : Session -> Session) :
  (forall s, id (f s) = id s) ->
  SessionManager.query_session
    (with_sessions (SessionManager.update_row session_id f (sessions db)) db)
    session_id
  = option_map f (SessionManager.query_session db session_id).
Proof.
  intros Hid. unfold SessionManager.query_session, first. simpl.
  induction (sessions db) as [|r rows IH]; simpl; [reflexivity|].
  destruct (id r =? session_id) eqn:Hr; simpl.
  - rewrite Hid, Hr. reflexivity.
  - rewrite Hr. exact IH.
Qed.

Lemma start_session_known w session_id student_ids session :
  SessionManager.query_session (database w) session_id = Some session ->
  exists w',
    SessionManager.start_session session_id student_ids w = (Ok tt, w') /\
    database w' =
      with_sessions
        (SessionManager.update_row session_id
           (SessionManager.set_status SessionStatus.ACTIVE) (sessions (database w)))
        (database w) /\
    active_sessions (adaptive_engine w') =
      PyDict.set (active_sessions (adaptive_engine w)) session_id student_ids.
Proof.
  intros Hq.
  unfold SessionManager.start_session, mbind, M_bind, bind, gets. rewrite Hq.
  cbn. destruct (SessionManager.truthy (zoom_meeting_id session));
    cbn; eexists; split; try reflexivity; split; reflexivity.
Qed.

Lemma stop_session_known now w session_id session :
  SessionManager.query_session (database w) session_id = Some session ->
  exists w',
    SessionManager.stop_session now session_id w = (Ok tt, w') /\
    database w' =
      with_sessions
        (SessionManager.update_row session_id
           (fun s => SessionManager.set_end_time now
                       (SessionManager.set_status SessionStatus.ENDED s))
           (sessions (database w)))
        (database w) /\
    active_sessions (adaptive_engine w') =
      if PyDict.contains (active_sessions (adaptive_engine w)) session_id
      then PyDict.del (active_sessions (adaptive_engine w)) session_id
      else active_sessions (adaptive_engine w).
Proof.
  intros Hq.
  unfold SessionManager.stop_session, mbind, M_bind, bind, gets. rewrite Hq.
  cbn. unfold Engine.remove_session, mbind, M_bind, bind, gets. cbn.
  destruct (PyDict.contains (active_sessions (adaptive_engine w)) session_id);
    cbn;
    destruct (SessionManager.truthy (zoom_meeting_id session)); cbn;
    unfold ZoomEventHandler.stop_monitoring, mbind, M_bind, bind, gets; cbn;
    try (destruct (PyDict.contains (active_participants w) _); cbn);
    eexists; split; try reflexivity; split; reflexivity.
Qed.

(** C6 (amended): [start] on an unknown session_id fails with the not-found
    error and changes nothing. On a session that exists it never fails,
    whatever the current status: the status becomes ACTIVE, also when it was
    ENDED, and the session is registered with its roster in the monitor. No
    InvalidTransition is raised and the order PENDING, ACTIVE, ENDED is not
    enforced by [start]. *)
Theorem start_session_outcomes (w : World) (session_id : Z) (student_ids : gset Z) :
  (SessionManager.query_session (database w) session_id = None ->
   SessionManager.start_session session_id student_ids w
     = (Raise (ValueError "Session not found"), w)) /\
  (forall session,
     SessionManager.query_session (database w) session_id = Some session ->
     let w' := exec (SessionManager.start_session session_id student_ids) w in
     fst (SessionManager.start_session session_id student_ids w) = Ok tt /\
     SessionManager.query_session (database w') session_id
       = Some (SessionManager.set_status SessionStatus.ACTIVE session) /\
     PyDict.get (active_sessions (adaptive_engine w')) session_id
       = Some student_ids).
Proof.
  split.
  - intros Hq. unfold SessionManager.start_session, mbind, M_bind, bind, gets.
    rewrite Hq. reflexivity.
  - intros session Hq. cbv zeta. unfold exec.
    destruct (start_session_known w session_id student_ids session Hq)
      as (w' & -> & Hdb & Heng).
    cbn [fst snd]. split; [reflexivity|]. split.
    + rewrite Hdb, query_session_update_row, Hq; [reflexivity|].
      intros s. reflexivity.
    + rewrite Heng. apply get_set_eq.
Qed.

Lemma start_session_outcomes_witness :
  SessionManager.query_session (database ended_world) 42 = Some (ended_session 42 5) /\
  fst (SessionManager.start_session 42 {[1]} ended_world) = Ok tt /\
  SessionManager.query_session
    (database (exec (SessionManager.start_session 42 {[1]}) ended_world)) 42
  = Some (SessionManager.set_status SessionStatus.ACTIVE (ended_session 42 5)).
Proof.
  split; [reflexivity|].
  pose proof (proj2 (start_session_outcomes ended_world 42 {[1]})
                (ended_session 42 5) eq_refl) as H.
  cbv zeta in H. destruct H as (Hret & Hrow & _).
  split; [exact Hret|exact Hrow].
Defined.

(** Against C6 as stated: [start] on an ENDED session does not fail and sets
    it back to ACTIVE. *)
Lemma start_ended_session_reactivates :
  option_map status (SessionManager.query_session (database ended_world) 42)
    = Some SessionStatus.ENDED /\
  ~ (exists e, fst (SessionManager.start_session 42 {[1]} ended_world) = Raise e) /\
  option_map status
    (SessionManager.query_session
       (database (exec (SessionManager.start_session 42 {[1]}) ended_world)) 42)
    = Some SessionStatus.ACTIVE.
Proof.
  split; [reflexivity|]. split; [|vm_compute; reflexivity].
  intros [e He]. vm_compute in He. discriminate.
Qed.

(** C7 (amended): [stop] on an unknown session_id fails with the not-found
    error and changes nothing. On a session that exists it raises nothing,
    also when the session is already ENDED; it is not a no-op then: the status
    stays ENDED and the other columns stay, but the end timestamp is written
    again, with the time of this call, and the session is taken out of the
    monitor if it was there. *)
Theorem stop_session_outcomes (now : Z) (w : World) (session_id : Z) :
  (SessionManager.query_session (database w) session_id = None ->
   SessionManager.stop_session now session_id w
     = (Raise (ValueError "Session not found"), w)) /\
  (forall session,
     SessionManager.query_session (database w) session_id = Some session ->
     let w' := exec (SessionManager.stop_session now session_id) w in
     fst (SessionManager.stop_session now session_id w) = Ok tt /\
     SessionManager.query_session (database w') session_id
       = Some {| id := id session; instructor_id := instructor_id session;
                 start_time := start_time session; end_time := Some now;
                 status := SessionStatus.ENDED;
                 zoom_meeting_id := zoom_meeting_id session |} /\
     (PyDict.wf (active_sessions (adaptive_engine w)) ->
      PyDict.get (active_sessions (adaptive_engine w')) session_id = None)).
Proof.
  split.
  - intros Hq. unfold SessionManager.stop_session, mbind, M_bind, bind, gets.
    rewrite Hq. reflexivity.
  - intros session Hq. cbv zeta. unfold exec.
    destruct (stop_session_known now w session_id session Hq)
      as (w' & -> & Hdb & Heng).
    cbn [fst snd]. split; [reflexivity|]. split.
    + rewrite Hdb, query_session_update_row, Hq; [reflexivity|].
      intros s. reflexivity.
    + intros Hwf. rewrite Heng. unfold PyDict.contains.
      destruct (PyDict.get (active_sessions (adaptive_engine w)) session_id) eqn:Hg.
      * apply get_del_eq. exact Hwf.
      * exact Hg.
Qed.

Lemma stop_session_outcomes_witness :
  SessionManager.query_session (database ended_world) 42 = Some (ended_session 42 5) /\
  fst (SessionManager.stop_session 20 42 ended_world) = Ok tt /\
  SessionManager.query_session
    (database (exec (SessionManager.stop_session 20 42) ended_world)) 42
  = Some (ended_session 42 20).
Proof.
  split; [reflexivity|].
  pose proof (proj2 (stop_session_outcomes 20 ended_world 42)
                (ended_session 42 5) eq_refl) as H.
  cbv zeta in H. destruct H as (Hret & Hrow & _).
  split; [exact Hret|exact Hrow].
Defined.

(** Against C7 as stated: [stop] on an ENDED session succeeds but does not
    leave the record as it was: the end timestamp 5 becomes the time of the
    second stop. *)
Lemma stop_ended_session_rewrites_end_time :
  SessionManager.query_session (database ended_world) 42
    = Some (ended_session 42 5) /\
  fst (SessionManager.stop_session 20 42 ended_world) = Ok tt /\
  SessionManager.query_session
    (database (exec (SessionManager.stop_session 20 42) ended_world)) 42
    <> SessionManager.query_session (database ended_world) 42 /\
  option_map end_time
    (SessionManager.query_session
       (database (exec (SessionManager.stop_session 20 42) ended_world)) 42)
    = Some (Some 20).
Proof.
  split; [reflexivity|]. split; [reflexivity|]. split; [|reflexivity].
  vm_compute. discriminate.
Qed.

(** ** Connection registries: fan-out *)

Section FanOut.
Context {T : Type}.
Implicit Types (w : Net T) (targets : list WebSocket).

(** The loop of the instructor-side sends: each channel is tried once, in
    order; a failing channel adds a log record and the loop goes on. *)
Lemma for_each_send_json targets (msg text : string) w :
  exists w',
    for_each targets (fun ws =>
      try_except (send_json ws msg) (fun e => ws_logger ERROR text)) w
      = (Ok tt, w') /\
    self w' = self w /\
    send_fault (net w') = send_fault (net w) /\
    attempts (net w') = attempts (net w) ++ addressed msg targets /\
    delivered (net w') =
      delivered (net w) ++ addressed msg (reached (send_fault (net w)) targets).
Proof.
  set (body := fun ws : nat =>
    try_except (send_json (T := T) ws msg) (fun e => ws_logger ERROR text)).
  revert w. induction targets as [|ws targets IH]; intros w; simpl.
  - exists w. unfold addressed. simpl. rewrite !app_nil_r. auto.
  - unfold bind. unfold body at 1. unfold try_except, send_json.
    destruct (send_fault (net w) ws) as [e|] eqn:Hfault.
    + unfold ws_logger, modify. simpl.
      match goal with |- context [for_each targets body ?w1] =>
        destruct (IH w1) as (w' & Hrun & Hself & Hf & Ha & Hd) end.
      rewrite Hrun. exists w'. simpl in *. rewrite Hself, Hf, Ha, Hd.
      unfold addressed. simpl. rewrite <- !app_assoc. auto.
    + match goal with |- context [for_each targets body ?w1] =>
        destruct (IH w1) as (w' & Hrun & Hself & Hf & Ha & Hd) end.
      rewrite Hrun. exists w'. simpl in *. rewrite Hself, Hf, Ha, Hd.
      unfold addressed. simpl. rewrite <- !app_assoc. auto.
Qed.
End FanOut.

Lemma find_target_unknown_session m session_id student_id :
  PyDict.contains (StudentWebSocketManager.active_connections m) session_id = false ->
  StudentWebSocketManager.find_target m session_id student_id = None.
Proof.
  intros Hc. unfold StudentWebSocketManager.find_target.
  unfold StudentWebSocketManager.connections_of. unfold PyDict.contains in Hc.
  destruct (PyDict.get (StudentWebSocketManager.active_connections m) session_id);
    [discriminate|]. simpl.
  induction (PyDict.items (StudentWebSocketManager.student_sessions m))
    as [|[ws sid] rest IH]; simpl; [reflexivity|].
  rewrite bool_decide_eq_false_2 by apply not_elem_of_empty.
  rewrite andb_false_r. exact IH.
Qed.

Lemma In_addressed (msg : string) (targets : list nat) ws :
  In ws targets -> In (ws, msg) (addressed msg targets).
Proof. intros Hin. unfold addressed. apply (in_map (fun x => (x, msg))). exact Hin. Qed.

Lemma send_dashboard_update_run (w : Net InstructorWebSocketManager.t) owner update :
  let targets :=
    elements (InstructorWebSocketManager.connections_of (self w) owner) in
  let w' := exec (InstructorWebSocketManager.send_dashboard_update owner update) w in
  fst (InstructorWebSocketManager.send_dashboard_update owner update w) = Ok tt /\
  self w' = self w /\
  attempts (net w') = attempts (net w) ++ addressed update targets /\
  delivered (net w') =
    delivered (net w) ++ addressed update (reached (send_fault (net w)) targets).
Proof.
  cbv zeta. unfold exec.
  unfold InstructorWebSocketManager.send_dashboard_update, mbind, M_bind, bind, gets.
  destruct (PyDict.contains _ owner) eqn:Hc; simpl.
  - destruct (for_each_send_json
                (elements (InstructorWebSocketManager.connections_of (self w) owner))
                update "Error sending dashboard update to instructor" w)
      as (w' & -> & Hself & _ & Ha & Hd).
    simpl. auto.
  - unfold InstructorWebSocketManager.connections_of.
    unfold PyDict.contains in Hc.
    destruct (PyDict.get _ owner); [discriminate|]. simpl.
    rewrite elements_empty. unfold addressed. simpl. rewrite !app_nil_r. auto.
Qed.

Lemma send_question_to_student_run (w : Net StudentWebSocketManager.t)
    session_id student_id question :
  let targets :=
    match StudentWebSocketManager.find_target (self w) session_id student_id with
    | Some ws => [ws]
    | None => []
    end in
  let w' := exec (StudentWebSocketManager.send_question_to_student
                    session_id student_id question) w in
  fst (StudentWebSocketManager.send_question_to_student
         session_id student_id question w) = Ok tt /\
  self w' = self w /\
  attempts (net w') = attempts (net w) ++ addressed question targets /\
  delivered (net w') =
    delivered (net w) ++ addressed question (reached (send_fault (net w)) targets).
Proof.
  cbv zeta. unfold exec.
  unfold StudentWebSocketManager.send_question_to_student, mbind, M_bind, bind, gets.
  destruct (PyDict.contains _ session_id) eqn:Hc; simpl.
  - destruct (StudentWebSocketManager.find_target (self w) session_id student_id)
      as [ws|]; simpl.
    + unfold try_except, send_json, ws_logger, modify, addressed. simpl.
      destruct (send_fault (net w) ws); simpl; rewrite ?app_nil_r; auto.
    + unfold addressed. simpl. rewrite !app_nil_r. auto.
  - rewrite (find_target_unknown_session _ _ _ Hc).
    unfold addressed. simpl. rewrite !app_nil_r. auto.
Qed.

(** ** Connection registries: connect and disconnect *)

Lemma set_set {K V : Type} `{EqDecision K} (d : PyDict.t K V) k v v' :
  PyDict.set (PyDict.set d k v) k v' = PyDict.set d k v'.
Proof.
  induction d as [|[k0 v0] d IH]; simpl.
  - destruct (decide (k = k)); [reflexivity|congruence].
  - destruct (decide (k0 = k)) as [->|Hne]; simpl.
    + destruct (decide (k = k)); [reflexivity|congruence].
    + destruct (decide (k0 = k)); [congruence|]. rewrite IH. reflexivity.
Qed.

Module InstructorFacts.
Import InstructorWebSocketManager.

Lemma instructor_connections_of_set m d owner conns owner' :
  connections_of
    {| active_connections := PyDict.set (active_connections m) owner conns;
       instructor_sessions := d |} owner'
  = if decide (owner = owner') then conns else connections_of m owner'.
Proof.
  unfold connections_of. simpl. destruct (decide (owner = owner')) as [->|Hne].
  - rewrite get_set_eq. reflexivity.
  - rewrite get_set_ne by exact Hne. reflexivity.
Qed.

Lemma instructor_connect_self ws owner w :
  self (exec (connect ws owner) w) =
  {| active_connections :=
       PyDict.set (active_connections (self w)) owner
         (connections_of (self w) owner ∪ {[ws]});
     instructor_sessions := PyDict.set (instructor_sessions (self w)) ws owner |}.
Proof.
  unfold exec, connect, mbind, M_bind, bind, accept, set_self, ws_logger, modify.
  simpl. unfold connections_of, PyDict.contains.
  destruct (PyDict.get (active_connections (self w)) owner) as [conns|] eqn:Hg; simpl.
  - rewrite Hg. reflexivity.
  - rewrite get_set_eq, set_set. reflexivity.
Qed.

Lemma instructor_connect_returns ws owner w : fst (connect ws owner w) = Ok tt.
Proof. reflexivity. Qed.

Lemma instructor_connect_inv ws owner w :
  instructor_inv (self w) -> instructor_inv (self (exec (connect ws owner) w)).
Proof.
  intros [Hwf Hmap]. rewrite instructor_connect_self. split; simpl.
  - apply wf_set. exact Hwf.
  - intros ws' owner' Hg. rewrite instructor_connections_of_set.
    destruct (decide (ws = ws')) as [<-|Hne].
    + rewrite get_set_eq in Hg. injection Hg as <-.
      destruct (decide (owner = owner)); [|congruence].
      apply elem_of_union_r, elem_of_singleton. reflexivity.
    + rewrite get_set_ne in Hg by exact Hne. specialize (Hmap ws' owner' Hg).
      destruct (decide (owner = owner')) as [<-|_]; [|exact Hmap].
      apply elem_of_union_l. exact Hmap.
Qed.

Lemma instructor_disconnect_run ws w :
  instructor_inv (self w) ->
  exists w', disconnect ws w = (Ok tt, w') /\ self w' = instructor_after_disconnect ws (self w).
Proof.
  intros [Hwf Hmap].
  unfold disconnect, mbind, M_bind, bind, gets, instructor_after_disconnect.
  destruct (PyDict.get (instructor_sessions (self w)) ws) as [owner|] eqn:Hg.
  - specialize (Hmap ws owner Hg).
    destruct (negb (owner =? 0) && PyDict.contains (active_connections (self w)) owner)
      eqn:Hguard.
    + unfold remove_connection, mbind, M_bind, bind, gets.
      rewrite (bool_decide_eq_true_2 _ Hmap).
      unfold set_self, ws_logger, modify, PyDict.contains. simpl. rewrite Hg. simpl.
      eexists. split; reflexivity.
    + unfold set_self, modify, PyDict.contains. simpl. rewrite Hg. simpl.
      eexists. split; reflexivity.
  - unfold PyDict.contains. simpl. rewrite Hg. exists w. split; [reflexivity|].
    rewrite (del_absent _ _ Hg). destruct (self w). reflexivity.
Qed.

Lemma instructor_disconnect_inv ws w :
  instructor_inv (self w) -> instructor_inv (self (exec (disconnect ws) w)).
Proof.
  intros Hinv. destruct (instructor_disconnect_run ws w Hinv) as (w' & Hrun & Hself).
  unfold exec. rewrite Hrun. simpl. rewrite Hself.
  destruct Hinv as [Hwf Hmap]. split; simpl.
  - apply wf_del. exact Hwf.
  - intros ws' owner' Hg'.
    assert (Hne : ws <> ws').
    { intros <-. rewrite (get_del_eq _ _ Hwf) in Hg'. discriminate. }
    rewrite get_del_ne in Hg' by exact Hne. specialize (Hmap ws' owner' Hg').
    unfold instructor_after_disconnect.
    destruct (PyDict.get (instructor_sessions (self w)) ws) as [owner|];
      [|exact Hmap].
    destruct (negb (owner =? 0) && PyDict.contains (active_connections (self w)) owner);
      [|exact Hmap].
    rewrite instructor_connections_of_set. destruct (decide (owner = owner')) as [<-|_];
      [|exact Hmap].
    apply elem_of_difference. split; [exact Hmap|].
    rewrite elem_of_singleton. congruence.
Qed.

Lemma instructor_send_self owner update w :
  self (exec (send_dashboard_update owner update) w) = self w.
Proof.
  pose proof (send_dashboard_update_run w owner update) as H. cbv zeta in H.
  destruct H as (_ & H & _). exact H.
Qed.

End InstructorFacts.

Lemma instructor_reachable_inv w : instructor_reachable w -> instructor_inv (self w).
Proof.
  induction 1 as [tr|w ws owner _ IH|w ws _ IH|w owner update _ IH].
  - split; simpl.
    + apply List.NoDup_nil.
    + intros ws owner Hg. discriminate.
  - apply InstructorFacts.instructor_connect_inv. exact IH.
  - apply InstructorFacts.instructor_disconnect_inv. exact IH.
  - rewrite InstructorFacts.instructor_send_self. exact IH.
Qed.

(** Instructor side: [disconnect] on a channel the channel map does not know,
    never registered or already disconnected, changes nothing. *)
Lemma instructor_disconnect_unknown ws (w : Net InstructorWebSocketManager.t) :
  PyDict.get (InstructorWebSocketManager.instructor_sessions (self w)) ws = None ->
  InstructorWebSocketManager.disconnect ws w = (Ok tt, w).
Proof.
  intros Hg.
  unfold InstructorWebSocketManager.disconnect, mbind, M_bind, bind, gets,
    PyDict.contains, mret, M_ret, ret.
  rewrite Hg. simpl. rewrite Hg. reflexivity.
Qed.

(** X15: instructor side: in a reachable registry [disconnect] does not
    raise, and a second [disconnect] of the same channel changes nothing. *)
Lemma instructor_disconnect_twice ws w :
  instructor_reachable w ->
  exists w1,
    InstructorWebSocketManager.disconnect ws w = (Ok tt, w1) /\
    InstructorWebSocketManager.disconnect ws w1 = (Ok tt, w1).
Proof.
  intros Hreach. pose proof (instructor_reachable_inv w Hreach) as Hinv.
  destruct (InstructorFacts.instructor_disconnect_run ws w Hinv) as (w1 & Hrun & Hself).
  exists w1. split; [exact Hrun|]. apply instructor_disconnect_unknown.
  rewrite Hself. simpl. apply get_del_eq. exact (proj1 Hinv).
Qed.

(** X16: instructor side, owner other than 0: after [disconnect] the channel
    is in neither map, so no later send is tried on it. *)
Lemma instructor_disconnect_removes ws owner w :
  instructor_reachable w ->
  PyDict.get (InstructorWebSocketManager.instructor_sessions (self w)) ws
    = Some owner ->
  owner <> 0 ->
  let w1 := exec (InstructorWebSocketManager.disconnect ws) w in
  (ws ∉ InstructorWebSocketManager.connections_of (self w1) owner) /\
  PyDict.get (InstructorWebSocketManager.instructor_sessions (self w1)) ws = None.
Proof.
  intros Hreach Hg Hne. cbv zeta.
  pose proof (instructor_reachable_inv w Hreach) as Hinv.
  destruct (InstructorFacts.instructor_disconnect_run ws w Hinv) as (w1 & Hrun & Hself).
  unfold exec. rewrite Hrun. simpl. rewrite Hself.
  destruct Hinv as [Hwf Hmap]. specialize (Hmap ws owner Hg).
  split; [|simpl; apply get_del_eq; exact Hwf].
  unfold instructor_after_disconnect. rewrite Hg.
  assert (Hc : PyDict.contains
                 (InstructorWebSocketManager.active_connections (self w)) owner = true).
  { unfold PyDict.contains. unfold InstructorWebSocketManager.connections_of in Hmap.
    destruct (PyDict.get _ owner); [reflexivity|].
    exfalso. exact (not_elem_of_empty _ Hmap). }
  rewrite Hc. destruct (Z.eqb_spec owner 0) as [E|_]; [contradiction|]. simpl.
  rewrite InstructorFacts.instructor_connections_of_set.
  destruct (decide (owner = owner)); [|congruence].
  rewrite elem_of_difference, elem_of_singleton. tauto.
Qed.

Example instructor_send_skips_broken_channel :
  let w := exec (InstructorWebSocketManager.send_dashboard_update 3 "stats")
             (two_tab_instructor (broken 2%nat)) in
  attempts (net w) = [(2%nat, "stats"); (1%nat, "stats")] /\
  delivered (net w) = [(1%nat, "stats")] /\
  length (ws_logged (net w)) = S (length (ws_logged (net (two_tab_instructor (broken 2%nat))))).
Proof. vm_compute. auto. Qed.

(** C10: the registry does not keep channel sets and channel map in step for
    owner 0. After instructor 0 connects channel 1 and the channel is
    disconnected, [disconnect] has returned normally and dropped the channel
    from the channel map, yet the channel is still in the set of owner 0, and
    the next dashboard update to owner 0 is sent on it. *)
Theorem disconnect_owner_zero_keeps_channel :
  let w1 := exec (InstructorWebSocketManager.disconnect 1%nat) owner_zero in
  instructor_reachable owner_zero /\
  PyDict.get (InstructorWebSocketManager.instructor_sessions (self owner_zero)) 1%nat
    = Some 0 /\
  fst (InstructorWebSocketManager.disconnect 1%nat owner_zero) = Ok tt /\
  PyDict.get (InstructorWebSocketManager.instructor_sessions (self w1)) 1%nat = None /\
  InstructorWebSocketManager.connections_of (self w1) 0 = {[1%nat]} /\
  attempts (net (exec (InstructorWebSocketManager.send_dashboard_update 0 "stats") w1))
    = [(1%nat, "stats")].
Proof.
  cbv zeta. split; [|vm_compute; auto 6].
  unfold owner_zero. apply instructor_reach_connect, instructor_reach_init.
Qed.

(** C8: two [disconnect] calls in a row on the one channel of instructor 0
    raise nothing, and the second changes nothing, but the channel's entry in
    the set of owner 0 is left behind by both. *)
Theorem double_disconnect_owner_zero_leaves_entry :
  let w1 := exec (InstructorWebSocketManager.disconnect 1%nat) owner_zero in
  let w2 := exec (InstructorWebSocketManager.disconnect 1%nat) w1 in
  fst (InstructorWebSocketManager.disconnect 1%nat owner_zero) = Ok tt /\
  fst (InstructorWebSocketManager.disconnect 1%nat w1) = Ok tt /\
  w2 = w1 /\
  PyDict.get (InstructorWebSocketManager.active_connections (self w2)) 0
    = Some {[1%nat]} /\
  PyDict.get (InstructorWebSocketManager.instructor_sessions (self w2)) 1%nat = None.
Proof. cbv zeta. vm_compute. auto 6. Qed.

Module StudentFacts.
Import StudentWebSocketManager.

Lemma student_connect_self ws session_id student_id w :
  self (exec (connect ws session_id student_id) w) =
  {| active_connections :=
       PyDict.set (active_connections (self w)) session_id
         (connections_of (self w) session_id ∪ {[ws]});
     student_sessions := PyDict.set (student_sessions (self w)) ws student_id |}.
Proof.
  unfold exec, connect, mbind, M_bind, bind, accept, set_self, ws_logger, modify.
  simpl. unfold connections_of, PyDict.contains.
  destruct (PyDict.get (active_connections (self w)) session_id) as [conns|] eqn:Hg;
    simpl.
  - rewrite Hg. reflexivity.
  - rewrite get_set_eq, set_set. reflexivity.
Qed.

Lemma student_disconnect_run ws w :
  exists w', disconnect ws w = (Ok tt, w') /\ self w' = student_after_disconnect ws (self w).
Proof.
  unfold disconnect, mbind, M_bind, bind, gets, mret, M_ret, ret,
    student_after_disconnect, PyDict.items.
  destruct (remove_first ws (active_connections (self w))) as [d|];
    unfold set_self, ws_logger, modify, PyDict.contains; simpl;
    destruct (PyDict.get (student_sessions (self w)) ws) eqn:Hg; simpl;
    eexists; (split; [reflexivity|]); simpl;
    rewrite ?(del_absent _ _ Hg); try reflexivity.
  destruct (self w). reflexivity.
Qed.

Lemma student_disconnect_unknown ws w :
  remove_first ws (active_connections (self w)) = None ->
  PyDict.get (student_sessions (self w)) ws = None ->
  disconnect ws w = (Ok tt, w).
Proof.
  intros Hr Hg.
  unfold disconnect, mbind, M_bind, bind, gets, mret, M_ret, ret, PyDict.items,
    PyDict.contains.
  rewrite Hr. simpl. rewrite Hg. reflexivity.
Qed.

Lemma remove_first_no_holder ws d :
  holders ws d = [] <-> remove_first ws d = None.
Proof.
  induction d as [|[sid conns] d IH]; simpl; [tauto|].
  destruct (bool_decide (ws ∈ conns)); [split; discriminate|].
  rewrite IH. destruct (remove_first ws d); simpl; split; congruence.
Qed.

Lemma remove_first_fewer_holders ws ws' d d' :
  remove_first ws d = Some d' ->
  (length (holders ws' d') <= length (holders ws' d))%nat.
Proof.
  revert d'. induction d as [|[sid conns] d IH]; intros d'; simpl; [discriminate|].
  destruct (bool_decide (ws ∈ conns)) eqn:Hws.
  - intros [= <-]. simpl.
    destruct (bool_decide (ws' ∈ conns ∖ {[ws]})) eqn:H1.
    + apply bool_decide_eq_true in H1. apply elem_of_difference in H1.
      rewrite (bool_decide_eq_true_2 _ (proj1 H1)). simpl. lia.
    + destruct (bool_decide (ws' ∈ conns)); simpl; lia.
  - destruct (remove_first ws d) as [d0|]; [|discriminate]. simpl.
    intros [= <-]. simpl. specialize (IH d0 eq_refl).
    destruct (bool_decide (ws' ∈ conns)); simpl; lia.
Qed.

Lemma remove_first_last_holder ws d d' :
  (length (holders ws d) <= 1)%nat ->
  remove_first ws d = Some d' ->
  remove_first ws d' = None.
Proof.
  revert d'. induction d as [|[sid conns] d IH]; intros d'; simpl; [discriminate|].
  destruct (bool_decide (ws ∈ conns)) eqn:Hws.
  - simpl. intros Hlen [= <-]. simpl.
    rewrite bool_decide_eq_false_2.
    + assert (Hnone : holders ws d = []).
      { destruct (holders ws d); [reflexivity|simpl in Hlen; lia]. }
      apply remove_first_no_holder in Hnone. rewrite Hnone. reflexivity.
    + rewrite elem_of_difference, elem_of_singleton. tauto.
  - intros Hlen. destruct (remove_first ws d) as [d0|]; [|discriminate]. simpl.
    intros [= <-]. simpl. rewrite Hws, (IH d0 Hlen eq_refl). reflexivity.
Qed.

Lemma holders_set_same ws d session_id conns :
  (ws ∈ conns <-> ws ∈ default ∅ (PyDict.get d session_id)) ->
  length (holders ws (PyDict.set d session_id conns)) = length (holders ws d).
Proof.
  induction d as [|[sid c] d IH]; simpl; intros Hiff.
  - rewrite bool_decide_eq_false_2; [reflexivity|].
    rewrite Hiff. apply not_elem_of_empty.
  - destruct (decide (sid = session_id)) as [->|Hne]; simpl.
    + simpl in Hiff. rewrite (bool_decide_ext _ _ Hiff).
      destruct (bool_decide (ws ∈ c)); reflexivity.
    + destruct (bool_decide (ws ∈ c)); simpl; rewrite (IH Hiff); reflexivity.
Qed.

Lemma holders_set_fresh ws d session_id conns :
  holders ws d = [] -> ws ∈ conns ->
  length (holders ws (PyDict.set d session_id conns)) = 1%nat.
Proof.
  intros Hnone Hin. induction d as [|[sid c] d IH]; simpl in *.
  - rewrite (bool_decide_eq_true_2 _ Hin). reflexivity.
  - destruct (bool_decide (ws ∈ c)) eqn:Hc; [discriminate|].
    destruct (decide (sid = session_id)) as [->|Hne]; simpl.
    + rewrite (bool_decide_eq_true_2 _ Hin), Hnone. reflexivity.
    + rewrite Hc. exact (IH Hnone).
Qed.

Lemma student_connect_inv ws session_id student_id w :
  holders ws (active_connections (self w)) = [] ->
  student_inv (self w) ->
  student_inv (self (exec (connect ws session_id student_id) w)).
Proof.
  intros Hfresh [Hwf Hone]. rewrite student_connect_self. split; simpl.
  - apply wf_set. exact Hwf.
  - intros ws'. destruct (decide (ws' = ws)) as [->|Hne].
    + rewrite holders_set_fresh; [lia|exact Hfresh|].
      apply elem_of_union_r, elem_of_singleton. reflexivity.
    + rewrite holders_set_same; [apply Hone|].
      unfold connections_of. rewrite elem_of_union, elem_of_singleton. tauto.
Qed.

Lemma student_disconnect_inv ws w :
  student_inv (self w) -> student_inv (self (exec (disconnect ws) w)).
Proof.
  intros [Hwf Hone]. destruct (student_disconnect_run ws w) as (w' & Hrun & Hself).
  unfold exec. rewrite Hrun. simpl. rewrite Hself. split; simpl.
  - apply wf_del. exact Hwf.
  - intros ws'. destruct (remove_first ws (active_connections (self w))) eqn:Hr.
    + pose proof (remove_first_fewer_holders ws ws' _ _ Hr). specialize (Hone ws'). lia.
    + apply Hone.
Qed.

Lemma student_send_self session_id student_id question w :
  self (exec (send_question_to_student session_id student_id question) w) = self w.
Proof.
  pose proof (send_question_to_student_run w session_id student_id question) as H.
  cbv zeta in H. destruct H as (_ & H & _). exact H.
Qed.

End StudentFacts.

Lemma student_reachable_inv w : student_reachable w -> student_inv (self w).
Proof.
  induction 1 as [tr|w ws sid st _ IH Hfresh|w ws _ IH|w sid st q _ IH].
  - split; simpl; [apply List.NoDup_nil|]. intros ws. simpl. lia.
  - apply StudentFacts.student_connect_inv; assumption.
  - apply StudentFacts.student_disconnect_inv. exact IH.
  - rewrite StudentFacts.student_send_self. exact IH.
Qed.

(** X17: student side: in a reachable registry [disconnect] does not raise,
    a second [disconnect] of the same channel changes nothing, and after the
    first the channel is in no session's set and not in the channel map,
    whatever the student id. *)
Lemma student_disconnect_twice ws w :
  student_reachable w ->
  exists w1,
    StudentWebSocketManager.disconnect ws w = (Ok tt, w1) /\
    StudentWebSocketManager.disconnect ws w1 = (Ok tt, w1) /\
    holders ws (StudentWebSocketManager.active_connections (self w1)) = [] /\
    PyDict.get (StudentWebSocketManager.student_sessions (self w1)) ws = None.
Proof.
  intros Hreach. destruct (student_reachable_inv w Hreach) as [Hwf Hone].
  destruct (StudentFacts.student_disconnect_run ws w) as (w1 & Hrun & Hself).
  assert (Hr : StudentWebSocketManager.remove_first ws
                 (StudentWebSocketManager.active_connections (self w1)) = None).
  { rewrite Hself. unfold student_after_disconnect. simpl.
    destruct (StudentWebSocketManager.remove_first ws
                (StudentWebSocketManager.active_connections (self w))) eqn:Hr.
    - exact (StudentFacts.remove_first_last_holder ws _ _ (Hone ws) Hr).
    - exact Hr. }
  assert (Hg : PyDict.get (StudentWebSocketManager.student_sessions (self w1)) ws = None).
  { rewrite Hself. simpl. apply get_del_eq. exact Hwf. }
  exists w1. split; [exact Hrun|]. split; [|split; [|exact Hg]].
  - apply StudentFacts.student_disconnect_unknown; assumption.
  - apply StudentFacts.remove_first_no_holder. exact Hr.
Qed.

(** ** Further properties of the classifier and the engagement service *)

(** X1: the rules never rank a slower or less correct answer above a faster,
    at least as correct one: with [l1 <= l2], and [c1] correct whenever [c2]
    is, the tier of [(l2, c2)] is not above the tier of [(l1, c1)] in the
    order PASSIVE < MODERATE < ACTIVE. *)
Theorem classify_rules_monotone (l1 l2 : Z) (c1 c2 : bool)
    (Hfaster : l1 <= l2) (Hcorrect : c2 = true -> c1 = true) :
  tier_rank (EngagementClassifier._classify_with_rules l2 c2)
  <= tier_rank (EngagementClassifier._classify_with_rules l1 c1).
Proof.
  unfold EngagementClassifier._classify_with_rules.
  destruct c2; [rewrite (Hcorrect eq_refl)|destruct c1];
    destruct (Z.ltb_spec l1 4000), (Z.ltb_spec l2 4000),
             (Z.gtb_spec l1 7000), (Z.gtb_spec l2 7000);
    simpl; lia.
Qed.

Lemma classify_rules_monotone_witness :
  tier_rank (EngagementClassifier._classify_with_rules 7500 true)
  <= tier_rank (EngagementClassifier._classify_with_rules 3000 true).
Proof.
  apply (classify_rules_monotone 3000 7500 true true); [lia|intros _; reflexivity].
Defined.

Lemma insert_desc_In row sorted r :
  In r (insert_desc row sorted) <-> r = row \/ In r sorted.
Proof.
  induction sorted as [|x rest IH]; simpl; [intuition congruence|].
  destruct (timestamp x <=? timestamp row); simpl; [intuition congruence|].
  rewrite IH. intuition congruence.
Qed.

Lemma order_by_In rows r : In r (order_by_timestamp_desc rows) <-> In r rows.
Proof.
  induction rows as [|x rows IH]; simpl; [tauto|].
  rewrite insert_desc_In, IH. intuition congruence.
Qed.

Lemma insert_desc_length row sorted :
  length (insert_desc row sorted) = S (length sorted).
Proof.
  induction sorted as [|x rest IH]; simpl; [reflexivity|].
  destruct (timestamp x <=? timestamp row); simpl; [reflexivity|].
  rewrite IH. reflexivity.
Qed.

Lemma order_by_length rows : length (order_by_timestamp_desc rows) = length rows.
Proof.
  induction rows as [|x rows IH]; simpl; [reflexivity|].
  rewrite insert_desc_length, IH. reflexivity.
Qed.

Lemma insert_desc_sorted row sorted :
  newest_first sorted -> newest_first (insert_desc row sorted).
Proof.
  unfold newest_first. induction sorted as [|x rest IH]; simpl; intros Hs.
  - apply SSorted_cons; [apply SSorted_nil|apply List.Forall_nil].
  - apply StronglySorted_inv in Hs. destruct Hs as [Hrest Hall].
    destruct (Z.leb_spec (timestamp x) (timestamp row)).
    + apply SSorted_cons.
      * apply SSorted_cons; assumption.
      * apply List.Forall_cons; [assumption|].
        eapply List.Forall_impl; [|exact Hall]. simpl. intros a Ha. lia.
    + apply SSorted_cons; [exact (IH Hrest)|].
      apply List.Forall_forall. intros a Ha. apply insert_desc_In in Ha.
      destruct Ha as [->|Ha]; [lia|].
      rewrite List.Forall_forall in Hall. exact (Hall a Ha).
Qed.

Lemma order_by_sorted rows : newest_first (order_by_timestamp_desc rows).
Proof.
  induction rows as [|x rows IH]; simpl.
  - apply SSorted_nil.
  - apply insert_desc_sorted. exact IH.
Qed.

Lemma In_firstn {A} n (l : list A) x : In x (firstn n l) -> In x l.
Proof.
  revert l. induction n as [|n IH]; intros [|y l]; simpl; try tauto.
  intros [->|Hin]; [left; reflexivity|right; exact (IH l Hin)].
Qed.

Lemma firstn_sorted n rows : newest_first rows -> newest_first (firstn n rows).
Proof.
  unfold newest_first. revert rows. induction n as [|n IH]; intros rows Hs; simpl.
  - apply SSorted_nil.
  - destruct rows as [|x rows]; [apply SSorted_nil|].
    apply StronglySorted_inv in Hs. destruct Hs as [Hrest Hall].
    apply SSorted_cons; [exact (IH rows Hrest)|].
    apply List.Forall_forall. intros a Ha. apply In_firstn in Ha.
    rewrite List.Forall_forall in Hall. exact (Hall a Ha).
Qed.

Lemma count_level_partition (d : PyDict.t Z EngagementLevel) :
  Z.of_nat (length d) =
  EngagementReports.count_level ACTIVE d + EngagementReports.count_level MODERATE d
  + EngagementReports.count_level PASSIVE d.
Proof.
  unfold EngagementReports.count_level.
  induction d as [|[st level] d IH]; simpl; [reflexivity|].
  destruct level; cbn [List.filter snd bool_decide decide_rel]; simpl; lia.
Qed.

(** X5: the session statistics add up: whenever
    [get_session_engagement_stats] returns, the total is the sum of the
    active, moderate and passive counts, and no count is negative. *)
Theorem stats_add_up (db : Database) (session : Z) (stats : EngagementReports.Stats)
    (Hstats : EngagementReports.get_session_engagement_stats db session = Ok stats) :
  EngagementReports.total_students stats =
    EngagementReports.active_students stats
    + EngagementReports.moderate_students stats
    + EngagementReports.passive_students stats /\
  0 <= EngagementReports.active_students stats /\
  0 <= EngagementReports.moderate_students stats /\
  0 <= EngagementReports.passive_students stats.
Proof.
  unfold EngagementReports.get_session_engagement_stats in Hstats.
  destruct (EngagementReports.latest_levels _ _ _ _) as [d|e]; [|discriminate].
  injection Hstats as <-. simpl. split; [apply count_level_partition|].
  unfold EngagementReports.count_level. lia.
Qed.

Lemma stats_add_up_witness :
  EngagementReports.get_session_engagement_stats summary_store 42
  = Ok {| EngagementReports.total_students := 2;
          EngagementReports.active_students := 0;
          EngagementReports.moderate_students := 1;
          EngagementReports.passive_students := 1 |} /\
  (2 : Z) = 0 + 1 + 1.
Proof.
  assert (H : EngagementReports.get_session_engagement_stats summary_store 42
              = Ok {| EngagementReports.total_students := 2;
                      EngagementReports.active_students := 0;
                      EngagementReports.moderate_students := 1;
                      EngagementReports.passive_students := 1 |})
    by (vm_compute; reflexivity).
  split; [exact H|]. exact (proj1 (stats_add_up summary_store 42 _ H)).
Defined.

Lemma set_absent {K V : Type} `{EqDecision K} (d : PyDict.t K V) k v :
  PyDict.get d k = None -> PyDict.set d k v = d ++ [(k, v)].
Proof.
  induction d as [|[k0 v0] d IH]; simpl; [reflexivity|].
  destruct (decide (k0 = k)); [discriminate|]. intros Hg.
  rewrite (IH Hg). reflexivity.
Qed.

Lemma session_students_rows db session st :
  st ∈ EngagementReports.session_students db session <->
  exists r, In r (engagement_logs db) /\
            log_session_id r = session /\ log_student_id r = st.
Proof.
  unfold EngagementReports.session_students, EngagementReports.session_logs.
  rewrite elem_of_list_to_set, list_elem_of_In, in_map_iff. split.
  - intros (r & <- & Hr). apply filter_In in Hr. destruct Hr as [Hin Hs].
    apply Z.eqb_eq in Hs. eauto.
  - intros (r & Hin & Hs & <-). exists r. split; [reflexivity|].
    apply filter_In. split; [exact Hin|]. apply Z.eqb_eq. exact Hs.
Qed.

(** With a store that answers, the loop over students that all have events
    adds one entry per student, carrying the student's current tier. *)
Lemma latest_levels_counts db session students acc :
  List.NoDup students ->
  (forall st, In st students ->
     query_fault db st session = None /\
     PyDict.get acc st = None /\
     EngagementService.rows_of db st session <> []) ->
  exists d,
    EngagementReports.latest_levels db session students acc = Ok d /\
    length d = (length acc + length students)%nat /\
    forall level,
      EngagementReports.count_level level d =
      EngagementReports.count_level level acc
      + Z.of_nat (length (at_tier db session level students)).
Proof.
  intros Hnd. revert acc. induction Hnd as [|st rest Hnotin Hnd IH]; intros acc Hall.
  - exists acc. simpl. split; [reflexivity|]. split; [lia|]. intros level. lia.
  - destruct (Hall st (or_introl eq_refl)) as (Hq & Hacc & Hrows).
    destruct (first_order_by_latest _ Hrows) as (log & Hfirst & _ & _).
    simpl. unfold EngagementReports.latest_log. rewrite Hq, Hfirst.
    rewrite (set_absent _ _ _ Hacc).
    destruct (IH (acc ++ [(st, engagement_level log)])) as (d & Hd & Hlen & Hcount).
    { intros st' Hin'. destruct (Hall st' (or_intror Hin')) as (Hq' & Hacc' & Hrows').
      split; [exact Hq'|]. split; [|exact Hrows'].
      apply get_None_keys. unfold PyDict.keys. rewrite map_app. simpl.
      intros Hin. apply in_app_or in Hin. destruct Hin as [Hin|[<-|[]]].
      - apply get_None_keys in Hacc'. exact (Hacc' Hin).
      - exact (Hnotin Hin'). }
    exists d. split; [exact Hd|]. split.
    + rewrite Hlen, length_app. simpl. lia.
    + intros level. rewrite Hcount. unfold EngagementReports.count_level, at_tier.
      rewrite List.filter_app, length_app. simpl.
      unfold EngagementService.get_current_engagement. rewrite Hq, Hfirst.
      destruct (bool_decide (engagement_level log = level)); simpl; lia.
Qed.

(** X6: with a store that answers, the statistics of a session count each
    student with an event in the session once, under the student's current
    tier: the total is the number of distinct students with an event, and
    each tier's count is the number of those students whose
    [get_current_engagement] is that tier. *)
Theorem stats_by_current_tier (db : Database) (session : Z)
    (Hread : forall st, query_fault db st session = None) :
  let students := EngagementReports.session_students db session in
  exists stats,
    EngagementReports.get_session_engagement_stats db session = Ok stats /\
    EngagementReports.total_students stats = Z.of_nat (size students) /\
    EngagementReports.active_students stats
      = Z.of_nat (length (at_tier db session ACTIVE (elements students))) /\
    EngagementReports.moderate_students stats
      = Z.of_nat (length (at_tier db session MODERATE (elements students))) /\
    EngagementReports.passive_students stats
      = Z.of_nat (length (at_tier db session PASSIVE (elements students))).
Proof.
  cbv zeta. unfold EngagementReports.get_session_engagement_stats.
  destruct (latest_levels_counts db session
              (elements (EngagementReports.session_students db session))
              PyDict.empty) as (d & Hd & Hlen & Hcount).
  { apply NoDup_ListNoDup, NoDup_elements. }
  { intros st Hin. split; [apply Hread|]. split; [reflexivity|].
    apply list_elem_of_In, elem_of_elements, session_students_rows in Hin.
    destruct Hin as (r & Hin & Hs & Hst). intros Hnil.
    assert (Hr : In r (EngagementService.rows_of db st session))
      by (apply rows_of_In; auto).
    rewrite Hnil in Hr. exact Hr. }
  rewrite Hd. eexists. split; [reflexivity|]. simpl.
  rewrite Hlen, !Hcount. unfold EngagementReports.count_level. simpl.
  repeat split; reflexivity.
Qed.

Lemma stats_by_current_tier_witness :
  exists stats,
    EngagementReports.get_session_engagement_stats summary_store 42 = Ok stats /\
    EngagementReports.total_students stats = 2 /\
    EngagementReports.passive_students stats = 1.
Proof.
  pose proof (stats_by_current_tier summary_store 42 (fun _ => eq_refl)) as H.
  cbv zeta in H. destruct H as (stats & Hs & Ht & _ & _ & Hp).
  exists stats. split; [exact Hs|]. split.
  - rewrite Ht. vm_compute. reflexivity.
  - rewrite Hp. vm_compute. reflexivity.
Defined.

(** ** Further properties of the adaptive monitor *)

Lemma dispatches_cons db session_id student_ids items :
  dispatches db ((session_id, student_ids) :: items) =
  match Engine._identify_students_needing_questions db session_id student_ids with
  | Ok s => if bool_decide (s ≠ ∅) then [(session_id, s)] else []
  | Raise _ => []
  end ++ dispatches db items.
Proof. reflexivity. Qed.

(** Whatever fails, the push calls of a pass are those of a pass without
    failure over some first sessions. *)
Lemma for_each_sessions_prefix db callback items w :
  exists r logs n,
    for_each items (Engine.monitor_session db callback) w
    = (r, observe logs (dispatches db (firstn n items)) 0 w).
Proof.
  revert w. induction items as [|[session_id student_ids] items IH]; intros w; simpl.
  - exists (Ok tt), [], 0%nat. rewrite observe_nil. reflexivity.
  - unfold bind. rewrite monitor_session_run.
    destruct (Engine._identify_students_needing_questions _ _ _) as [s|e] eqn:Hs.
    + destruct (bool_decide (s ≠ ∅)) eqn:Hne.
      * destruct (callback session_id s) as [[]|e].
        -- destruct (IH (observe [Log INFO "students need questions"]
                           [(session_id, s)] 0 w)) as (r & logs & n & Hrun).
           rewrite Hrun, observe_observe. exists r. eexists. exists (S n).
           rewrite firstn_cons, dispatches_cons, Hs, Hne. reflexivity.
        -- exists (Raise e). eexists. exists 1%nat.
           rewrite firstn_cons, dispatches_cons, Hs, Hne. reflexivity.
      * destruct (IH w) as (r & logs & n & Hrun). rewrite Hrun.
        exists r, logs, (S n). rewrite firstn_cons, dispatches_cons, Hs, Hne.
        reflexivity.
    + exists (Raise e), [], 0%nat. rewrite observe_nil. reflexivity.
Qed.

(** The shape of every tick of a wired engine whose factory answers. *)
Lemma tick_shape w factory callback db :
  db_session_factory (adaptive_engine w) = Some factory ->
  question_push_callback (adaptive_engine w) = Some callback ->
  factory (database w) = Ok db ->
  exists logs n,
    Engine._monitor_engagement w =
    (Ok tt,
     observe logs
       (dispatches db (firstn n (PyDict.items (active_sessions (adaptive_engine w)))))
       1 w).
Proof.
  intros Hf Hc Hdb. rewrite (tick_run w factory callback db Hf Hc Hdb).
  unfold try_finally, try_except.
  destruct (for_each_sessions_prefix db callback
              (PyDict.items (active_sessions (adaptive_engine w))) w)
    as (r & logs & n & Hrun).
  rewrite Hrun. destruct r as [[]|e].
  - exists logs, n. reflexivity.
  - exists (logs ++ [Log ERROR "Error in engagement monitoring"]), n.
    unfold logger, modify, db_close, observe. simpl.
    rewrite <- app_assoc. reflexivity.
Qed.

(** X7: a tick and its database session. When the factory itself raises,
    the exception leaves the tick and nothing else has happened. When the
    factory answers, the tick never raises, whatever the store or the push
    callback do; it closes the database session exactly once and leaves the
    database, the engine and its rosters as they were. *)
Theorem tick_returns_and_closes (w : World)
    (factory : Database -> result Database)
    (callback : Z -> gset Z -> result unit)
    (Hf : db_session_factory (adaptive_engine w) = Some factory)
    (Hc : question_push_callback (adaptive_engine w) = Some callback) :
  (forall e, factory (database w) = Raise e ->
             Engine._monitor_engagement w = (Raise e, w)) /\
  (forall db, factory (database w) = Ok db ->
     let w' := exec Engine._monitor_engagement w in
     fst (Engine._monitor_engagement w) = Ok tt /\
     db_closed w' = S (db_closed w) /\
     database w' = database w /\
     adaptive_engine w' = adaptive_engine w /\
     active_participants w' = active_participants w).
Proof.
  split.
  - intros e He. unfold Engine._monitor_engagement, mbind, M_bind, bind, gets.
    rewrite Hf, Hc, He. reflexivity.
  - intros db Hdb. cbv zeta. unfold exec.
    destruct (tick_shape w factory callback db Hf Hc Hdb) as (logs & n & ->).
    simpl. auto.
Qed.

Lemma tick_returns_and_closes_witness :
  fst (Engine._monitor_engagement faulty_store_world) = Ok tt /\
  db_closed (exec Engine._monitor_engagement faulty_store_world)
    = S (db_closed faulty_store_world).
Proof.
  pose proof (proj2 (tick_returns_and_closes faulty_store_world
                       (fun db => Ok db) (fun _ _ => Ok tt) eq_refl eq_refl)
                (database faulty_store_world) eq_refl) as H.
  cbv zeta in H. destruct H as (Hret & Hclosed & _).
  split; [exact Hret|exact Hclosed].
Defined.

Lemma identify_loop_subset db session students acc s :
  Engine.identify_loop db session students acc = Ok s ->
  forall x, x ∈ s -> x ∈ acc \/ In x students.
Proof.
  revert acc. induction students as [|st rest IH]; intros acc; simpl.
  - intros [= <-] x Hx. left. exact Hx.
  - destruct (EngagementService.get_current_engagement db st session) as [tier|e];
      [|discriminate].
    intros Hloop x Hx. destruct (IH _ Hloop x Hx) as [Hacc|Hrest]; [|auto].
    destruct (Engine._should_deliver_question tier st session); [|auto].
    apply elem_of_union in Hacc. destruct Hacc as [Hacc|Hst]; [auto|].
    apply elem_of_singleton in Hst. subst x. auto.
Qed.

Lemma identify_students_subset db session (roster s : gset Z) :
  Engine._identify_students_needing_questions db session roster = Ok s ->
  s ⊆ roster.
Proof.
  unfold Engine._identify_students_needing_questions. intros Hloop x Hx.
  destruct (identify_loop_subset _ _ _ _ _ Hloop x Hx) as [Hempty|Hin].
  - exfalso. exact (not_elem_of_empty _ Hempty).
  - apply elem_of_elements, list_elem_of_In. exact Hin.
Qed.

Lemma dispatches_keys db items session_id :
  In session_id (map fst (dispatches db items)) -> In session_id (map fst items).
Proof.
  rewrite !in_map_iff. intros ([sid s] & <- & Hin).
  apply In_dispatches in Hin. destruct Hin as (roster & Hin & _).
  exists (sid, roster). split; [reflexivity|exact Hin].
Qed.

Lemma dispatches_NoDup db items :
  List.NoDup (map fst items) -> List.NoDup (map fst (dispatches db items)).
Proof.
  induction items as [|[session_id student_ids] items IH]; intros Hnd.
  - apply List.NoDup_nil.
  - simpl in Hnd. apply List.NoDup_cons_iff in Hnd. destruct Hnd as [Hnotin Hnd].
    rewrite dispatches_cons.
    destruct (Engine._identify_students_needing_questions _ _ _) as [s|e];
      [destruct (bool_decide (s ≠ ∅))|]; simpl; try exact (IH Hnd).
    apply List.NoDup_cons; [|exact (IH Hnd)].
    intros Hin. apply Hnotin. exact (dispatches_keys _ _ _ Hin).
Qed.

Lemma firstn_keys_NoDup {A B} n (l : list (A * B)) :
  List.NoDup (map fst l) -> List.NoDup (map fst (firstn n l)).
Proof.
  revert l. induction n as [|n IH]; intros [|x l]; simpl; intros Hnd;
    try apply List.NoDup_nil.
  apply List.NoDup_cons_iff in Hnd. destruct Hnd as [Hnotin Hnd].
  apply List.NoDup_cons; [|exact (IH l Hnd)].
  intros Hin. apply Hnotin. apply in_map_iff in Hin.
  destruct Hin as (y & Hy & Hin). apply In_firstn in Hin.
  rewrite <- Hy. apply in_map. exact Hin.
Qed.

(** Every tick either pushes nothing or pushes what a pass without failure
    over some first sessions pushes. *)
Lemma tick_deliveries_prefix w :
  tick_deliveries w = [] \/
  exists factory db n,
    db_session_factory (adaptive_engine w) = Some factory /\
    factory (database w) = Ok db /\
    tick_deliveries w =
      dispatches db (firstn n (PyDict.items (active_sessions (adaptive_engine w)))).
Proof.
  destruct (db_session_factory (adaptive_engine w)) as [factory|] eqn:Hf;
    [destruct (question_push_callback (adaptive_engine w)) as [callback|] eqn:Hc;
     [destruct (factory (database w)) as [db|e] eqn:Hdb|]|].
  - right. exists factory, db.
    destruct (tick_shape w factory callback db Hf Hc Hdb) as (logs & n & Hrun).
    exists n. split; [reflexivity|]. split; [exact Hdb|].
    unfold tick_deliveries. rewrite Hrun. apply skipn_push_calls.
  - left. unfold tick_deliveries, Engine._monitor_engagement, mbind, M_bind, bind, gets.
    rewrite Hf, Hc, Hdb. simpl. apply skipn_all.
  - left. unfold tick_deliveries, Engine._monitor_engagement, mbind, M_bind, bind, gets.
    rewrite Hf, Hc. simpl. apply skipn_all.
  - left. unfold tick_deliveries, Engine._monitor_engagement, mbind, M_bind, bind, gets.
    rewrite Hf. simpl. apply skipn_all.
Qed.

(** X8: what a tick hands to the push callback, whatever fails. Each push is
    for a monitored session, carries a set that is not empty, holds only
    students of that session's roster, and is the set the evaluation of that
    session returned; and no session is pushed twice in one tick. *)
Theorem tick_pushes_are_rosters (w : World)
    (Hwf : PyDict.wf (active_sessions (adaptive_engine w))) :
  (forall session_id s, In (session_id, s) (tick_deliveries w) ->
     s ≠ ∅ /\
     exists factory db roster,
       db_session_factory (adaptive_engine w) = Some factory /\
       factory (database w) = Ok db /\
       PyDict.get (active_sessions (adaptive_engine w)) session_id = Some roster /\
       Engine._identify_students_needing_questions db session_id roster = Ok s /\
       s ⊆ roster) /\
  List.NoDup (map fst (tick_deliveries w)).
Proof.
  destruct (tick_deliveries_prefix w) as [Hnone|(factory & db & n & Hf & Hdb & Hd)].
  - rewrite Hnone. split; [intros ? ? []|apply List.NoDup_nil].
  - rewrite Hd. split.
    + intros session_id s Hin. apply In_dispatches in Hin.
      destruct Hin as (roster & Hin & Hs & Hne). split; [exact Hne|].
      exists factory, db, roster. split; [exact Hf|]. split; [exact Hdb|].
      split; [|split; [exact Hs|exact (identify_students_subset _ _ _ _ Hs)]].
      apply In_get; [exact Hwf|]. exact (In_firstn _ _ _ Hin).
    + apply dispatches_NoDup, firstn_keys_NoDup. exact Hwf.
Qed.

Lemma tick_pushes_are_rosters_witness :
  List.NoDup (map fst (tick_deliveries scenario_second_tick)) /\
  tick_deliveries scenario_second_tick = [(42, {[2]})].
Proof.
  assert (Hwf : PyDict.wf (active_sessions (adaptive_engine scenario_second_tick))).
  { vm_compute. apply List.NoDup_cons; [simpl; tauto|apply List.NoDup_nil]. }
  split; [exact (proj2 (tick_pushes_are_rosters scenario_second_tick Hwf))|].
  vm_compute. reflexivity.
Defined.

Lemma keys_set_present {K V : Type} `{EqDecision K} (d : PyDict.t K V) k v v0 :
  PyDict.get d k = Some v0 -> PyDict.keys (PyDict.set d k v) = PyDict.keys d.
Proof.
  intros Hg. rewrite keys_set. unfold PyDict.contains. rewrite Hg. reflexivity.
Qed.

(** X9: the roster map of the monitor. [add_session] sets the roster of the
    session to the given set, replacing any earlier roster, and touches no
    other session. [update_session_students] and [remove_session] on a
    session that is not monitored do nothing at all and raise nothing; on a
    monitored session the first replaces the roster in place (the order of
    the sessions is kept) and the second takes the session out, both leaving
    the other sessions alone. *)
Theorem engine_roster_operations (w : World) (session_id : Z) (student_ids : gset Z) :
  let rosters := fun w' => active_sessions (adaptive_engine w') in
  (PyDict.get (rosters (exec (Engine.add_session session_id student_ids) w)) session_id
     = Some student_ids /\
   forall other, other <> session_id ->
     PyDict.get (rosters (exec (Engine.add_session session_id student_ids) w)) other
     = PyDict.get (rosters w) other) /\
  (PyDict.get (rosters w) session_id = None ->
   Engine.update_session_students session_id student_ids w = (Ok tt, w) /\
   Engine.remove_session session_id w = (Ok tt, w)) /\
  (forall old, PyDict.get (rosters w) session_id = Some old ->
     let updated := exec (Engine.update_session_students session_id student_ids) w in
     let removed := exec (Engine.remove_session session_id) w in
     PyDict.get (rosters updated) session_id = Some student_ids /\
     PyDict.keys (rosters updated) = PyDict.keys (rosters w) /\
     (PyDict.wf (rosters w) -> PyDict.get (rosters removed) session_id = None) /\
     forall other, other <> session_id ->
       PyDict.get (rosters updated) other = PyDict.get (rosters w) other /\
       PyDict.get (rosters removed) other = PyDict.get (rosters w) other).
Proof.
  cbv zeta. split; [|split].
  - unfold exec, Engine.add_session, mbind, M_bind, bind, modify, logger. simpl.
    split; [apply get_set_eq|]. intros other Hne. apply get_set_ne. congruence.
  - intros Hg.
    unfold Engine.update_session_students, Engine.remove_session,
      mbind, M_bind, bind, gets, PyDict.contains.
    rewrite Hg. split; reflexivity.
  - intros old Hg.
    unfold exec, Engine.update_session_students, Engine.remove_session,
      mbind, M_bind, bind, gets, PyDict.contains, modify, logger.
    rewrite Hg. simpl. split; [apply get_set_eq|].
    split; [exact (keys_set_present _ _ _ _ Hg)|].
    split; [intros Hwf; apply get_del_eq; exact Hwf|].
    intros other Hne. split; [apply get_set_ne|apply get_del_ne]; congruence.
Qed.

Lemma engine_roster_operations_witness :
  Engine.update_session_students 7 {[1]} scenario_first_tick
    = (Ok tt, scenario_first_tick) /\
  PyDict.get (active_sessions (adaptive_engine
      (exec (Engine.update_session_students 42 {[9]}) scenario_first_tick))) 42
    = Some {[9]}.
Proof.
  pose proof (engine_roster_operations scenario_first_tick 7 {[1]}) as H7.
  pose proof (engine_roster_operations scenario_first_tick 42 {[9]}) as H42.
  cbv zeta in H7, H42. destruct H7 as (_ & Hnone & _). destruct H42 as (_ & _ & Hsome).
  split.
  - exact (proj1 (Hnone eq_refl)).
  - exact (proj1 (Hsome {[1; 2]} eq_refl)).
Defined.

(** ** Further properties of the session manager and the Zoom roster *)

Lemma start_session_world w session_id student_ids session :
  SessionManager.query_session (database w) session_id = Some session ->
  exists w',
    SessionManager.start_session session_id student_ids w = (Ok tt, w') /\
    database w' =
      with_sessions
        (SessionManager.update_row session_id
           (SessionManager.set_status SessionStatus.ACTIVE) (sessions (database w)))
        (database w) /\
    active_sessions (adaptive_engine w') =
      PyDict.set (active_sessions (adaptive_engine w)) session_id student_ids /\
    active_participants w' =
      match SessionManager.truthy (zoom_meeting_id session) with
      | Some meeting => PyDict.set (active_participants w) meeting ∅
      | None => active_participants w
      end.
Proof.
  intros Hq.
  unfold SessionManager.start_session, mbind, M_bind, bind, gets. rewrite Hq.
  cbn. destruct (SessionManager.truthy (zoom_meeting_id session));
    cbn; eexists; split; try reflexivity; repeat split; reflexivity.
Qed.

Lemma stop_session_world now w session_id session :
  SessionManager.query_session (database w) session_id = Some session ->
  exists w',
    SessionManager.stop_session now session_id w = (Ok tt, w') /\
    database w' =
      with_sessions
        (SessionManager.update_row session_id
           (fun s => SessionManager.set_end_time now
                       (SessionManager.set_status SessionStatus.ENDED s))
           (sessions (database w)))
        (database w) /\
    active_sessions (adaptive_engine w') =
      (if PyDict.contains (active_sessions (adaptive_engine w)) session_id
       then PyDict.del (active_sessions (adaptive_engine w)) session_id
       else active_sessions (adaptive_engine w)) /\
    active_participants w' =
      match SessionManager.truthy (zoom_meeting_id session) with
      | Some meeting =>
          if PyDict.contains (active_participants w) meeting
          then PyDict.del (active_participants w) meeting
          else active_participants w
      | None => active_participants w
      end.
Proof.
  intros Hq.
  unfold SessionManager.stop_session, mbind, M_bind, bind, gets. rewrite Hq.
  cbn. unfold Engine.remove_session, mbind, M_bind, bind, gets. cbn.
  destruct (PyDict.contains (active_sessions (adaptive_engine w)) session_id);
    cbn;
    destruct (SessionManager.truthy (zoom_meeting_id session)); cbn;
    unfold ZoomEventHandler.stop_monitoring, mbind, M_bind, bind, gets; cbn;
    try (destruct (PyDict.contains (active_participants w) _); cbn);
    eexists; split; try reflexivity; repeat split; reflexivity.
Qed.

Lemma run_seq {S A B} (m1 : M S A) (m2 : M S B) w a w1 :
  m1 w = (Ok a, w1) -> (m1;; m2) w = m2 w1.
Proof. intros H. unfold mbind, M_bind, bind. rewrite H. reflexivity. Qed.

Lemma contains_set {K V : Type} `{EqDecision K} (d : PyDict.t K V) k v :
  PyDict.contains (PyDict.set d k v) k = true.
Proof. unfold PyDict.contains. rewrite get_set_eq. reflexivity. Qed.

(** X11: a session started and then stopped. For a session that exists, with
    or without a Zoom meeting, [start] followed by [stop] raises nothing and
    leaves the session ENDED with the stop time as end time, out of the
    monitor's rosters, its meeting out of the Zoom handler's monitored
    meetings, and no later tick pushes for it. *)
Theorem session_start_then_stop (now : Z) (w : World) (session_id : Z)
    (student_ids : gset Z) (session : Session)
    (Hq : SessionManager.query_session (database w) session_id = Some session)
    (Hwf : PyDict.wf (active_sessions (adaptive_engine w)))
    (Hwfp : PyDict.wf (active_participants w)) :
  let run := SessionManager.start_session session_id student_ids;;
             SessionManager.stop_session now session_id in
  let w' := exec run w in
  fst (run w) = Ok tt /\
  SessionManager.query_session (database w') session_id
    = Some {| id := id session; instructor_id := instructor_id session;
              start_time := start_time session; end_time := Some now;
              status := SessionStatus.ENDED;
              zoom_meeting_id := zoom_meeting_id session |} /\
  PyDict.get (active_sessions (adaptive_engine w')) session_id = None /\
  (forall meeting, SessionManager.truthy (zoom_meeting_id session) = Some meeting ->
     PyDict.get (active_participants w') meeting = None) /\
  (forall s, ~ In (session_id, s) (tick_deliveries w')).
Proof.
  cbv zeta.
  destruct (start_session_world w session_id student_ids session Hq)
    as (w1 & Hrun1 & Hdb1 & Heng1 & Hpart1).
  assert (Hq1 : SessionManager.query_session (database w1) session_id
                = Some (SessionManager.set_status SessionStatus.ACTIVE session)).
  { rewrite Hdb1, query_session_update_row, Hq; [reflexivity|]. intros s. reflexivity. }
  destruct (stop_session_world now w1 session_id _ Hq1)
    as (w2 & Hrun2 & Hdb2 & Heng2 & Hpart2).
  assert (Hgone : PyDict.get (active_sessions (adaptive_engine w2)) session_id = None).
  { rewrite Heng2, Heng1, contains_set. apply get_del_eq, wf_set. exact Hwf. }
  unfold exec. rewrite (run_seq _ _ _ _ _ Hrun1), Hrun2.
  cbn [fst snd]. split; [reflexivity|]. split; [|split; [exact Hgone|split]].
  - rewrite Hdb2, query_session_update_row, Hq1; [reflexivity|].
    intros s. reflexivity.
  - intros meeting Hm. rewrite Hpart2. simpl. rewrite Hm, Hpart1, Hm, contains_set.
    apply get_del_eq, wf_set. exact Hwfp.
  - intros s Hin. apply tick_deliveries_monitored in Hin.
    apply get_None_keys in Hgone. exact (Hgone Hin).
Qed.

Lemma session_start_then_stop_witness :
  PyDict.get (active_sessions (adaptive_engine
    (exec (SessionManager.start_session 5 {[11; 12]};;
           SessionManager.stop_session 30 5) zoom_world))) 5 = None /\
  PyDict.get (active_participants
    (exec (SessionManager.start_session 5 {[11; 12]};;
           SessionManager.stop_session 30 5) zoom_world)) "m-5" = None.
Proof.
  pose proof (session_start_then_stop 30 zoom_world 5 {[11; 12]}
                (zoom_session 5 "m-5") eq_refl) as H.
  cbv zeta in H. destruct H as (_ & _ & Hgone & Hmeet & _).
  - vm_compute. apply List.NoDup_nil.
  - vm_compute. apply List.NoDup_nil.
  - split; [exact Hgone|]. apply Hmeet. reflexivity.
Defined.

(** X12: the state view of a session. For an unknown session_id the state is
    empty, even if the monitor holds a roster under that id. After [start]
    the state shows status "active" and the roster given to [start], with
    its size as the number of students; after [stop] it shows status
    "ended", the stop time as end time and no students. *)
Theorem session_state_follows_lifecycle (now : Z) (w : World) (sid : Z)
    (roster : gset Z) :
  (SessionManager.query_session (database w) sid = None ->
   SessionView.get_session_state w sid = None) /\
  (forall session,
     SessionManager.query_session (database w) sid = Some session ->
     SessionView.get_session_state
       (exec (SessionManager.start_session sid roster) w) sid
     = Some {| SessionView.session_id := id session;
               SessionView.status_text := "active";
               SessionView.started := start_time session;
               SessionView.ended := end_time session;
               SessionView.meeting := zoom_meeting_id session;
               SessionView.num_students := Z.of_nat (size roster);
               SessionView.student_ids := elements roster |} /\
     (PyDict.wf (active_sessions (adaptive_engine w)) ->
      SessionView.get_session_state
        (exec (SessionManager.stop_session now sid) w) sid
      = Some {| SessionView.session_id := id session;
                SessionView.status_text := "ended";
                SessionView.started := start_time session;
                SessionView.ended := Some now;
                SessionView.meeting := zoom_meeting_id session;
                SessionView.num_students := 0;
                SessionView.student_ids := [] |})).
Proof.
  split.
  - intros Hq. unfold SessionView.get_session_state. rewrite Hq. reflexivity.
  - intros session Hq. split.
    + destruct (start_session_world w sid roster session Hq)
        as (w1 & Hrun & Hdb & Heng & _).
      unfold exec. rewrite Hrun. cbn [snd]. unfold SessionView.get_session_state.
      rewrite Hdb, query_session_update_row, Hq by (intros s; reflexivity).
      simpl. rewrite Heng, get_set_eq. reflexivity.
    + intros Hwf. destruct (stop_session_world now w sid session Hq)
        as (w1 & Hrun & Hdb & Heng & _).
      unfold exec. rewrite Hrun. cbn [snd]. unfold SessionView.get_session_state.
      rewrite Hdb, query_session_update_row, Hq by (intros s; reflexivity).
      simpl. rewrite Heng.
      assert (Hnone : PyDict.get
                (if PyDict.contains (active_sessions (adaptive_engine w)) sid
                 then PyDict.del (active_sessions (adaptive_engine w)) sid
                 else active_sessions (adaptive_engine w)) sid = None).
      { unfold PyDict.contains.
        destruct (PyDict.get (active_sessions (adaptive_engine w)) sid) eqn:Hg;
          [apply get_del_eq; exact Hwf|exact Hg]. }
      rewrite Hnone. reflexivity.
Qed.

Lemma session_state_follows_lifecycle_witness :
  option_map SessionView.num_students
    (SessionView.get_session_state
       (exec (SessionManager.start_session 42 {[1; 2]}) started_world) 42)
  = Some 2.
Proof.
  destruct (session_state_follows_lifecycle 0 started_world 42 {[1; 2]})
    as [_ Hknown].
  destruct (Hknown (pending_session 42) eq_refl) as [Hstart _].
  rewrite Hstart. vm_compute. reflexivity.
Defined.

Lemma student_ids_members (mapping : PyDict.t string Z)
    (raws : list ZoomRoster.RawParticipant) (x : Z) :
  x ∈ (list_to_set (omap ZoomRoster.student_id
                      (map (ZoomRoster.describe mapping) raws)) : gset Z) <->
  exists raw, In raw raws /\
              PyDict.get mapping (ZoomRoster.field raw "user_name") = Some x.
Proof.
  rewrite elem_of_list_to_set, list_elem_of_omap. split.
  - intros (p & Hp & Hid). apply list_elem_of_In, in_map_iff in Hp.
    destruct Hp as (raw & <- & Hraw). exists raw. split; [exact Hraw|exact Hid].
  - intros (raw & Hraw & Hid). exists (ZoomRoster.describe mapping raw).
    split; [|exact Hid]. apply list_elem_of_In, in_map. exact Hraw.
Qed.

Lemma get_participants_run zoom_api mapping meeting raws w :
  zoom_api meeting = Ok raws ->
  ZoomRoster.get_participants zoom_api mapping meeting w =
  (Ok (map (ZoomRoster.describe mapping) raws),
   if PyDict.contains (active_participants w) meeting
   then set_participants
          (fun d => PyDict.set d meeting
             (list_to_set (map (fun p => ZoomRoster.field p "user_name") raws))) w
   else w).
Proof.
  intros Hapi. unfold ZoomRoster.get_participants, mbind, M_bind, bind, lift, gets.
  rewrite Hapi. destruct (PyDict.contains (active_participants w) meeting);
    reflexivity.
Qed.

Lemma run_bind {S A B} (m : M S A) (k : A -> M S B) w a w1 :
  m w = (Ok a, w1) -> (x ← m; k x) w = k a w1.
Proof. intros H. unfold mbind, M_bind, bind. rewrite H. reflexivity. Qed.

Lemma run_gets {S A B} (f : S -> A) (k : A -> M S B) w :
  (x ← gets f; k x) w = k (f w) w.
Proof. reflexivity. Qed.

Lemma get_student_ids_run zoom_api mapping meeting raws w :
  zoom_api meeting = Ok raws ->
  ZoomRoster.get_student_ids_from_participants zoom_api mapping meeting w =
  (Ok (list_to_set (omap ZoomRoster.student_id
                      (map (ZoomRoster.describe mapping) raws))),
   if PyDict.contains (active_participants w) meeting
   then set_participants
          (fun d => PyDict.set d meeting
             (list_to_set (map (fun p => ZoomRoster.field p "user_name") raws))) w
   else w).
Proof.
  intros Hapi. unfold ZoomRoster.get_student_ids_from_participants.
  rewrite (run_bind _ _ _ _ _ (get_participants_run _ mapping _ _ w Hapi)).
  reflexivity.
Qed.

(** X13: refreshing a roster from Zoom. For an unknown session, or a session
    without a meeting id, the refresh does nothing and raises nothing. With
    a meeting id, an exception of the Zoom client goes to the caller and
    nothing has changed; when the client answers, the roster of a monitored
    session is replaced by the ids the mapping gives for the usernames
    present (participants without a mapping are dropped), and a session that
    is not monitored stays unmonitored. The database is not written. *)
Theorem roster_refresh
    (zoom_api : string -> result (list ZoomRoster.RawParticipant))
    (mapping : PyDict.t string Z) (w : World) (sid : Z) :
  let refresh := ZoomRoster.update_session_students zoom_api mapping sid in
  let rosters := fun w' => active_sessions (adaptive_engine w') in
  (SessionManager.query_session (database w) sid = None -> refresh w = (Ok tt, w)) /\
  (forall session,
     SessionManager.query_session (database w) sid = Some session ->
     (SessionManager.truthy (zoom_meeting_id session) = None ->
      refresh w = (Ok tt, w)) /\
     (forall meeting,
        SessionManager.truthy (zoom_meeting_id session) = Some meeting ->
        (forall e, zoom_api meeting = Raise e -> refresh w = (Raise e, w)) /\
        (forall raws, zoom_api meeting = Ok raws ->
           fst (refresh w) = Ok tt /\
           database (exec refresh w) = database w /\
           (PyDict.get (rosters w) sid = None -> rosters (exec refresh w) = rosters w) /\
           (forall old, PyDict.get (rosters w) sid = Some old ->
              exists ids,
                PyDict.get (rosters (exec refresh w)) sid = Some ids /\
                forall x, x ∈ ids <->
                  exists raw, In raw raws /\
                    PyDict.get mapping (ZoomRoster.field raw "user_name") = Some x)))).
Proof.
  cbv zeta. unfold ZoomRoster.update_session_students. split.
  - intros Hq. unfold mbind, M_bind, bind, gets. rewrite Hq. reflexivity.
  - intros session Hq. split.
    + intros Hnone. unfold mbind, M_bind, bind, gets. rewrite Hq, Hnone. reflexivity.
    + intros meeting Hm. split.
      * intros e He.
        unfold mbind, M_bind, bind, gets, ZoomRoster.get_student_ids_from_participants,
          ZoomRoster.get_participants, mbind, M_bind, bind, lift.
        rewrite Hq, Hm, He. reflexivity.
      * intros raws Hapi. unfold exec.
        rewrite run_gets, Hq, Hm.
        rewrite (run_bind _ _ _ _ _ (get_student_ids_run _ mapping _ _ w Hapi)).
        unfold Engine.update_session_students, mbind, M_bind, bind, gets,
          mret, M_ret, ret, PyDict.contains, logger, modify.
        destruct (PyDict.get (active_sessions (adaptive_engine w)) sid) as [old|] eqn:Hg;
          destruct (PyDict.get (active_participants w) meeting);
          simpl; rewrite Hg; simpl;
          (split; [reflexivity|]); (split; [reflexivity|]);
          (split; [intros; congruence|]); intros old' Hold; try discriminate;
          (eexists; split; [apply get_set_eq|apply student_ids_members]).
Qed.

Lemma roster_refresh_witness :
  PyDict.get (active_sessions (adaptive_engine
    (exec (SessionManager.start_session 5 {[99]};;
           ZoomRoster.update_session_students sample_api sample_mapping 5)
       zoom_world))) 5 = Some {[11; 12]} /\
  ZoomRoster.update_session_students sample_api sample_mapping 6 zoom_world
    = (Ok tt, zoom_world).
Proof.
  split; [vm_compute; reflexivity|].
  pose proof (roster_refresh sample_api sample_mapping zoom_world 6) as H.
  cbv zeta in H. destruct H as [_ Hknown].
  exact (proj1 (Hknown (pending_session 6) eq_refl) eq_refl).
Defined.

(** X14: the Zoom handler's record of monitored meetings.
    [start_monitoring] leaves the meeting monitored with an empty set of
    participants, also when it was monitored before; [stop_monitoring]
    never raises, and after it the meeting is not monitored. When the
    client answers, [get_participants] returns one entry per participant,
    with a student id exactly for the mapped usernames; it records the
    usernames for a monitored meeting and leaves the process untouched for a
    meeting that is not monitored. *)
Theorem zoom_monitoring
    (zoom_api : string -> result (list ZoomRoster.RawParticipant))
    (mapping : PyDict.t string Z) (w : World) (meeting : string) :
  PyDict.get (active_participants (exec (ZoomEventHandler.start_monitoring meeting) w))
    meeting = Some ∅ /\
  fst (ZoomEventHandler.stop_monitoring meeting w) = Ok tt /\
  (PyDict.wf (active_participants w) ->
   PyDict.get (active_participants (exec (ZoomEventHandler.stop_monitoring meeting) w))
     meeting = None) /\
  (forall raws, zoom_api meeting = Ok raws ->
     let run := ZoomRoster.get_participants zoom_api mapping meeting in
     fst (run w) = Ok (map (ZoomRoster.describe mapping) raws) /\
     (PyDict.get (active_participants w) meeting = None -> exec run w = w) /\
     (forall old, PyDict.get (active_participants w) meeting = Some old ->
        PyDict.get (active_participants (exec run w)) meeting
        = Some (list_to_set (map (fun p => ZoomRoster.field p "user_name") raws)))).
Proof.
  split; [|split; [|split]].
  - unfold exec, ZoomEventHandler.start_monitoring, mbind, M_bind, bind, modify, logger.
    simpl. apply get_set_eq.
  - unfold ZoomEventHandler.stop_monitoring, mbind, M_bind, bind, gets.
    destruct (PyDict.contains (active_participants w) meeting); reflexivity.
  - intros Hwf.
    unfold exec, ZoomEventHandler.stop_monitoring, mbind, M_bind, bind, gets,
      PyDict.contains.
    destruct (PyDict.get (active_participants w) meeting) eqn:Hg; simpl;
      [apply get_del_eq; exact Hwf|exact Hg].
  - intros raws Hapi. cbv zeta. unfold exec.
    rewrite (get_participants_run _ _ _ _ _ Hapi). unfold PyDict.contains.
    split; [reflexivity|]. split.
    + intros Hg. rewrite Hg. reflexivity.
    + intros old Hg. rewrite Hg. simpl. apply get_set_eq.
Qed.

Lemma zoom_monitoring_witness :
  PyDict.get (active_participants
    (exec (SessionManager.start_session 5 {[99]};;
           ZoomRoster.get_participants sample_api sample_mapping "m-5")
       zoom_world)) "m-5"
  = Some (list_to_set ["ann"; "guest"; "bob"]).
Proof.
  pose proof (zoom_monitoring sample_api sample_mapping
                (exec (SessionManager.start_session 5 {[99]}) zoom_world) "m-5") as H.
  destruct H as (_ & _ & _ & Hget).
  specialize (Hget _ eq_refl). cbv zeta in Hget. destruct Hget as (_ & _ & Hset).
  exact (Hset ∅ eq_refl).
Defined.

(** ** Further properties of the connection registries *)

Lemma instructor_reachable_two_tabs fault :
  instructor_reachable (two_tab_instructor fault).
Proof.
  unfold two_tab_instructor.
  pose proof (instructor_reach_connect _ 2%nat 3
                (instructor_reach_connect _ 1%nat 3
                   (instructor_reach_init (quiet_transport fault)))) as H.
  exact H.
Qed.

Lemma student_reachable_two_tabs fault :
  student_reachable (two_tab_student fault).
Proof.
  unfold two_tab_student.
  pose proof (student_reach_connect _ 1%nat 5 7
                (student_reach_init (quiet_transport fault)) eq_refl) as H1.
  exact (student_reach_connect _ 2%nat 5 7 H1 eq_refl).
Qed.

Lemma instructor_disconnect_twice_witness :
  exists w1,
    InstructorWebSocketManager.disconnect 1%nat (two_tab_instructor healthy)
      = (Ok tt, w1) /\
    InstructorWebSocketManager.disconnect 1%nat w1 = (Ok tt, w1).
Proof.
  exact (instructor_disconnect_twice 1%nat (two_tab_instructor healthy)
           (instructor_reachable_two_tabs healthy)).
Defined.

Lemma instructor_disconnect_removes_witness :
  (1%nat ∉ InstructorWebSocketManager.connections_of
     (self (exec (InstructorWebSocketManager.disconnect 1%nat)
              (two_tab_instructor healthy))) 3) /\
  PyDict.get (InstructorWebSocketManager.instructor_sessions
     (self (exec (InstructorWebSocketManager.disconnect 1%nat)
              (two_tab_instructor healthy)))) 1%nat = None.
Proof.
  apply (instructor_disconnect_removes 1%nat 3 (two_tab_instructor healthy)
           (instructor_reachable_two_tabs healthy) eq_refl).
  lia.
Defined.

Lemma student_disconnect_twice_witness :
  exists w1,
    StudentWebSocketManager.disconnect 1%nat (two_tab_student healthy) = (Ok tt, w1) /\
    StudentWebSocketManager.disconnect 1%nat w1 = (Ok tt, w1) /\
    holders 1%nat (StudentWebSocketManager.active_connections (self w1)) = [] /\
    PyDict.get (StudentWebSocketManager.student_sessions (self w1)) 1%nat = None.
Proof.
  exact (student_disconnect_twice 1%nat (two_tab_student healthy)
           (student_reachable_two_tabs healthy)).
Defined.

Lemma find_none_all {A} (p : A -> bool) (l : list A) x :
  find p l = None -> In x l -> p x = false.
Proof.
  induction l as [|y l IH]; simpl; [tauto|].
  destruct (p y) eqn:Hy; [discriminate|]. intros Hf [<-|Hin]; auto.
Qed.

Lemma find_target_channel m session_id student_id ws :
  StudentWebSocketManager.find_target m session_id student_id = Some ws ->
  In (ws, student_id) (PyDict.items (StudentWebSocketManager.student_sessions m)) /\
  ws ∈ StudentWebSocketManager.connections_of m session_id.
Proof.
  unfold StudentWebSocketManager.find_target.
  destruct (find _ _) as [[ws' sid]|] eqn:Hfind; [|discriminate].
  intros [= <-]. apply find_some in Hfind. destruct Hfind as [Hin Hp].
  apply andb_prop in Hp. destruct Hp as [Hsid Hmem].
  apply Z.eqb_eq in Hsid. subst sid. apply bool_decide_eq_true in Hmem. auto.
Qed.

(** X20: [send_engagement_update] is the same fan-out as the dashboard
    update: it raises nothing, leaves the registry as it is, tries every
    channel of the instructor once and reaches each channel whose send does
    not fail, a failing channel not stopping the others. *)
Theorem engagement_update_fans_out (w : Net InstructorWebSocketManager.t)
    (owner : Z) (update : Message) :
  let targets := elements (InstructorWebSocketManager.connections_of (self w) owner) in
  let w' := exec (InstructorWebSocketManager.send_engagement_update owner update) w in
  fst (InstructorWebSocketManager.send_engagement_update owner update w) = Ok tt /\
  self w' = self w /\
  attempts (net w') = attempts (net w) ++ addressed update targets /\
  delivered (net w') =
    delivered (net w) ++ addressed update (reached (send_fault (net w)) targets) /\
  (forall ws, ws ∈ InstructorWebSocketManager.connections_of (self w) owner ->
     In (ws, update) (attempts (net w')) /\
     (send_fault (net w) ws = None -> In (ws, update) (delivered (net w')))).
Proof.
  cbv zeta. unfold exec.
  unfold InstructorWebSocketManager.send_engagement_update, mbind, M_bind, bind, gets.
  assert (Hmem : forall (A : list (nat * string)) B ws,
            ws ∈ InstructorWebSocketManager.connections_of (self w) owner ->
            In (ws, update)
              (A ++ addressed update
                 (elements (InstructorWebSocketManager.connections_of (self w) owner)))
            /\ (send_fault (net w) ws = None ->
                In (ws, update)
                  (B ++ addressed update
                     (reached (send_fault (net w))
                        (elements (InstructorWebSocketManager.connections_of
                                     (self w) owner)))))).
  { intros A B ws Hin. apply elem_of_elements, list_elem_of_In in Hin. split.
    - apply in_or_app. right. apply In_addressed. exact Hin.
    - intros Hok. apply in_or_app. right. apply In_addressed.
      unfold reached. apply filter_In. rewrite Hok. auto. }
  destruct (PyDict.contains _ owner) eqn:Hc; simpl.
  - destruct (for_each_send_json
                (elements (InstructorWebSocketManager.connections_of (self w) owner))
                update "Error sending engagement update to instructor" w)
      as (w' & -> & Hself & _ & Ha & Hd).
    simpl. split; [reflexivity|]. split; [exact Hself|]. split; [exact Ha|].
    split; [exact Hd|]. intros ws Hin. rewrite Ha, Hd. apply Hmem. exact Hin.
  - assert (Hempty : InstructorWebSocketManager.connections_of (self w) owner = ∅).
    { unfold InstructorWebSocketManager.connections_of.
      unfold PyDict.contains in Hc. destruct (PyDict.get _ owner); [discriminate|].
      reflexivity. }
    rewrite Hempty, elements_empty. unfold addressed. simpl. rewrite !app_nil_r.
    split; [reflexivity|]. split; [reflexivity|]. split; [reflexivity|].
    split; [reflexivity|]. intros ws Hin. exfalso. exact (not_elem_of_empty _ Hin).
Qed.

Lemma multi_send_run session_id question students
    (w : Net StudentWebSocketManager.t) :
  exists w',
    for_each students (fun student_id =>
      StudentWebSocketManager.send_question_to_student session_id student_id question) w
      = (Ok tt, w') /\
    self w' = self w /\
    attempts (net w') =
      attempts (net w)
      ++ addressed question (flat_map (student_targets (self w) session_id) students).
Proof.
  revert w. induction students as [|st students IH]; intros w; simpl.
  - exists w. unfold addressed. simpl. rewrite app_nil_r. auto.
  - pose proof (send_question_to_student_run w session_id st question) as H.
    cbv zeta in H. unfold exec in H.
    unfold bind.
    destruct (StudentWebSocketManager.send_question_to_student session_id st question w)
      as [r w1]. simpl in H. destruct H as (-> & Hself & Ha & _).
    destruct (IH w1) as (w' & Hrun & Hself' & Ha').
    exists w'. split; [exact Hrun|]. split; [congruence|].
    rewrite Ha', Ha, Hself. unfold addressed, student_targets.
    rewrite map_app, app_assoc. reflexivity.
Qed.

(** X21: a question sent to several students. The call raises nothing and
    leaves the registry as it is. It makes at most one send per student of
    the set; every channel it tries is a channel of one of those students in
    that session; and for a session without connections it tries nothing. *)
Theorem multi_send_one_per_student (w : Net StudentWebSocketManager.t)
    (session_id : Z) (student_ids : gset Z) (question : Message) :
  let run := StudentWebSocketManager.send_question_to_multiple_students
               session_id student_ids question in
  let tried := flat_map (student_targets (self w) session_id) (elements student_ids) in
  fst (run w) = Ok tt /\
  self (exec run w) = self w /\
  attempts (net (exec run w)) = attempts (net w) ++ addressed question tried /\
  (length tried <= size student_ids)%nat /\
  (forall ws, In ws tried ->
     ws ∈ StudentWebSocketManager.connections_of (self w) session_id /\
     exists student_id,
       student_id ∈ student_ids /\
       In (ws, student_id)
         (PyDict.items (StudentWebSocketManager.student_sessions (self w)))) /\
  (PyDict.contains (StudentWebSocketManager.active_connections (self w)) session_id
     = false -> tried = []).
Proof.
  cbv zeta. unfold exec, StudentWebSocketManager.send_question_to_multiple_students.
  destruct (multi_send_run session_id question (elements student_ids) w)
    as (w' & -> & Hself & Ha).
  simpl. split; [reflexivity|]. split; [exact Hself|]. split; [exact Ha|].
  split; [|split].
  - change (size student_ids) with (length (elements student_ids)).
    clear Ha Hself.
    induction (elements student_ids) as [|st l IH]; simpl; [lia|].
    rewrite length_app. unfold student_targets at 1.
    destruct (StudentWebSocketManager.find_target _ _ _); simpl; lia.
  - intros ws Hin. apply in_flat_map in Hin. destruct Hin as (st & Hst & Hws).
    unfold student_targets in Hws.
    destruct (StudentWebSocketManager.find_target (self w) session_id st)
      as [target|] eqn:Hfind; [|destruct Hws].
    destruct Hws as [<-|[]].
    destruct (find_target_channel _ _ _ _ Hfind) as [Hitem Hmem].
    split; [exact Hmem|]. exists st. split; [|exact Hitem].
    apply elem_of_elements, list_elem_of_In. exact Hst.
  - intros Hc. clear Ha Hself.
    induction (elements student_ids) as [|st l IH]; simpl; [reflexivity|].
    unfold student_targets at 1.
    rewrite (find_target_unknown_session _ _ _ Hc), IH. reflexivity.
Qed.









(** ** The delivery policy of a tick *)

(** A pass whose sessions up to and including [item] are evaluated without a
    raise pushes for all of them, then for some of the later sessions. *)
Lemma for_each_sessions_through db callback before item after s w :
  Forall (session_ok db callback) before ->
  Engine._identify_students_needing_questions db (fst item) (snd item) = Ok s ->
  exists r logs n,
    for_each (before ++ item :: after) (Engine.monitor_session db callback) w
    = (r, observe logs
            (dispatches db (before ++ [item]) ++ dispatches db (firstn n after)) 0 w).
Proof.
  intros Hall Hs. revert w. destruct item as [session_id0 student_ids0].
  simpl in Hs.
  induction Hall as [|[session_id student_ids] items Hok _ IH]; intros w;
    cbn [app for_each].
  - unfold bind. rewrite monitor_session_run, Hs.
    rewrite dispatches_cons, Hs. cbn [dispatches flat_map]. rewrite app_nil_r.
    destruct (bool_decide (s ≠ ∅)) eqn:Hne.
    + destruct (callback session_id0 s) as [[]|e].
      * destruct (for_each_sessions_prefix db callback after
                    (observe [Log INFO "students need questions"]
                       [(session_id0, s)] 0 w)) as (r & logs & n & Hrun).
        rewrite Hrun, observe_observe. exists r. eexists. exists n. reflexivity.
      * exists (Raise e). eexists. exists 0%nat. cbn [firstn dispatches flat_map].
        rewrite app_nil_r. reflexivity.
    + destruct (for_each_sessions_prefix db callback after w) as (r & logs & n & Hrun).
      rewrite Hrun. exists r, logs, n. reflexivity.
  - unfold bind. rewrite monitor_session_run.
    destruct Hok as (s1 & Hs1 & Hcb). simpl in Hs1, Hcb. rewrite Hs1.
    rewrite dispatches_cons, Hs1.
    destruct (bool_decide (s1 ≠ ∅)) eqn:Hne.
    + apply bool_decide_eq_true in Hne. rewrite (Hcb Hne).
      destruct (IH (observe [Log INFO "students need questions"]
                      [(session_id, s1)] 0 w)) as (r & logs & n & Hrun).
      rewrite Hrun, observe_observe. exists r. eexists. exists n.
      rewrite <- app_assoc. reflexivity.
    + destruct (IH w) as (r & logs & n & Hrun). rewrite Hrun.
      exists r, logs, n. reflexivity.
Qed.

Lemma tick_through w factory callback db before item after s :
  db_session_factory (adaptive_engine w) = Some factory ->
  question_push_callback (adaptive_engine w) = Some callback ->
  factory (database w) = Ok db ->
  PyDict.items (active_sessions (adaptive_engine w)) = before ++ item :: after ->
  Forall (session_ok db callback) before ->
  Engine._identify_students_needing_questions db (fst item) (snd item) = Ok s ->
  exists n,
    tick_deliveries w =
    dispatches db ((before ++ [item]) ++ firstn n after).
Proof.
  intros Hf Hc Hdb Hitems Hall Hs. unfold tick_deliveries.
  rewrite (tick_run w factory callback db Hf Hc Hdb), Hitems.
  unfold try_finally, try_except.
  destruct (for_each_sessions_through db callback before item after s w Hall Hs)
    as (r & logs & n & Hrun).
  rewrite Hrun. exists n. rewrite (dispatches_app db (before ++ [item])).
  destruct r as [[]|e]; simpl; rewrite skipn_app, Nat.sub_diag, skipn_all;
    reflexivity.
Qed.

(** C1 (amended): in a tick of a wired monitor whose database factory
    answers, take a monitored session such that every session registered
    before it is evaluated and dispatched without a raise and the store
    answers the reads for its own roster. Then a student of its roster is in
    the session's delivery set iff the current tier is absent, PASSIVE or
    MODERATE, and is left out iff it is ACTIVE, whatever the push of this
    session and the later sessions do. Roster {1, 2} on session 42 with no
    tier recorded gives the delivery set {1, 2}; once student 1 is ACTIVE and
    student 2 PASSIVE the next tick gives {2}; after the session is stopped,
    or removed from the monitor, a tick delivers nothing for it. *)
Theorem tick_delivery_policy :
  (forall w factory callback db before session_id roster after student,
     db_session_factory (adaptive_engine w) = Some factory ->
     question_push_callback (adaptive_engine w) = Some callback ->
     factory (database w) = Ok db ->
     PyDict.items (active_sessions (adaptive_engine w))
       = before ++ (session_id, roster) :: after ->
     Forall (session_ok db callback) before ->
     (forall st, st ∈ roster -> query_fault db st session_id = None) ->
     PyDict.wf (active_sessions (adaptive_engine w)) ->
     student ∈ roster ->
     let tier := EngagementService.get_current_engagement db student session_id in
     let delivered :=
       exists s, In (session_id, s) (tick_deliveries w) /\ student ∈ s in
     (delivered <->
        tier = Ok None \/ tier = Ok (Some PASSIVE) \/ tier = Ok (Some MODERATE)) /\
     (~ delivered <-> tier = Ok (Some ACTIVE))) /\
  (EngagementService.get_current_engagement (database scenario_first_tick) 1 42 = Ok None /\
   EngagementService.get_current_engagement (database scenario_first_tick) 2 42 = Ok None /\
   tick_deliveries scenario_first_tick = [(42, {[1; 2]})]) /\
  (EngagementService.get_current_engagement (database scenario_second_tick) 1 42
     = Ok (Some ACTIVE) /\
   EngagementService.get_current_engagement (database scenario_second_tick) 2 42
     = Ok (Some PASSIVE) /\
   tick_deliveries scenario_second_tick = [(42, {[2]})]) /\
  tick_deliveries scenario_third_tick = [] /\
  (forall w session_id s,
     PyDict.wf (active_sessions (adaptive_engine w)) ->
     ~ In (session_id, s)
         (tick_deliveries (exec (Engine.remove_session session_id) w))).
Proof.
  split; [|split; [|split; [|split]]].
  - intros w factory callback db before session_id roster after student
      Hf Hc Hdb Hitems Hall Hq Hwf Hin. cbv zeta.
    destruct (identify_students_members db session_id roster Hq) as (s0 & Hs0 & Hmem).
    destruct (tick_through w factory callback db before (session_id, roster) after s0
                Hf Hc Hdb Hitems Hall Hs0) as (n & Hd).
    rewrite Hd. clear Hd.
    destruct (get_current_engagement_ok db student session_id (Hq _ Hin)) as [tier Ht].
    rewrite Ht.
    assert (Hget : PyDict.get (active_sessions (adaptive_engine w)) session_id
                   = Some roster).
    { apply In_get; [exact Hwf|]. unfold PyDict.items in Hitems. rewrite Hitems.
      apply in_or_app. right. left. reflexivity. }
    assert (Hsub : forall x, In x ((before ++ [(session_id, roster)]) ++ firstn n after) ->
                             In x (active_sessions (adaptive_engine w))).
    { intros x Hx. unfold PyDict.items in Hitems. rewrite Hitems.
      apply in_app_or in Hx. destruct Hx as [Hx|Hx].
      - apply in_app_or in Hx. apply in_or_app.
        destruct Hx as [Hx|[<-|[]]]; [left; exact Hx|right; left; reflexivity].
      - apply in_or_app. right. right. exact (In_firstn _ _ _ Hx). }
    assert (Hiff : (exists s, In (session_id, s)
                       (dispatches db
                          ((before ++ [(session_id, roster)]) ++ firstn n after))
                     /\ student ∈ s) <->
                   Engine._should_deliver_question tier student session_id = true).
    { split.
      - intros (s & Hdisp & Hst). apply In_dispatches in Hdisp.
        destruct Hdisp as (roster' & Hitem & Hs & _).
        apply Hsub in Hitem. apply (In_get _ _ _ Hwf) in Hitem.
        rewrite Hget in Hitem. injection Hitem as <-.
        rewrite Hs0 in Hs. injection Hs as <-.
        apply Hmem in Hst. destruct Hst as (_ & tier' & Ht' & Hd').
        rewrite Ht in Ht'. injection Ht' as <-. exact Hd'.
      - intros Hd. exists s0.
        assert (Hst : student ∈ s0) by (apply Hmem; eauto).
        split; [|exact Hst]. apply In_dispatches. exists roster.
        split; [|split; [exact Hs0|]].
        + apply in_or_app. left. apply in_or_app. right. left. reflexivity.
        + intros E. rewrite E in Hst. exact (not_elem_of_empty _ Hst). }
    rewrite Hiff.
    destruct (should_deliver_cases tier student session_id) as [Hyes Hno].
    split.
    + rewrite Hyes. split.
      * intros [->|[->| ->]]; auto.
      * intros [[= ->]|[[= ->]|[= ->]]]; auto.
    + rewrite not_true_iff_false, Hno. split; [intros ->; reflexivity|].
      intros [= ->]. reflexivity.
  - vm_compute. auto.
  - vm_compute. auto.
  - vm_compute. reflexivity.
  - intros w session_id s Hwf. apply removed_session_not_delivered. exact Hwf.
Qed.

Lemma tick_delivery_policy_witness :
  (exists s, In (42, s) (tick_deliveries scenario_first_tick) /\ 1 ∈ s) <->
  (EngagementService.get_current_engagement (database scenario_first_tick) 1 42
     = Ok None \/
   EngagementService.get_current_engagement (database scenario_first_tick) 1 42
     = Ok (Some PASSIVE) \/
   EngagementService.get_current_engagement (database scenario_first_tick) 1 42
     = Ok (Some MODERATE)).
Proof.
  assert (Hwf : PyDict.wf (active_sessions (adaptive_engine scenario_first_tick))).
  { vm_compute. apply List.NoDup_cons; [simpl; tauto|apply List.NoDup_nil]. }
  assert (Hin : (1 : Z) ∈ ({[1; 2]} : gset Z)).
  { apply elem_of_union_l, elem_of_singleton. reflexivity. }
  exact (proj1 (proj1 tick_delivery_policy scenario_first_tick
                  (fun db => Ok db) (fun _ _ => Ok tt)
                  (database scenario_first_tick) [] 42 {[1; 2]} [] 1
                  eq_refl eq_refl eq_refl eq_refl (List.Forall_nil _)
                  (fun _ _ => eq_refl) Hwf Hin)).
Defined.

(** Against C1 as stated: student 2 of monitored session 20 has no tier
    recorded, yet the tick, stopped by the store error on session 10, does
    not put the student in any delivery set. *)
Lemma absent_tier_student_not_delivered :
  PyDict.get (active_sessions (adaptive_engine faulty_store_world)) 20 = Some {[2]} /\
  (2 ∈ ({[2]} : gset Z)) /\
  EngagementService.get_current_engagement (database faulty_store_world) 2 20
    = Ok None /\
  ~ (exists s, In (20, s) (tick_deliveries faulty_store_world) /\ 2 ∈ s).
Proof.
  split; [reflexivity|]. split; [apply elem_of_singleton; reflexivity|].
  split; [reflexivity|].
  assert (Hd : tick_deliveries faulty_store_world = []) by (vm_compute; reflexivity).
  rewrite Hd. intros (s & [] & _).
Qed.

(** ** Sends: which channels are tried, reached and logged *)

Lemma find_first {A} (p : A -> bool) (l before after : list A) x :
  l = before ++ x :: after ->
  p x = true ->
  (forall y, In y before -> p y = false) ->
  find p l = Some x.
Proof.
  intros -> Hx. induction before as [|y before IH]; intros Hb; simpl.
  - rewrite Hx. reflexivity.
  - rewrite (Hb y) by (left; reflexivity). apply IH.
    intros z Hz. apply Hb. right. exact Hz.
Qed.

Lemma find_all_none {A} (p : A -> bool) (l : list A) :
  (forall y, In y l -> p y = false) -> find p l = None.
Proof.
  induction l as [|y l IH]; intros Hl; simpl; [reflexivity|].
  rewrite (Hl y) by (left; reflexivity). apply IH.
  intros z Hz. apply Hl. right. exact Hz.
Qed.

Lemma student_entry_test m session_id student_id (entry : WebSocket * Z) :
  (let '(ws, sid) := entry in
   (sid =? student_id)
   && bool_decide (ws ∈ StudentWebSocketManager.connections_of m session_id)) = false
  <-> ~ student_entry m session_id student_id entry.
Proof.
  destruct entry as [ws sid]. unfold student_entry. simpl.
  rewrite andb_false_iff, Z.eqb_neq, bool_decide_eq_false.
  destruct (decide (sid = student_id)); tauto.
Qed.

Lemma find_target_first m session_id student_id before target after :
  PyDict.items (StudentWebSocketManager.student_sessions m)
    = before ++ (target, student_id) :: after ->
  target ∈ StudentWebSocketManager.connections_of m session_id ->
  (forall entry, In entry before -> ~ student_entry m session_id student_id entry) ->
  StudentWebSocketManager.find_target m session_id student_id = Some target.
Proof.
  intros Hitems Hin Hbefore. unfold StudentWebSocketManager.find_target.
  rewrite (find_first _ _ before after (target, student_id) Hitems).
  - reflexivity.
  - rewrite Z.eqb_refl, bool_decide_eq_true_2 by exact Hin. reflexivity.
  - intros entry He. apply (student_entry_test m session_id student_id entry).
    apply Hbefore. exact He.
Qed.

Lemma find_target_no_entry m session_id student_id :
  (forall entry,
     In entry (PyDict.items (StudentWebSocketManager.student_sessions m)) ->
     ~ student_entry m session_id student_id entry) ->
  StudentWebSocketManager.find_target m session_id student_id = None.
Proof.
  intros Hnone. unfold StudentWebSocketManager.find_target.
  rewrite find_all_none; [reflexivity|].
  intros entry He. apply (student_entry_test m session_id student_id entry).
  apply Hnone. exact He.
Qed.

Lemma member_contains (m : StudentWebSocketManager.t) session_id (ws : WebSocket) :
  ws ∈ StudentWebSocketManager.connections_of m session_id ->
  PyDict.contains (StudentWebSocketManager.active_connections m) session_id = true.
Proof.
  unfold StudentWebSocketManager.connections_of, PyDict.contains.
  destruct (PyDict.get _ session_id); [reflexivity|]. simpl.
  intros Hin. exfalso. exact (not_elem_of_empty _ Hin).
Qed.

(** The log of the instructor-side loop: one ERROR record per failing
    channel, nothing else. *)
Lemma for_each_send_json_log {T : Type} (targets : list WebSocket)
    (msg text : string) (w : Net T) :
  ws_logged (net (snd (for_each targets (fun ws =>
      try_except (send_json ws msg) (fun e => ws_logger ERROR text)) w)))
  = ws_logged (net w) ++ error_records text (failed (send_fault (net w)) targets).
Proof.
  set (body := fun ws : nat =>
    try_except (send_json (T := T) ws msg) (fun e => ws_logger ERROR text)).
  assert (Hgen : forall w0 : Net T,
            send_fault (net (snd (for_each targets body w0))) = send_fault (net w0) /\
            ws_logged (net (snd (for_each targets body w0)))
            = ws_logged (net w0)
              ++ error_records text (failed (send_fault (net w0)) targets)).
  { induction targets as [|ws targets IH]; intros w0; simpl.
    - unfold error_records. simpl. rewrite app_nil_r. auto.
    - unfold bind. unfold body at 1 3. unfold try_except, send_json.
      destruct (send_fault (net w0) ws) as [e|] eqn:Hfault.
      + unfold ws_logger, modify. simpl.
        match goal with |- context [for_each targets body ?w1] =>
          destruct (IH w1) as [Hf Hl];
          destruct (for_each targets body w1) as [[[]|e1] w2] eqn:Hrun end;
          simpl in *; rewrite Hf, Hl; unfold error_records; simpl;
          rewrite <- app_assoc; auto.
      + match goal with |- context [for_each targets body ?w1] =>
          destruct (IH w1) as [Hf Hl];
          destruct (for_each targets body w1) as [[[]|e1] w2] eqn:Hrun end;
          simpl in *; rewrite Hf, Hl; auto. }
  apply Hgen.
Qed.

(** C5 (amended): an instructor-side send tries every channel registered
    under the instructor, each once; a channel whose send fails is logged
    with one ERROR record and skipped, the others are still tried and
    reached, and nothing is raised. A student-side send also raises nothing
    and leaves the registry alone, but it is not a fan-out. When no entry of
    the channel map is a channel of the student in the session, nothing is
    tried and one WARNING is logged. Otherwise the send is tried on exactly
    one channel, the first entry of the channel map, in the order of
    registration, that is mapped to the student and is in the session's set:
    when that send returns the channel is reached and an INFO record is
    logged, when it fails nothing is reached and an ERROR record is logged;
    the student's other channels are not tried. *)
Theorem send_reaches :
  (forall (w : Net InstructorWebSocketManager.t) owner update,
     let targets :=
       elements (InstructorWebSocketManager.connections_of (self w) owner) in
     let w' := exec (InstructorWebSocketManager.send_dashboard_update owner update) w in
     fst (InstructorWebSocketManager.send_dashboard_update owner update w) = Ok tt /\
     self w' = self w /\
     attempts (net w') = attempts (net w) ++ addressed update targets /\
     delivered (net w') =
       delivered (net w) ++ addressed update (reached (send_fault (net w)) targets) /\
     ws_logged (net w') =
       ws_logged (net w)
       ++ error_records "Error sending dashboard update to instructor"
            (failed (send_fault (net w)) targets) /\
     (forall ws, ws ∈ InstructorWebSocketManager.connections_of (self w) owner ->
        In (ws, update) (attempts (net w')) /\
        (send_fault (net w) ws = None -> In (ws, update) (delivered (net w'))))) /\
  (forall (w : Net StudentWebSocketManager.t) session_id student_id question,
     let m := self w in
     let w' := exec (StudentWebSocketManager.send_question_to_student
                       session_id student_id question) w in
     fst (StudentWebSocketManager.send_question_to_student
            session_id student_id question w) = Ok tt /\
     self w' = self w /\
     ((forall entry,
         In entry (PyDict.items (StudentWebSocketManager.student_sessions m)) ->
         ~ student_entry m session_id student_id entry) ->
      attempts (net w') = attempts (net w) /\
      delivered (net w') = delivered (net w) /\
      ws_logged (net w') =
        ws_logged (net w)
        ++ [Log WARNING
              (if PyDict.contains (StudentWebSocketManager.active_connections m)
                    session_id
               then "Student not connected in session"
               else "No active connections for session")]) /\
     (forall before target after,
        PyDict.items (StudentWebSocketManager.student_sessions m)
          = before ++ (target, student_id) :: after ->
        target ∈ StudentWebSocketManager.connections_of m session_id ->
        (forall entry, In entry before ->
                       ~ student_entry m session_id student_id entry) ->
        attempts (net w') = attempts (net w) ++ [(target, question)] /\
        delivered (net w') =
          delivered (net w)
          ++ match send_fault (net w) target with
             | None => [(target, question)]
             | Some _ => []
             end /\
        ws_logged (net w') =
          ws_logged (net w)
          ++ [match send_fault (net w) target with
              | None => Log INFO "Sent question to student"
              | Some _ => Log ERROR "Error sending question to student"
              end])).
Proof.
  split.
  - intros w owner update. cbv zeta.
    pose proof (send_dashboard_update_run w owner update) as H. cbv zeta in H.
    destruct H as (Hret & Hself & Ha & Hd).
    split; [exact Hret|]. split; [exact Hself|]. split; [exact Ha|].
    split; [exact Hd|]. split.
    + unfold exec, InstructorWebSocketManager.send_dashboard_update,
        mbind, M_bind, bind, gets.
      destruct (PyDict.contains _ owner) eqn:Hc; simpl.
      * apply for_each_send_json_log.
      * unfold InstructorWebSocketManager.connections_of.
        unfold PyDict.contains in Hc.
        destruct (PyDict.get _ owner); [discriminate|]. simpl.
        rewrite elements_empty. unfold error_records. simpl.
        rewrite app_nil_r. reflexivity.
    + intros ws Hin. apply elem_of_elements, list_elem_of_In in Hin. split.
      * rewrite Ha. apply in_or_app. right. apply In_addressed. exact Hin.
      * intros Hok. rewrite Hd. apply in_or_app. right. apply In_addressed.
        unfold reached. apply filter_In. rewrite Hok. auto.
  - intros w session_id student_id question. cbv zeta.
    pose proof (send_question_to_student_run w session_id student_id question) as H.
    cbv zeta in H. destruct H as (Hret & Hself & _ & _).
    split; [exact Hret|]. split; [exact Hself|]. split.
    + intros Hnone. apply find_target_no_entry in Hnone.
      unfold exec, StudentWebSocketManager.send_question_to_student,
        mbind, M_bind, bind, gets.
      destruct (PyDict.contains _ session_id); simpl; [rewrite Hnone|]; simpl; auto.
    + intros before target after Hitems Hin Hbefore.
      pose proof (find_target_first _ _ _ _ _ _ Hitems Hin Hbefore) as Hfind.
      pose proof (member_contains _ _ _ Hin) as Hc.
      unfold exec, StudentWebSocketManager.send_question_to_student,
        mbind, M_bind, bind, gets.
      rewrite Hc, Hfind. simpl.
      unfold try_except, send_json, ws_logger, modify. simpl.
      destruct (send_fault (net w) target); simpl; rewrite ?app_nil_r; auto.
Qed.

Lemma send_reaches_witness :
  attempts (net (exec (StudentWebSocketManager.send_question_to_student
                         5 7 "question") (two_tab_student (broken 1%nat))))
  = attempts (net (two_tab_student (broken 1%nat))) ++ [(1%nat, "question")] /\
  ws_logged (net (exec (StudentWebSocketManager.send_question_to_student
                          5 7 "question") (two_tab_student (broken 1%nat))))
  = ws_logged (net (two_tab_student (broken 1%nat)))
    ++ [Log ERROR "Error sending question to student"].
Proof.
  pose proof (proj2 send_reaches (two_tab_student (broken 1%nat)) 5 7 "question")
    as H.
  cbv zeta in H. destruct H as (_ & _ & _ & H).
  assert (Hin : 1%nat ∈ StudentWebSocketManager.connections_of
                          (self (two_tab_student (broken 1%nat))) 5).
  { eapply (bool_decide_eq_true_1 _). vm_compute. reflexivity. }
  destruct (H [] 1%nat [(2%nat, 7)] eq_refl Hin
              (fun entry (F : In entry []) => match F with end))
    as (Ha & _ & Hl).
  split; [exact Ha|exact Hl].
Defined.

(** Against C5 as stated: with two channels of one student the send is tried
    on the first only, and when that one fails the healthy second channel
    gets nothing. *)
Lemma student_send_is_not_fan_out :
  student_channel (self (two_tab_student healthy)) 5 7 1%nat /\
  student_channel (self (two_tab_student healthy)) 5 7 2%nat /\
  attempts (net (exec (StudentWebSocketManager.send_question_to_student 5 7 "question")
                   (two_tab_student healthy))) = [(1%nat, "question")] /\
  ~ student_fan_out (two_tab_student healthy) 5 7 "question" /\
  student_channel (self (two_tab_student (broken 1%nat))) 5 7 2%nat /\
  send_fault (net (two_tab_student (broken 1%nat))) 2%nat = None /\
  attempts (net (exec (StudentWebSocketManager.send_question_to_student 5 7 "question")
                   (two_tab_student (broken 1%nat)))) = [(1%nat, "question")] /\
  delivered (net (exec (StudentWebSocketManager.send_question_to_student 5 7 "question")
                    (two_tab_student (broken 1%nat)))) = [].
Proof.
  assert (H1 : student_channel (self (two_tab_student healthy)) 5 7 1%nat).
  { split; [reflexivity|]. unfold two_tab_student.
    eapply (bool_decide_eq_true_1 _). vm_compute. reflexivity. }
  assert (H2 : student_channel (self (two_tab_student healthy)) 5 7 2%nat).
  { split; [reflexivity|]. unfold two_tab_student.
    eapply (bool_decide_eq_true_1 _). vm_compute. reflexivity. }
  assert (H3 : student_channel (self (two_tab_student (broken 1%nat))) 5 7 2%nat).
  { split; [reflexivity|]. unfold two_tab_student.
    eapply (bool_decide_eq_true_1 _). vm_compute. reflexivity. }
  split; [exact H1|]. split; [exact H2|]. split; [vm_compute; reflexivity|].
  split; [|split; [exact H3|]; split; [reflexivity|];
           split; vm_compute; reflexivity].
  intros Hfan. specialize (Hfan 2%nat H2). vm_compute in Hfan.
  destruct Hfan as [Heq|[]]. discriminate.
Qed.

(** ** The history of a pair *)

Lemma insert_desc_perm row sorted :
  Permutation (insert_desc row sorted) (row :: sorted).
Proof.
  induction sorted as [|x rest IH]; simpl; [reflexivity|].
  destruct (timestamp x <=? timestamp row); [reflexivity|].
  rewrite IH. apply perm_swap.
Qed.

Lemma order_by_perm rows : Permutation (order_by_timestamp_desc rows) rows.
Proof.
  induction rows as [|x rows IH]; simpl; [reflexivity|].
  rewrite insert_desc_perm, IH. reflexivity.
Qed.

(** A sorted list that holds a row later than every other row starts with it. *)
Lemma newest_first_head ordered latest :
  newest_first ordered ->
  In latest ordered ->
  (forall r, In r ordered -> r <> latest -> timestamp r < timestamp latest) ->
  head ordered = Some latest.
Proof.
  unfold newest_first. intros Hs Hin Hlt.
  destruct ordered as [|x rest]; [destruct Hin|]. simpl.
  destruct (EngagementLog_eq_dec x latest) as [->|Hne]; [reflexivity|].
  exfalso. apply StronglySorted_inv in Hs. destruct Hs as [_ Hall].
  destruct Hin as [Heq|Hin]; [exact (Hne Heq)|].
  rewrite List.Forall_forall in Hall. specialize (Hall latest Hin).
  specialize (Hlt x (or_introl eq_refl) Hne). lia.
Qed.

(** X2: the history of a pair, when the store answers and the limit is not
    negative, whatever the database kind. The history is the first [limit]
    rows of a rearrangement of the pair's events by falling timestamp: each
    event of the pair occurs in that rearrangement as often as in the table,
    so the history repeats no event and, when the limit is at least the
    number of the pair's events, holds them all. It has [min limit n] of the
    pair's [n] events, and with a positive limit it starts with the event
    that is later than all the others, when there is one. *)
Theorem history_newest_first (engine : EngagementReports.dialect) (db : Database)
    (student session limit : Z)
    (Hread : query_fault db student session = None)
    (Hlimit : 0 <= limit) :
  exists ordered,
    Permutation ordered (EngagementService.rows_of db student session) /\
    newest_first ordered /\
    EngagementReports.get_student_engagement_history engine db student session limit
      = Ok (firstn (Z.to_nat limit) ordered) /\
    length (firstn (Z.to_nat limit) ordered) =
      Nat.min (Z.to_nat limit)
        (length (EngagementService.rows_of db student session)) /\
    (forall r, In r (firstn (Z.to_nat limit) ordered) ->
       In r (engagement_logs db) /\
       log_student_id r = student /\ log_session_id r = session) /\
    (Z.of_nat (length (EngagementService.rows_of db student session)) <= limit ->
     Permutation (firstn (Z.to_nat limit) ordered)
       (EngagementService.rows_of db student session)) /\
    (forall latest,
       0 < limit ->
       In latest (EngagementService.rows_of db student session) ->
       (forall r, In r (EngagementService.rows_of db student session) ->
                  r <> latest -> timestamp r < timestamp latest) ->
       head (firstn (Z.to_nat limit) ordered) = Some latest).
Proof.
  exists (order_by_timestamp_desc (EngagementService.rows_of db student session)).
  split; [apply order_by_perm|]. split; [apply order_by_sorted|].
  split; [|split; [|split; [|split]]].
  - unfold EngagementReports.get_student_engagement_history,
      EngagementReports.limited. rewrite Hread.
    destruct (Z.ltb_spec limit 0); [lia|]. destruct engine; reflexivity.
  - rewrite length_firstn, order_by_length. reflexivity.
  - intros r Hr. apply In_firstn, order_by_In, rows_of_In in Hr. exact Hr.
  - intros Hall. rewrite firstn_all2; [apply order_by_perm|].
    rewrite order_by_length. lia.
  - intros latest Hpos Hin Hlt.
    assert (Hhead : head (order_by_timestamp_desc
                            (EngagementService.rows_of db student session))
                    = Some latest).
    { apply newest_first_head; [apply order_by_sorted| |].
      - apply order_by_In. exact Hin.
      - intros r Hr. apply Hlt. apply order_by_In. exact Hr. }
    destruct (Z.to_nat limit) as [|n] eqn:Hn; [lia|].
    destruct (order_by_timestamp_desc _) as [|x rest]; [discriminate|exact Hhead].
Qed.

Lemma history_newest_first_witness :
  exists ordered,
    newest_first ordered /\
    EngagementReports.get_student_engagement_history
      EngagementReports.SQLite sample_store 1 42 2
    = Ok (firstn 2 ordered) /\
    head (firstn 2 ordered) = Some (event 3 1 42 PASSIVE 30).
Proof.
  destruct (history_newest_first EngagementReports.SQLite sample_store 1 42 2
              eq_refl ltac:(lia))
    as (ordered & _ & Hsorted & Hh & _ & _ & _ & Hhead).
  exists ordered. split; [exact Hsorted|]. split; [exact Hh|].
  apply (Hhead (event 3 1 42 PASSIVE 30)); [lia|vm_compute; auto|].
  intros r Hr Hne. vm_compute in Hr.
  destruct Hr as [<-|[<-|[<-|[]]]];
    [reflexivity|exfalso; apply Hne; reflexivity|reflexivity].
Defined.

(** ** Recording a response *)

Lemma rows_of_logged now db student session level st ss :
  EngagementService.rows_of
    (with_engagement_logs
       (engagement_logs db ++
          [{| log_id := Z.of_nat (length (engagement_logs db)) + 1;
              log_student_id := student; engagement_level := level;
              log_session_id := session; timestamp := now |}]) db) st ss
  = EngagementService.rows_of db st ss ++
    (if (student =? st) && (session =? ss)
     then [{| log_id := Z.of_nat (length (engagement_logs db)) + 1;
              log_student_id := student; engagement_level := level;
              log_session_id := session; timestamp := now |}]
     else []).
Proof.
  unfold EngagementService.rows_of. simpl. rewrite !List.filter_app. simpl.
  destruct (student =? st); simpl; [|reflexivity].
  destruct (session =? ss); reflexivity.
Qed.

Lemma first_order_by_newest rows row :
  (forall r, In r rows -> timestamp r < timestamp row) ->
  first (order_by_timestamp_desc (rows ++ [row])) = Some row.
Proof.
  unfold first. induction rows as [|x rows IH]; intros Hlt; simpl; [reflexivity|].
  rewrite head_insert_desc, IH by (intros r Hr; apply Hlt; right; exact Hr).
  destruct (Z.leb_spec (timestamp row) (timestamp x)); [|reflexivity].
  specialize (Hlt x (or_introl eq_refl)). lia.
Qed.

(** What a call of [log_engagement] that returns has done. *)
Lemma log_engagement_returns now db student session latency correct log db' :
  EngagementService.log_engagement now db student session latency correct
    = Ok (log, db') ->
  log = {| log_id := Z.of_nat (length (engagement_logs db)) + 1;
           log_student_id := student;
           engagement_level := EngagementClassifier._classify_with_rules latency correct;
           log_session_id := session;
           timestamp := now |} /\
  insert_fault db log = None /\
  db' = with_engagement_logs (engagement_logs db ++ [log]) db.
Proof.
  unfold EngagementService.log_engagement, EngagementService.classify_engagement,
    EngagementService.classifier.
  rewrite classify_falls_back_to_rules. cbv zeta.
  destruct (insert_fault db _) eqn:Hins; [discriminate|].
  intros [= <- <-]. auto.
Qed.

(** X3: recording a response and reading the tier back. Whenever
    [log_engagement] returns, the event it returns carries the tier the
    rules give for the response and the instant of the call; and when the
    store answers reads of the pair and the new event is later than every
    earlier event of the pair, [get_current_engagement] on the new table
    returns that tier. *)
Theorem log_then_current (now : Z) (db : Database)
    (student session latency : Z) (correct : bool)
    (log : EngagementLog) (db' : Database)
    (Hlog : EngagementService.log_engagement now db student session latency correct
            = Ok (log, db')) :
  engagement_level log = EngagementClassifier._classify_with_rules latency correct /\
  timestamp log = now /\
  (query_fault db student session = None ->
   (forall r, In r (EngagementService.rows_of db student session) ->
              timestamp r < now) ->
   EngagementService.get_current_engagement db' student session
     = Ok (Some (EngagementClassifier._classify_with_rules latency correct))).
Proof.
  apply log_engagement_returns in Hlog. destruct Hlog as (-> & _ & ->).
  split; [reflexivity|]. split; [reflexivity|]. intros Hread Hlater.
  unfold EngagementService.get_current_engagement. simpl. rewrite Hread.
  rewrite rows_of_logged, !Z.eqb_refl. simpl.
  rewrite first_order_by_newest; [reflexivity|]. exact Hlater.
Qed.

Lemma log_then_current_witness :
  exists log db',
    EngagementService.log_engagement 60 logged_store 1 42 1200 true = Ok (log, db') /\
    EngagementService.get_current_engagement db' 1 42 = Ok (Some ACTIVE).
Proof.
  eexists _, _. split; [vm_compute; reflexivity|].
  refine (proj2 (proj2 (log_then_current 60 logged_store 1 42 1200 true _ _
                          eq_refl)) eq_refl _).
  intros r Hr. vm_compute in Hr.
  destruct Hr as [<-|[<-|[<-|[]]]]; reflexivity.
Defined.



(** ** Starting and stopping the engine *)

(** X10: starting and stopping the engine. [start] on a running engine only
    logs a warning and [stop] on a stopped engine does nothing. A [start]
    that returns leaves the engine marked running and a [stop] that returns
    leaves it marked stopped. Neither touches the rosters, the wiring, the
    database or the push callback's record, so a stop and a restart forget no
    monitored session. *)
Theorem engine_start_stop (w : World) :
  (_running (adaptive_engine w) = true ->
   Engine.start w
   = (Ok tt, observe [Log WARNING "Adaptive engine already running"] [] 0 w)) /\
  (_running (adaptive_engine w) = false -> Engine.stop w = (Ok tt, w)) /\
  (fst (Engine.start w) = Ok tt ->
   _running (adaptive_engine (exec Engine.start w)) = true) /\
  (fst (Engine.stop w) = Ok tt ->
   _running (adaptive_engine (exec Engine.stop w)) = false) /\
  (forall op, op = Engine.start \/ op = Engine.stop ->
     active_sessions (adaptive_engine (exec op w)) = active_sessions (adaptive_engine w) /\
     db_session_factory (adaptive_engine (exec op w))
       = db_session_factory (adaptive_engine w) /\
     question_push_callback (adaptive_engine (exec op w))
       = question_push_callback (adaptive_engine w) /\
     database (exec op w) = database w /\
     push_calls (exec op w) = push_calls w).
Proof.
  split; [|split; [|split; [|split]]].
  - intros Hrun. unfold Engine.start, mbind, M_bind, bind, gets. rewrite Hrun.
    unfold logger, modify, observe. simpl. rewrite app_nil_r. reflexivity.
  - intros Hrun. unfold Engine.stop, mbind, M_bind, bind, gets. rewrite Hrun.
    reflexivity.
  - intros _. unfold exec, Engine.start, mbind, M_bind, bind, gets.
    destruct (_running (adaptive_engine w)) eqn:Hrun; simpl; [exact Hrun|reflexivity].
  - intros _. unfold exec, Engine.stop, mbind, M_bind, bind, gets.
    destruct (_running (adaptive_engine w)) eqn:Hrun; simpl; [reflexivity|exact Hrun].
  - intros op [-> | ->];
      unfold exec, Engine.start, Engine.stop, mbind, M_bind, bind, gets;
      destruct (_running (adaptive_engine w)); simpl; repeat split; reflexivity.
Qed.

Lemma engine_start_stop_witness :
  _running (adaptive_engine fresh_world) = false /\
  _running (adaptive_engine (exec Engine.start fresh_world)) = true /\
  Engine.stop fresh_world = (Ok tt, fresh_world).
Proof.
  destruct (engine_start_stop fresh_world) as (_ & Hstop & Hstart & _).
  split; [reflexivity|]. split; [exact (Hstart eq_refl)|exact (Hstop eq_refl)].
Defined.

(** ** Connecting, then sending *)

(** X18: connecting an instructor channel and sending to it. After a
    [connect] that returned, whatever the owner id, 0 included, the channel
    is mapped to the owner and is in the owner's set together with every
    channel that was there, no other owner's set has changed, and the next
    dashboard update to the owner is sent on the new channel. *)
Theorem instructor_connect_then_send (w : Net InstructorWebSocketManager.t)
    (ws : WebSocket) (owner : Z) (update : Message)
    (Hconnect : fst (InstructorWebSocketManager.connect ws owner w) = Ok tt) :
  let w1 := exec (InstructorWebSocketManager.connect ws owner) w in
  PyDict.get (InstructorWebSocketManager.instructor_sessions (self w1)) ws
    = Some owner /\
  InstructorWebSocketManager.connections_of (self w1) owner
    = InstructorWebSocketManager.connections_of (self w) owner ∪ {[ws]} /\
  (forall other, other <> owner ->
     InstructorWebSocketManager.connections_of (self w1) other
     = InstructorWebSocketManager.connections_of (self w) other) /\
  In (ws, update)
    (attempts (net (exec (InstructorWebSocketManager.send_dashboard_update owner update)
                      w1))).
Proof.
  cbv zeta. clear Hconnect.
  assert (Hconn : InstructorWebSocketManager.connections_of
                    (self (exec (InstructorWebSocketManager.connect ws owner) w)) owner
                  = InstructorWebSocketManager.connections_of (self w) owner ∪ {[ws]}).
  { rewrite InstructorFacts.instructor_connect_self,
      InstructorFacts.instructor_connections_of_set.
    destruct (decide (owner = owner)); [reflexivity|congruence]. }
  split; [|split; [exact Hconn|split]].
  - rewrite InstructorFacts.instructor_connect_self. simpl. apply get_set_eq.
  - intros other Hne.
    rewrite InstructorFacts.instructor_connect_self,
      InstructorFacts.instructor_connections_of_set.
    destruct (decide (owner = other)); [congruence|reflexivity].
  - pose proof (send_dashboard_update_run
                  (exec (InstructorWebSocketManager.connect ws owner) w) owner update)
      as H.
    cbv zeta in H. destruct H as (_ & _ & Ha & _). rewrite Ha.
    apply in_or_app. right. apply In_addressed.
    apply list_elem_of_In, elem_of_elements. rewrite Hconn.
    apply elem_of_union_r, elem_of_singleton. reflexivity.
Qed.

Lemma instructor_connect_then_send_witness :
  In (1%nat, "update")
    (attempts (net (exec (InstructorWebSocketManager.send_dashboard_update 3 "update")
                      (exec (InstructorWebSocketManager.connect 1%nat 3)
                         {| self := InstructorWebSocketManager.init;
                            net := quiet_transport healthy |})))).
Proof.
  pose proof (instructor_connect_then_send
                {| self := InstructorWebSocketManager.init;
                   net := quiet_transport healthy |} 1%nat 3 "update" eq_refl) as H.
  cbv zeta in H. destruct H as (_ & _ & _ & H). exact H.
Defined.

(** X19: connecting a student channel and sending to the student. After a
    [connect] that returned, the channel is mapped to the student and is in
    the session's set, and a question sent to that student in that session
    is tried on exactly one channel, which is a channel of that student in
    that session (the new one, or an earlier one of the same student). *)
Theorem student_connect_then_send (w : Net StudentWebSocketManager.t)
    (ws : WebSocket) (session_id student_id : Z) (question : Message)
    (Hconnect : fst (StudentWebSocketManager.connect ws session_id student_id w)
                = Ok tt) :
  let w1 := exec (StudentWebSocketManager.connect ws session_id student_id) w in
  student_channel (self w1) session_id student_id ws /\
  exists target,
    In (target, student_id)
      (PyDict.items (StudentWebSocketManager.student_sessions (self w1))) /\
    target ∈ StudentWebSocketManager.connections_of (self w1) session_id /\
    attempts (net (exec (StudentWebSocketManager.send_question_to_student
                           session_id student_id question) w1))
    = attempts (net w1) ++ [(target, question)].
Proof.
  cbv zeta. clear Hconnect.
  assert (Hchan : student_channel
            (self (exec (StudentWebSocketManager.connect ws session_id student_id) w))
            session_id student_id ws).
  { rewrite StudentFacts.student_connect_self. split; simpl.
    - apply get_set_eq.
    - unfold StudentWebSocketManager.connections_of. simpl. rewrite get_set_eq.
      simpl. apply elem_of_union_r, elem_of_singleton. reflexivity. }
  split; [exact Hchan|].
  set (w1 := exec (StudentWebSocketManager.connect ws session_id student_id) w) in *.
  destruct (StudentWebSocketManager.find_target (self w1) session_id student_id)
    as [target|] eqn:Hfind.
  - exists target. destruct (find_target_channel _ _ _ _ Hfind) as [Hin Hmem].
    split; [exact Hin|]. split; [exact Hmem|].
    pose proof (send_question_to_student_run w1 session_id student_id question) as H.
    cbv zeta in H. destruct H as (_ & _ & Ha & _). rewrite Ha, Hfind. reflexivity.
  - exfalso. unfold StudentWebSocketManager.find_target in Hfind.
    destruct (find _ _) as [found|] eqn:Hf; [discriminate|].
    destruct Hchan as [Hget Hmem].
    pose proof (find_none_all _ _ (ws, student_id) Hf (get_In _ _ _ Hget)) as Hp.
    simpl in Hp. rewrite Z.eqb_refl, (bool_decide_eq_true_2 _ Hmem) in Hp.
    discriminate.
Qed.

Lemma student_connect_then_send_witness :
  student_channel
    (self (exec (StudentWebSocketManager.connect 1%nat 5 7)
             {| self := StudentWebSocketManager.init;
                net := quiet_transport healthy |})) 5 7 1%nat.
Proof.
  pose proof (student_connect_then_send
                {| self := StudentWebSocketManager.init;
                   net := quiet_transport healthy |} 1%nat 5 7 "question" eq_refl)
    as H.
  cbv zeta in H. exact (proj1 H).
Defined.
